(** * BFSI_Agents: the loan-application workflow, its tools and its router

    A shallow embedding of the Python sources

      - [src/tools/crm_tools.py], [src/tools/calculation_tools.py],
        [src/tools/credit_tools.py], [src/tools/document_tools.py],
      - [src/agents/sales_agent.py], [src/agents/underwriting_agent.py],
        [src/agents/sanction_agent.py],
      - [src/workflow/graph.py],

    followed by the properties of the specification that concern them.

    Conventions.
    - Python numbers are exact rationals ([Q]); an [int] is an integral
      rational or a [Z] where the code only ever uses it as an integer.
      Binary floating point (representation error, overflow) is not part of
      the model: [/], [**] and [round] are the exact operations.  The code
      computes in binary64, where a sum that rounds to [1.0] makes the
      annuity formula divide by zero, [**] overflows for very long tenures
      and a value next to a rounding tie can land on the neighbouring cent.
      The statements about computed amounts are therefore made for
      principals up to [10^8], annual rates of zero or from 1% to 100% and
      tenures up to 480 months, where none of this happens, and with a
      tolerance of one cent, which is twice what the exact operations need.
    - A Python [str] is the string of the bytes of its UTF-8 encoding.
    - A Python exception is the [Raise] outcome of the [result] type.
    - The customer file [data/customers.json] is the argument [db].
    - The clock, the installation directory and the file system are the
      [world] that the effectful functions pass along. *)

From Stdlib Require Import ZArith QArith Qround Qpower Qabs Lqa Lia.
From Stdlib Require Import Bool List String Ascii.
Import ListNotations.

(* ================================================================== *)
(** * Python primitives *)
(* ================================================================== *)

Module py.

Local Open Scope Q_scope.

(** ** Exceptions *)

Inductive exn : Set :=
| ZeroDivisionError
| IndexError
| AttributeError.

Inductive result (A : Type) : Type :=
| Ok (a : A)
| Raise (e : exn).

Arguments Ok {A} a.
Arguments Raise {A} e.

Definition bind {A B} (c : result A) (k : A -> result B) : result B :=
  match c with
  | Ok a => k a
  | Raise e => Raise e
  end.

(** ** Truthiness ([not x], [x or y], [all([...])]) *)

Definition truthy_num (x : option Q) : bool :=
  match x with
  | Some q => negb (Qeq_bool q 0)
  | None => false
  end.

Definition truthy_int (x : option Z) : bool :=
  match x with
  | Some z => negb (z =? 0)%Z
  | None => false
  end.

Definition truthy_str (x : option string) : bool :=
  match x with
  | Some s => negb (s =? "")%string
  | None => false
  end.

(** The value of [x] when [x] is truthy. *)
Definition as_num (x : option Q) : option Q :=
  if truthy_num x then x else None.

Definition as_int (x : option Z) : option Z :=
  if truthy_int x then x else None.

Definition as_str (x : option string) : option string :=
  if truthy_str x then x else None.

(** [x or y] *)
Definition or_num (x y : option Q) : option Q :=
  if truthy_num x then x else y.

(** ** Arithmetic *)

(** [a / b] on numbers. *)
Definition div (a b : Q) : result Q :=
  if Qeq_bool b 0 then Raise ZeroDivisionError else Ok (a / b).

(** [a ** n] for an integer exponent. *)
Definition pow (a : Q) (n : Z) : result Q :=
  if (n <? 0)%Z && Qeq_bool a 0 then Raise ZeroDivisionError else Ok (a ^ n).

(** Nearest integer, ties to the even one. *)
Definition round_half_even (q : Q) : Z :=
  let f := Qfloor q in
  match Qcompare (q - inject_Z f) (1 # 2) with
  | Lt => f
  | Gt => (f + 1)%Z
  | Eq => if Z.even f then f else (f + 1)%Z
  end.

(** [round(q, ndigits)] for [ndigits >= 0]. *)
Definition round (q : Q) (ndigits : nat) : Q :=
  let scale := inject_Z (10 ^ Z.of_nat ndigits) in
  inject_Z (round_half_even (q * scale)) / scale.

Definition max (a b : Q) : Q := if Qle_bool a b then b else a.
Definition min (a b : Q) : Q := if Qle_bool a b then a else b.

(** ** Text *)

Local Open Scope string_scope.

Definition digit_char (d : Z) : ascii := ascii_of_nat (48 + Z.to_nat d).

Fixpoint digits_fuel (fuel : nat) (n : Z) (acc : string) : string :=
  match fuel with
  | O => acc
  | S fuel' =>
      let acc' := String (digit_char (n mod 10)) acc in
      if (n <? 10)%Z then acc' else digits_fuel fuel' (n / 10) acc'
  end.

(** Decimal digits of a natural number; a number [n] has at most
    [log2 n + 1] of them. *)
Definition str_of_nonneg (n : Z) : string :=
  digits_fuel (S (Z.to_nat (Z.log2 n))) n "".

(** [str(z)] of an [int]. *)
Definition str (z : Z) : string :=
  if (z <? 0)%Z then "-" ++ str_of_nonneg (- z) else str_of_nonneg z.

(** [s[-n:]] *)
Definition slice_last (n : nat) (s : string) : string :=
  substring (String.length s - n) n s.

Fixpoint repeat_char (c : ascii) (n : nat) : string :=
  match n with
  | O => ""
  | S n' => String c (repeat_char c n')
  end.

(** [s.zfill(width)] for a string of digits. *)
Definition zfill (width : nat) (s : string) : string :=
  repeat_char "0" (width - String.length s) ++ s.

(** Thousands separators, on the digits in reverse order. *)
Fixpoint group3_rev (digits : list ascii) (k : nat) : list ascii :=
  match digits with
  | [] => []
  | d :: rest =>
      match k, rest with
      | 2%nat, _ :: _ => d :: ","%char :: group3_rev rest 0
      | _, _ => d :: group3_rev rest (S k)
      end
  end.

Definition group3 (s : string) : string :=
  string_of_list_ascii (rev (group3_rev (rev (list_ascii_of_string s)) 0)).

(** [format(q, ".<decimals>f")], and [",.<decimals>f"] with [grouping]:
    the nearest multiple of [10^-decimals], ties to even. *)
Definition format_f (grouping : bool) (decimals : nat) (q : Q) : string :=
  let scale := (10 ^ Z.of_nat decimals)%Z in
  let n := round_half_even (Qabs q * inject_Z scale) in
  let int_part := str_of_nonneg (n / scale) in
  (if Qle_bool 0 q then "" else "-")
  ++ (if grouping then group3 int_part else int_part)
  ++ match decimals with
     | O => ""
     | _ => "." ++ zfill decimals (str_of_nonneg (n mod scale))
     end.

(** [format(q, ".<decimals>%")] *)
Definition format_percent (decimals : nat) (q : Q) : string :=
  format_f false decimals (q * 100) ++ "%".

(** ** Words and paths *)

(** The white space of one byte, as [str.split()] sees it. *)
Definition is_space (c : ascii) : bool :=
  let n := nat_of_ascii c in
  ((9 <=? n) && (n <=? 13) || (28 <=? n) && (n <=? 32))%nat.

(** The number of bytes of the white-space character that [s] starts with,
    [0] when it starts with none.  Besides the white space of one byte,
    [str.split()] splits at U+0085 and U+00A0 (two bytes), at U+1680,
    U+2000 to U+200A, U+2028, U+2029, U+202F, U+205F and U+3000 (three
    bytes). *)
Definition space_bytes (s : string) : nat :=
  match s with
  | EmptyString => 0
  | String c rest =>
      if is_space c then 1
      else
        match nat_of_ascii c, rest with
        | 194, String d _ =>
            let d := nat_of_ascii d in
            if ((d =? 133) || (d =? 160))%nat then 2 else 0
        | 225, String d (String e _) =>
            if ((nat_of_ascii d =? 154) && (nat_of_ascii e =? 128))%nat
            then 3 else 0
        | 226, String d (String e _) =>
            let d := nat_of_ascii d in
            let e := nat_of_ascii e in
            if ((d =? 128)
                && ((128 <=? e) && (e <=? 138) || (e =? 168) || (e =? 169)
                    || (e =? 175))
                || (d =? 129) && (e =? 159))%nat
            then 3 else 0
        | 227, String d (String e _) =>
            if ((nat_of_ascii d =? 128) && (nat_of_ascii e =? 128))%nat
            then 3 else 0
        | _, _ => 0
        end
  end%nat.

(** The bytes of [s] up to the first white space. *)
Fixpoint take_word (s : string) : string :=
  match s with
  | EmptyString => ""
  | String c rest =>
      match space_bytes s with
      | O => String c (take_word rest)
      | S _ => ""
      end
  end.

(** The first word of [s] once [skip] more bytes of white space have been
    passed. *)
Fixpoint split_from (skip : nat) (s : string) : result string :=
  match s with
  | EmptyString => Raise IndexError
  | String c rest =>
      match skip with
      | S more => split_from more rest
      | O =>
          match space_bytes s with
          | O => Ok (take_word s)
          | S more => split_from more rest
          end
      end
  end.

(** [s.split()[0]] *)
Definition split_first (s : string) : result string := split_from 0 s.

Fixpoint has_slash (p : string) : bool :=
  match p with
  | EmptyString => false
  | String c rest => (c =? "/")%char || has_slash rest
  end.

(** [os.path.basename(p)]: what follows the last ["/"]. *)
Fixpoint basename (p : string) : string :=
  match p with
  | EmptyString => ""
  | String c rest =>
      if has_slash rest then basename rest
      else if (c =? "/")%char then rest
      else p
  end.

Fixpoint ends_with_slash (p : string) : bool :=
  match p with
  | EmptyString => false
  | String c EmptyString => (c =? "/")%char
  | String _ rest => ends_with_slash rest
  end.

(** [os.path.join(a, b)] *)
Definition path_join (a b : string) : string :=
  match b with
  | String "/" _ => b
  | _ => if (a =? "") || ends_with_slash a then a ++ b else a ++ "/" ++ b
  end.

End py.

Notation "x <- c ;; k" := (py.bind c (fun x => k))
  (at level 61, c at next level, right associativity).

Import py.

(** ** Further primitives: substrings and random integers *)

Module pyx.

(** [needle in hay] on strings. *)
Fixpoint contains (needle hay : string) : bool :=
  String.prefix needle hay
  || match hay with
     | EmptyString => false
     | String _ rest => contains needle rest
     end.

(** [random.randint(lo, hi)], for [lo <= hi]: some integer of the closed
    range, here the one the generator's raw output [entropy] selects. *)
Definition randint (lo hi entropy : Z) : Z :=
  (lo + entropy mod (hi - lo + 1))%Z.

End pyx.

(* ================================================================== *)
(** * The clock and the file system *)
(* ================================================================== *)

Module os.

Local Open Scope string_scope.

(** A reading of [datetime.now()]. *)
Record datetime : Type := {
  year : Z;
  month : Z;
  day : Z;
  hour : Z;
  minute : Z;
  second : Z
}.

(** [t.strftime('%Y%m%d')] *)
Definition strftime_Ymd (t : datetime) : string :=
  py.zfill 4 (py.str (year t)) ++ py.zfill 2 (py.str (month t))
  ++ py.zfill 2 (py.str (day t)).

(** [t.strftime('%Y%m%d_%H%M%S')] *)
Definition strftime_Ymd_HMS (t : datetime) : string :=
  strftime_Ymd t ++ "_" ++ py.zfill 2 (py.str (hour t))
  ++ py.zfill 2 (py.str (minute t)) ++ py.zfill 2 (py.str (second t)).

(** A date that is kept as the reading it is computed from, the days added
    to it and its format; calendar arithmetic is not modelled. *)
Record date_text : Type := {
  base : datetime;
  plus_days : Z;
  date_format : string
}.

(** What the effectful functions see and change: the successive readings of
    the clock ([clock n] is the [n]-th reading since the start), the
    directory of the running module, the directories made, the files
    written (the latest first) and the lines printed. *)
Record world : Type := {
  clock : nat -> datetime;
  ticks : nat;
  module_dir : string;
  dirs : list string;
  files : list string;
  stdout : list string
}.

Definition M (A : Type) : Type := world -> result A * world.

Definition ret {A} (a : A) : M A := fun w => (Ok a, w).

Definition raise {A} (e : exn) : M A := fun w => (Raise e, w).

Definition bind {A B} (c : M A) (k : A -> M B) : M B :=
  fun w =>
    match c w with
    | (Ok a, w') => k a w'
    | (Raise e, w') => (Raise e, w')
    end.

Definition lift {A} (r : result A) : M A := fun w => (r, w).

(** [datetime.now()] *)
Definition now : M datetime :=
  fun w =>
    (Ok (clock w (ticks w)),
     {| clock := clock w; ticks := S (ticks w); module_dir := module_dir w;
        dirs := dirs w; files := files w; stdout := stdout w |}).

(** [os.path.dirname(__file__)] *)
Definition dirname_of_module : M string :=
  fun w => (Ok (module_dir w), w).

(** [os.makedirs(d, exist_ok=True)] *)
Definition makedirs (d : string) : M unit :=
  fun w =>
    (Ok tt,
     {| clock := clock w; ticks := ticks w; module_dir := module_dir w;
        dirs := d :: dirs w; files := files w; stdout := stdout w |}).

(** Writing a file at [path] (here: [doc.build(story)]). *)
Definition write_file (path : string) : M unit :=
  fun w =>
    (Ok tt,
     {| clock := clock w; ticks := ticks w; module_dir := module_dir w;
        dirs := dirs w; files := path :: files w; stdout := stdout w |}).

(** [print(line)] *)
Definition print (line : string) : M unit :=
  fun w =>
    (Ok tt,
     {| clock := clock w; ticks := ticks w; module_dir := module_dir w;
        dirs := dirs w; files := files w; stdout := line :: stdout w |}).

End os.

Notation "x <~ c ;; k" := (os.bind c (fun x => k))
  (at level 61, c at next level, right associativity).

(* ================================================================== *)
(** * hashlib.md5 *)
(* ================================================================== *)

(** The MD5 digest (RFC 1321) on 32-bit words held in [Z], as
    [crm_tools.simulate_otp_generation] uses it. *)
Module hashlib.

Local Open Scope Z_scope.

Definition mask32 : Z := 0xffffffff.

Definition add32 (a b : Z) : Z := Z.land (a + b) mask32.

Definition not32 (a : Z) : Z := Z.lxor a mask32.

Definition rotl32 (x c : Z) : Z :=
  Z.land (Z.lor (Z.shiftl x c) (Z.shiftr x (32 - c))) mask32.

(** [K[i] = floor(2^32 * abs(sin(i + 1)))] *)
Definition K : list Z :=
  [ 0xd76aa478; 0xe8c7b756; 0x242070db; 0xc1bdceee;
    0xf57c0faf; 0x4787c62a; 0xa8304613; 0xfd469501;
    0x698098d8; 0x8b44f7af; 0xffff5bb1; 0x895cd7be;
    0x6b901122; 0xfd987193; 0xa679438e; 0x49b40821;
    0xf61e2562; 0xc040b340; 0x265e5a51; 0xe9b6c7aa;
    0xd62f105d; 0x02441453; 0xd8a1e681; 0xe7d3fbc8;
    0x21e1cde6; 0xc33707d6; 0xf4d50d87; 0x455a14ed;
    0xa9e3e905; 0xfcefa3f8; 0x676f02d9; 0x8d2a4c8a;
    0xfffa3942; 0x8771f681; 0x6d9d6122; 0xfde5380c;
    0xa4beea44; 0x4bdecfa9; 0xf6bb4b60; 0xbebfbc70;
    0x289b7ec6; 0xeaa127fa; 0xd4ef3085; 0x04881d05;
    0xd9d4d039; 0xe6db99e5; 0x1fa27cf8; 0xc4ac5665;
    0xf4292244; 0x432aff97; 0xab9423a7; 0xfc93a039;
    0x655b59c3; 0x8f0ccc92; 0xffeff47d; 0x85845dd1;
    0x6fa87e4f; 0xfe2ce6e0; 0xa3014314; 0x4e0811a1;
    0xf7537e82; 0xbd3af235; 0x2ad7d2bb; 0xeb86d391 ].

Definition shifts : list Z :=
  [ 7; 12; 17; 22; 7; 12; 17; 22; 7; 12; 17; 22; 7; 12; 17; 22;
    5; 9; 14; 20; 5; 9; 14; 20; 5; 9; 14; 20; 5; 9; 14; 20;
    4; 11; 16; 23; 4; 11; 16; 23; 4; 11; 16; 23; 4; 11; 16; 23;
    6; 10; 15; 21; 6; 10; 15; 21; 6; 10; 15; 21; 6; 10; 15; 21 ].

Definition at_index (l : list Z) (i : Z) : Z := nth (Z.to_nat i) l 0.

(** Little-endian 32-bit words of a list of bytes. *)
Fixpoint words_of (bytes : list Z) : list Z :=
  match bytes with
  | b0 :: b1 :: b2 :: b3 :: rest =>
      (b0 + Z.shiftl b1 8 + Z.shiftl b2 16 + Z.shiftl b3 24) :: words_of rest
  | _ => []
  end.

Definition bytes_of_word (x : Z) : list Z :=
  [ Z.land x 255; Z.land (Z.shiftr x 8) 255; Z.land (Z.shiftr x 16) 255;
    Z.land (Z.shiftr x 24) 255 ].

Definition registers : Type := (Z * Z * Z * Z)%type.

Definition step (M : list Z) (r : registers) (i : Z) : registers :=
  let '(A, B, C, D) := r in
  let '(F, g) :=
    if i <? 16 then (Z.lor (Z.land B C) (Z.land (not32 B) D), i)
    else if i <? 32 then
      (Z.lor (Z.land D B) (Z.land (not32 D) C), (5 * i + 1) mod 16)
    else if i <? 48 then (Z.lxor B (Z.lxor C D), (3 * i + 5) mod 16)
    else (Z.lxor C (Z.lor B (not32 D)), (7 * i) mod 16) in
  let F' := add32 (add32 (add32 F A) (at_index K i)) (at_index M g) in
  (D, add32 B (rotl32 F' (at_index shifts i)), B, C).

Definition compress (r : registers) (chunk : list Z) : registers :=
  let M := words_of chunk in
  let '(A, B, C, D) := fold_left (step M) (map Z.of_nat (seq 0 64)) r in
  let '(a0, b0, c0, d0) := r in
  (add32 a0 A, add32 b0 B, add32 c0 C, add32 d0 D).

Fixpoint chunks (n : nat) (bytes : list Z) (r : registers) : registers :=
  match n with
  | O => r
  | S n' => chunks n' (skipn 64 bytes) (compress r (firstn 64 bytes))
  end.

(** The message, a byte [0x80], zeros up to 56 modulo 64, and the length in
    bits as eight little-endian bytes. *)
Definition pad (message : list Z) : list Z :=
  let len := Z.of_nat (List.length message) in
  let zeros := Z.to_nat ((55 - len) mod 64) in
  let bits := len * 8 in
  message ++ [ 128 ] ++ repeat 0 zeros
  ++ bytes_of_word (Z.land bits mask32)
  ++ bytes_of_word (Z.land (Z.shiftr bits 32) mask32).

(** [hashlib.md5(message).digest()] *)
Definition md5 (message : list Z) : list Z :=
  let padded := pad message in
  let '(a0, b0, c0, d0) :=
    chunks (List.length padded / 64) padded
      (0x67452301, 0xefcdab89, 0x98badcfe, 0x10325476) in
  bytes_of_word a0 ++ bytes_of_word b0 ++ bytes_of_word c0
  ++ bytes_of_word d0.

(** [int(hashlib.md5(message).hexdigest(), 16)] *)
Definition md5_int (message : list Z) : Z :=
  fold_left (fun acc b => acc * 256 + b) (md5 message) 0.

(** [s.encode()], a string being its bytes. *)
Definition encode (s : string) : list Z :=
  map (fun c => Z.of_nat (nat_of_ascii c)) (list_ascii_of_string s).

End hashlib.

(* ================================================================== *)
(** * src/tools/crm_tools.py *)
(* ================================================================== *)

Module crm_tools.

Local Open Scope Q_scope.

(** An entry of a customer's ["existing_loans"]; [loan_emi] and
    [outstanding] are read with [.get(key, 0)]. *)
Record loan : Type := {
  loan_type : string;
  outstanding : Q;
  loan_emi : Q
}.

(** A customer of [data/customers.json], with the keys the tools read. *)
Record customer : Type := {
  customer_id : string;
  name : string;
  phone : string;
  email : string;
  address : string;
  credit_score : Z;
  pre_approved_limit : Q;
  monthly_salary : Q;
  existing_loans : list loan;
  customer_segment : string;
  employment_type : string;
  employer : string
}.

Definition get_customer_by_id (db : list customer) (cid : string)
  : option customer :=
  find (fun c => (customer_id c =? cid)%string) db.

Definition get_existing_loans (db : list customer) (cid : string)
  : list loan :=
  match get_customer_by_id db cid with
  | Some c => existing_loans c
  | None => []
  end.

(** [sum(...)] adds from the left, starting at [0]. *)
Definition sum (l : list Q) : Q := fold_left Qplus l 0.

Definition calculate_total_existing_emi (db : list customer) (cid : string)
  : Q :=
  sum (map loan_emi (get_existing_loans db cid)).

Definition simulate_otp_generation (phone : string) : os.M string :=
  let otp :=
    py.slice_last 6 (py.str (hashlib.md5_int (hashlib.encode phone))) in
  _ <~ os.print ("[DEMO] OTP for " ++ phone ++ ": " ++ otp)%string ;;
  os.ret otp.

Definition verify_otp (phone provided_otp generated_otp : string) : bool :=
  (provided_otp =? generated_otp)%string.


Definition get_customer_by_phone (db : list customer) (number : string)
  : option customer :=
  find (fun c => (phone c =? number)%string) db.

(** An entry of the ["mismatches"] list. *)
Record mismatch : Type := {
  field : string;
  crm_value : string;
  provided_value : string
}.

(** The dictionary returned by [verify_customer_details]; a key that a
    branch leaves out is [None]. *)
Record verification : Type := {
  verified : bool;
  reason : option string;
  customer_data : option customer;
  mismatches : list mismatch;
  kyc_status : option string
}.

(** [str.lower] is the argument [lower]; the ["kyc_status"] key of a
    customer, which [customer] does not carry, is the argument [kyc]. *)
Definition verify_customer_details (lower : string -> string)
  (kyc : customer -> option string) (db : list customer) (cid : string)
  (phone_given address_given : option string) : verification :=
  match get_customer_by_id db cid with
  | None =>
      {| verified := false;
         reason := Some "Customer not found in CRM"%string;
         customer_data := None;
         mismatches := [];
         kyc_status := None |}
  | Some customer =>
      let mismatches := [] in
      let mismatches :=
        match py.as_str phone_given with
        | Some given =>
            if negb (phone customer =? given)%string then
              mismatches
              ++ [ {| field := "phone"; crm_value := phone customer;
                      provided_value := given |} ]
            else mismatches
        | None => mismatches
        end in
      let mismatches :=
        match py.as_str address_given with
        | Some given =>
            if negb (lower (address customer) =? lower given)%string then
              (* check for a partial match *)
              if negb (pyx.contains (lower given) (lower (address customer)))
              then
                mismatches
                ++ [ {| field := "address"; crm_value := address customer;
                        provided_value := given |} ]
              else mismatches
            else mismatches
        | None => mismatches
        end in
      {| verified := (List.length mismatches =? 0)%nat;
         reason := None;
         customer_data := Some customer;
         mismatches := mismatches;
         kyc_status :=
           Some match kyc customer with
                | Some status => status
                | None => "unknown"%string
                end |}
  end.

End crm_tools.

(* ================================================================== *)
(** * src/tools/calculation_tools.py *)
(* ================================================================== *)

Module calculation_tools.

Local Open Scope Q_scope.

Definition calculate_emi (principal annual_rate : Q) (tenure_months : Z)
  : result Q :=
  let monthly_rate := annual_rate / 12 in
  if Qeq_bool monthly_rate 0 then
    py.div principal (inject_Z tenure_months)
  else
    growth <- py.pow (1 + monthly_rate) tenure_months ;;
    growth' <- py.pow (1 + monthly_rate) tenure_months ;;
    emi <- py.div (principal * monthly_rate * growth) (growth' - 1) ;;
    Ok (py.round emi 2).

Definition calculate_total_interest (principal annual_rate : Q)
  (tenure_months : Z) : result Q :=
  emi <- calculate_emi principal annual_rate tenure_months ;;
  let total_payable := emi * inject_Z tenure_months in
  let total_interest := total_payable - principal in
  Ok (py.round total_interest 2).

Record offer : Type := {
  amount : Q;
  tenure_months : Z;
  tenure_display : string;
  interest_rate : Q;
  interest_rate_display : string;
  monthly_emi : Q;
  processing_fee : Q;
  total_interest : Q;
  total_payable : Q;
  savings_vs_market : Q
}.

Definition make_offer (requested_amount final_rate : Q) (tenure : Z)
  : result offer :=
  emi <- calculate_emi requested_amount final_rate tenure ;;
  total_interest <- calculate_total_interest requested_amount final_rate tenure ;;
  let total_payable := requested_amount + total_interest in
  let processing_fee := requested_amount * (2 # 100) in
  Ok {| amount := requested_amount;
        tenure_months := tenure;
        tenure_display :=
          (py.str (tenure / 12) ++ " year"
           ++ if (12 <? tenure)%Z then "s" else "")%string;
        interest_rate := final_rate;
        interest_rate_display :=
          (py.format_f false 2 (final_rate * 100) ++ "%")%string;
        monthly_emi := emi;
        processing_fee := py.round processing_fee 2;
        total_interest := total_interest;
        total_payable := total_payable;
        savings_vs_market :=
          py.round (((15 # 100) - final_rate) * requested_amount
                    * inject_Z tenure / 12) 2 |}.

(** The [for tenure in tenures] loop. *)
Fixpoint offers_for (requested_amount final_rate : Q) (tenures : list Z)
  : result (list offer) :=
  match tenures with
  | [] => Ok []
  | tenure :: rest =>
      o <- make_offer requested_amount final_rate tenure ;;
      os <- offers_for requested_amount final_rate rest ;;
      Ok (o :: os)
  end.

Definition generate_loan_offers (db : list crm_tools.customer) (cid : string)
  (requested_amount : Q) : result (list offer) :=
  match crm_tools.get_customer_by_id db cid with
  | None => Ok []
  | Some customer =>
      let credit_score := crm_tools.credit_score customer in
      let segment := crm_tools.customer_segment customer in
      let base_rate :=
        if (segment =? "premium")%string then 10 # 100
        else if (segment =? "prime")%string then 11 # 100
        else if (segment =? "preferred")%string then 12 # 100
        else 14 # 100 in
      let rate_adjustment :=
        if (800 <=? credit_score)%Z then - (1 # 100)
        else if (750 <=? credit_score)%Z then 0
        else if (700 <=? credit_score)%Z then 1 # 100
        else 2 # 100 in
      let final_rate := base_rate + rate_adjustment in
      offers_for requested_amount final_rate [12; 24; 36]%Z
  end.


(** The dictionary returned by [calculate_affordability]; a key that a
    branch leaves out is [None]. *)
Record affordability : Type := {
  affordable : bool;
  max_loan_amount : Q;
  max_emi : Q;
  unaffordable_reason : option string;
  salary_considered : option Q;
  existing_emi_considered : option Q;
  available_for_new_loan : option Q;
  emi_to_income_ratio : option Q
}.

Definition calculate_affordability (monthly_salary existing_emi : Q)
  (tenure_months : Z) (max_emi_ratio : Q) : result affordability :=
  let max_affordable_emi := monthly_salary * max_emi_ratio - existing_emi in
  if Qle_bool max_affordable_emi 0 then
    Ok {| affordable := false;
          max_loan_amount := 0;
          max_emi := 0;
          unaffordable_reason :=
            Some "Existing EMI obligations exceed maximum allowed ratio"%string;
          salary_considered := None;
          existing_emi_considered := None;
          available_for_new_loan := None;
          emi_to_income_ratio := None |}
  else
    (* a 12% annual rate is assumed *)
    let annual_rate := 12 # 100 in
    let monthly_rate := annual_rate / 12 in
    growth <- py.pow (1 + monthly_rate) tenure_months ;;
    growth' <- py.pow (1 + monthly_rate) tenure_months ;;
    max_loan_amount <-
      py.div (max_affordable_emi * (growth - 1)) (monthly_rate * growth') ;;
    Ok {| affordable := true;
          max_loan_amount := py.round max_loan_amount 2;
          max_emi := py.round max_affordable_emi 2;
          unaffordable_reason := None;
          salary_considered := Some monthly_salary;
          existing_emi_considered := Some existing_emi;
          available_for_new_loan := Some (py.round max_affordable_emi 2);
          emi_to_income_ratio := Some max_emi_ratio |}.

(** The default arguments [tenure_months=36], [max_emi_ratio=0.5]. *)
Definition calculate_affordability_default (monthly_salary existing_emi : Q)
  : result affordability :=
  calculate_affordability monthly_salary existing_emi 36 (5 # 10).

(** An entry of the list returned by [compare_loan_scenarios]. *)
Record scenario : Type := {
  scenario_tenure_months : Z;
  tenure_years : Q;
  scenario_monthly_emi : Q;
  scenario_total_interest : Q;
  scenario_total_payable : Q;
  interest_percentage : Q
}.

Definition make_scenario (amount interest_rate : Q) (tenure : Z)
  : result scenario :=
  emi <- calculate_emi amount interest_rate tenure ;;
  total_interest <- calculate_total_interest amount interest_rate tenure ;;
  let total_payable := amount + total_interest in
  years <- py.div (inject_Z tenure) 12 ;;
  share <- py.div total_interest amount ;;
  Ok {| scenario_tenure_months := tenure;
        tenure_years := years;
        scenario_monthly_emi := emi;
        scenario_total_interest := total_interest;
        scenario_total_payable := total_payable;
        interest_percentage := share * 100 |}.

(** The [for tenure in tenures] loop. *)
Fixpoint compare_loan_scenarios (amount : Q) (tenures : list Z)
  (interest_rate : Q) : result (list scenario) :=
  match tenures with
  | [] => Ok []
  | tenure :: rest =>
      sc <- make_scenario amount interest_rate tenure ;;
      scs <- compare_loan_scenarios amount rest interest_rate ;;
      Ok (sc :: scs)
  end.

(** The default arguments [tenures=[12, 24, 36, 48, 60]],
    [interest_rate=0.12]. *)
Definition compare_loan_scenarios_default (amount : Q)
  : result (list scenario) :=
  compare_loan_scenarios amount [12; 24; 36; 48; 60]%Z (12 # 100).

(** The three shapes of the dictionary returned by [negotiate_rate]. *)
Inductive negotiation : Type :=
| NegotiationUnknown (final_rate : Q) (message : string)
| NegotiationApproved (original_rate discount final_rate : Q)
    (message : string)
| NegotiationCountered (original_rate requested_discount counter_offer
                        max_discount : Q) (message : string).

(** [{x * 100:.2f}%] *)
Definition percent2 (x : Q) : string :=
  (py.format_f false 2 (x * 100) ++ "%")%string.

Definition negotiate_rate (db : list crm_tools.customer) (base_rate : Q)
  (cid : string) (requested_discount : Q) : negotiation :=
  match crm_tools.get_customer_by_id db cid with
  | None => NegotiationUnknown base_rate "Customer not found"
  | Some customer =>
      let segment := crm_tools.customer_segment customer in
      let credit_score := crm_tools.credit_score customer in
      let max_discount :=
        if (segment =? "premium")%string then 15 # 1000
        else if (segment =? "prime")%string then 1 # 100
        else if (segment =? "preferred")%string then 5 # 1000
        else 2 # 1000 in
      (* additional discount for excellent credit *)
      let max_discount :=
        if (800 <=? credit_score)%Z then max_discount + (3 # 1000)
        else max_discount in
      if Qle_bool requested_discount max_discount then
        NegotiationApproved base_rate requested_discount
          (base_rate - requested_discount)
          ("Rate negotiation successful! New rate: "
           ++ percent2 (base_rate - requested_discount))%string
      else
        let counter_discount := max_discount in
        NegotiationCountered base_rate requested_discount
          (base_rate - counter_discount) counter_discount
          ("We can offer up to " ++ percent2 counter_discount
           ++ " discount. New rate would be "
           ++ percent2 (base_rate - counter_discount))%string
  end.

End calculation_tools.


(* ================================================================== *)
(** * src/tools/credit_tools.py *)
(* ================================================================== *)

Module credit_tools.

Local Open Scope Q_scope.
Local Open Scope string_scope.

(** The successful answer of the bureau. *)
Record credit_report : Type := {
  cr_customer_id : string;
  cr_credit_score : Z;
  credit_report_date : string;
  credit_history_months : Z;
  active_accounts : nat;
  total_outstanding : Q;
  payment_history : string;
  bureau_remarks : string
}.

(** [{"success": False, "error": ...}] or [{"success": True, ...}]. *)
Inductive credit_result : Type :=
| CreditError (error : string)
| CreditSuccess (report : credit_report).

Definition fetch_credit_score (db : list crm_tools.customer) (cid : string)
  : credit_result :=
  match crm_tools.get_customer_by_id db cid with
  | None => CreditError "Customer not found"
  | Some customer =>
      CreditSuccess {|
        cr_customer_id := cid;
        cr_credit_score := crm_tools.credit_score customer;
        credit_report_date := "2025-10-15";
        credit_history_months := 60;
        active_accounts := List.length (crm_tools.existing_loans customer);
        total_outstanding :=
          crm_tools.sum
            (map crm_tools.outstanding (crm_tools.existing_loans customer));
        payment_history :=
          if (700 <? crm_tools.credit_score customer)%Z
          then "regular" else "irregular";
        bureau_remarks := "No adverse remarks"
      |}
  end.

Definition calculate_emi (principal annual_rate : Q) (tenure_months : Z)
  : result Q :=
  let monthly_rate := annual_rate / 12 in
  if Qeq_bool monthly_rate 0 then
    py.div principal (inject_Z tenure_months)
  else
    growth <- py.pow (1 + monthly_rate) tenure_months ;;
    growth' <- py.pow (1 + monthly_rate) tenure_months ;;
    emi <- py.div (principal * monthly_rate * growth) (growth' - 1) ;;
    Ok (py.round emi 2).

Definition calculate_loan_amount_from_emi (emi annual_rate : Q)
  (tenure_months : Z) : result Q :=
  let monthly_rate := annual_rate / 12 in
  if Qeq_bool monthly_rate 0 then
    Ok (emi * inject_Z tenure_months)
  else
    growth <- py.pow (1 + monthly_rate) tenure_months ;;
    growth' <- py.pow (1 + monthly_rate) tenure_months ;;
    principal <- py.div (emi * (growth - 1)) (monthly_rate * growth') ;;
    Ok (py.round principal 2).

(** The dictionary returned by [check_eligibility].  A key that a branch
    leaves out reads as the default its readers pass to [.get]: [None], [[]]
    or [False]. *)
Record eligibility : Type := {
  decision : string;
  reason : string;
  approved_amount : option Q;
  conditions : list string;
  recommendations : list string;
  instant_approval : bool;
  message : option string;
  monthly_emi : option Q;
  total_monthly_obligation : option Q;
  emi_to_income_ratio : option Q
}.

Definition verdict (d r : string) (amount : option Q)
  (conds recs : list string) : eligibility := {|
  decision := d;
  reason := r;
  approved_amount := amount;
  conditions := conds;
  recommendations := recs;
  instant_approval := false;
  message := None;
  monthly_emi := None;
  total_monthly_obligation := None;
  emi_to_income_ratio := None
|}.

Definition rupees (q : Q) : string := "₹" ++ py.format_f true 0 q.

Definition check_eligibility (db : list crm_tools.customer) (cid : string)
  (requested_amount : Q) (monthly_salary : option Q) : result eligibility :=
  match crm_tools.get_customer_by_id db cid with
  | None => Ok (verdict "rejected" "Customer not found in system" None [] [])
  | Some customer =>
      let credit_score := crm_tools.credit_score customer in
      let pre_approved_limit := crm_tools.pre_approved_limit customer in
      (* Rule 1: credit score check *)
      if (credit_score <? 700)%Z then
        Ok (verdict "rejected"
              ("Credit score (" ++ py.str credit_score
               ++ ") is below minimum requirement (700)")
              None []
              [ "Improve credit score by paying existing EMIs on time";
                "Reduce credit card utilization";
                "Clear any overdue payments" ])
      (* Rule 2: within the pre-approved limit *)
      else if Qle_bool requested_amount pre_approved_limit then
        Ok {| decision := "approved";
              reason := "Loan amount is within pre-approved limit";
              approved_amount := Some requested_amount;
              conditions := [];
              recommendations := [];
              instant_approval := true;
              message := None;
              monthly_emi := None;
              total_monthly_obligation := None;
              emi_to_income_ratio := None |}
      (* Rule 4: above twice the pre-approved limit *)
      else if negb (Qle_bool requested_amount (2 * pre_approved_limit)) then
        Ok (verdict "rejected"
              ("Requested amount (" ++ rupees requested_amount
               ++ ") exceeds maximum eligible limit ("
               ++ rupees (2 * pre_approved_limit) ++ ")")
              None []
              [ "Consider applying for " ++ rupees pre_approved_limit
                ++ " (pre-approved amount)";
                "Maximum eligible amount: "
                ++ rupees (2 * pre_approved_limit) ])
      else
        (* Rule 3: between the limit and twice the limit *)
        match monthly_salary with
        | None =>
            Ok {| decision := "needs_documents";
                  reason := "Salary slip verification required for amount above pre-approved limit";
                  approved_amount := None;
                  conditions := [ "salary_slip_upload" ];
                  recommendations := [];
                  instant_approval := false;
                  message :=
                    Some "Please upload your latest salary slip for verification";
                  monthly_emi := None;
                  total_monthly_obligation := None;
                  emi_to_income_ratio := None |}
        | Some monthly_salary =>
            let interest_rate := (12 # 100) / 12 in
            let tenure := 36%Z in
            emi <- calculate_emi requested_amount (interest_rate * 12) tenure ;;
            let total_existing_emi :=
              crm_tools.calculate_total_existing_emi db cid in
            let total_emi := emi + total_existing_emi in
            ratio <- py.div total_emi monthly_salary ;;
            if Qle_bool ratio (50 # 100) then
              Ok {| decision := "approved";
                    reason := "EMI-to-income ratio ("
                              ++ py.format_percent 1 ratio
                              ++ ") is within acceptable limits";
                    approved_amount := Some requested_amount;
                    conditions := [];
                    recommendations := [];
                    instant_approval := false;
                    message := None;
                    monthly_emi := Some emi;
                    total_monthly_obligation := Some total_emi;
                    emi_to_income_ratio := Some ratio |}
            else
              let max_affordable_emi :=
                monthly_salary * (50 # 100) - total_existing_emi in
              max_affordable_amount <-
                calculate_loan_amount_from_emi max_affordable_emi
                  (interest_rate * 12) tenure ;;
              Ok (verdict "rejected"
                    ("EMI-to-income ratio (" ++ py.format_percent 1 ratio
                     ++ ") exceeds maximum limit (50%)")
                    None []
                    [ "Maximum affordable loan amount: "
                      ++ rupees max_affordable_amount;
                      "Consider increasing tenure to reduce EMI";
                      "Current total EMI obligation: " ++ rupees total_emi
                      ++ " (" ++ py.format_percent 1 ratio ++ " of income)" ])
        end
  end.

Definition calculate_risk_score (db : list crm_tools.customer) (cid : string)
  (requested_amount : Q) : result Q :=
  match crm_tools.get_customer_by_id db cid with
  | None => Ok 100
  | Some customer =>
      let credit_score := crm_tools.credit_score customer in
      let pre_approved_limit := crm_tools.pre_approved_limit customer in
      let monthly_salary := crm_tools.monthly_salary customer in
      let existing_emi := crm_tools.calculate_total_existing_emi db cid in
      let credit_risk := py.max 0 (inject_Z (750 - credit_score) / 10) in
      share <- py.div requested_amount pre_approved_limit ;;
      let amount_risk := (share - 1) * 20 in
      dti <- py.div existing_emi monthly_salary ;;
      let dti_risk := dti * 30 in
      let risk_score := credit_risk + amount_risk + dti_risk in
      Ok (py.min 100 (py.max 0 risk_score))
  end.


(** The ["extracted_data"] of a salary slip. *)
Record salary_data : Type := {
  employee_name : string;
  slip_month : string;
  basic_salary : Q;
  hra : Q;
  special_allowance : Q;
  gross_salary : Q;
  deductions : Q;
  net_salary : Q
}.

(** The dictionary returned by [analyze_salary_slip]. *)
Record slip_analysis : Type := {
  analysis_success : bool;
  analysed_file : string;
  extracted_data : salary_data;
  verification_status : string;
  confidence_score : Q
}.

(** The extraction is simulated: the basic salary is drawn at random, the
    draw being decided by [entropy]. *)
Definition analyze_salary_slip (file_path : string) (entropy : Z)
  : slip_analysis :=
  let base_salary := inject_Z (pyx.randint 50000 150000 entropy) in
  let hra := base_salary * (4 # 10) in
  let special_allowance := base_salary * (2 # 10) in
  let gross_salary := base_salary + hra + special_allowance in
  let deductions := gross_salary * (15 # 100) in
  let net_salary := gross_salary - deductions in
  {| analysis_success := true;
     analysed_file := file_path;
     extracted_data :=
       {| employee_name := "As per document";
          slip_month := "September 2025";
          basic_salary := base_salary;
          hra := hra;
          special_allowance := special_allowance;
          gross_salary := gross_salary;
          deductions := deductions;
          net_salary := net_salary |};
     verification_status := "verified";
     confidence_score := 95 # 100 |}.

End credit_tools.

(* ================================================================== *)
(** * src/tools/document_tools.py *)
(* ================================================================== *)

Module document_tools.

Local Open Scope string_scope.

(** The successful answer of [generate_sanction_letter]. *)
Record letter : Type := {
  reference_number : string;
  file_path : string;
  filename : string;
  generated_at : os.datetime;
  validity_date : os.date_text
}.

(** [{"success": False, "error": ...}] or [{"success": True, ...}]. *)
Inductive letter_result : Type :=
| LetterError (error : string)
| LetterSuccess (l : letter).

(** The letter is laid out between the second reading of the clock and the
    build of the document; of the layout the model keeps the two further
    readings of the clock and the greeting line, which takes the first word
    of the customer's name. *)
Definition generate_sanction_letter (db : list crm_tools.customer)
  (cid : string) (loan_amount : Q) (tenure_months : Z)
  (interest_rate monthly_emi : Q) : os.M letter_result :=
  match crm_tools.get_customer_by_id db cid with
  | None => os.ret (LetterError "Customer not found")
  | Some customer =>
      t_ref <~ os.now ;;
      let ref_no := "SL/" ++ os.strftime_Ymd t_ref ++ "/" ++ cid in
      here <~ os.dirname_of_module ;;
      let output_dir := py.path_join here "../../data/output" in
      _ <~ os.makedirs output_dir ;;
      t_file <~ os.now ;;
      let filename :=
        "sanction_letter_" ++ cid ++ "_" ++ os.strftime_Ymd_HMS t_file
        ++ ".pdf" in
      let filepath := py.path_join output_dir filename in
      _ <~ os.now ;;
      _ <~ os.lift (py.split_first (crm_tools.name customer)) ;;
      t_valid <~ os.now ;;
      let validity_date :=
        {| os.base := t_valid; os.plus_days := 30;
           os.date_format := "%d %B %Y" |} in
      _ <~ os.write_file filepath ;;
      t_gen <~ os.now ;;
      os.ret (LetterSuccess
                {| reference_number := ref_no;
                   file_path := filepath;
                   filename := filename;
                   generated_at := t_gen;
                   validity_date := validity_date |})
  end.

Definition get_document_download_url (filepath : string) : string :=
  "/api/documents/download/" ++ py.basename filepath.


(** The dictionary returned by [save_uploaded_document]. *)
Record upload : Type := {
  document_type : string;
  upload_file_path : string;
  upload_filename : string;
  uploaded_at : os.datetime
}.

(** The content of the file is written as it is given and is not part of
    the world, which records the path. *)
Definition save_uploaded_document (cid document_type filename : string)
  : os.M upload :=
  here <~ os.dirname_of_module ;;
  let upload_dir := py.path_join here ("../../data/uploads/" ++ cid) in
  _ <~ os.makedirs upload_dir ;;
  t <~ os.now ;;
  let timestamp := os.strftime_Ymd_HMS t in
  let safe_filename := document_type ++ "_" ++ timestamp ++ "_" ++ filename in
  let filepath := py.path_join upload_dir safe_filename in
  _ <~ os.write_file filepath ;;
  t_up <~ os.now ;;
  os.ret {| document_type := document_type;
            upload_file_path := filepath;
            upload_filename := safe_filename;
            uploaded_at := t_up |}.

End document_tools.

(* ================================================================== *)
(** * src/workflow/state.py *)
(* ================================================================== *)

Module state.

Local Open Scope string_scope.

(** The text of an assistant message, kept as the template that produces it
    and the values the template is filled with; the layout of the text is
    not modelled. *)
Inductive body : Type :=
| Text (s : string)
  (** [UnderwritingAgent._generate_approval_message] *)
| ApprovalMessage (eligibility : credit_tools.eligibility)
    (credit_result : credit_tools.credit_report) (risk_score : Q)
    (customer : crm_tools.customer) (requested_amount : Q)
  (** [UnderwritingAgent._generate_rejection_message] *)
| RejectionMessage (eligibility : credit_tools.eligibility)
    (credit_result : credit_tools.credit_report)
    (customer : crm_tools.customer) (requested_amount : Q)
  (** [UnderwritingAgent._generate_document_request_message] *)
| DocumentRequestMessage (eligibility : credit_tools.eligibility)
    (credit_result : credit_tools.credit_report)
    (customer : crm_tools.customer) (requested_amount : Q)
  (** [SanctionAgent._create_sanction_message] *)
| SanctionMessage (customer : crm_tools.customer) (first_name : string)
    (approved_amount : Q) (tenure_months : Z) (monthly_emi : Q)
    (reference_number download_url : string) (validity_date : os.date_text)
  (** [SalesAgent._create_sales_presentation] *)
| SalesPresentation (customer : crm_tools.customer) (requested_amount : Q)
    (offers : list calculation_tools.offer)
    (recommended : calculation_tools.offer) (emi_to_income : Q)
    (customer_needs : option string).

(** An entry of the conversation history. *)
Record message : Type := {
  role : string;
  content : body;
  agent : option string
}.

(** What is stored under a key that the code reads with a default of its
    own, [state.get(key, default)]: the key is missing, or it is present
    with a value, which may be [None]. *)
Inductive stored (A : Type) : Type :=
| Missing
| Present (v : option A).

Arguments Missing {A}.
Arguments Present {A} v.

(** The keys of the application record. *)
Inductive key : Set :=
| session_id
| customer_id
| customer_name
| conversation_history
| current_stage
| next_action
| active_agent
| application_status
| requested_amount
| customer_needs
| recommended_offers
| tenure_months
| interest_rate
| monthly_emi
| monthly_salary
| salary_slip_uploaded
| otp_sent
| credit_score
| underwriting_decision
| approved_amount
| conditional_requirements
| rejection_reason
| sanction_letter_url
| sanction_letter_ref_no
| last_error.

(** The type of the value under each key; [None] is also what
    [state.get(key)] gives for a key that is not there.  Only
    [customer_needs] is read with a default other than [None]. *)
Definition ty (k : key) : Type :=
  match k with
  | session_id => string
  | customer_id | customer_name | current_stage | next_action | active_agent
  | application_status | underwriting_decision
  | rejection_reason | sanction_letter_url | sanction_letter_ref_no
  | last_error => option string
  | customer_needs => stored string
  | conversation_history => list message
  | requested_amount | interest_rate | monthly_emi | monthly_salary
  | approved_amount => option Q
  | recommended_offers => list calculation_tools.offer
  | tenure_months | credit_score => option Z
  | salary_slip_uploaded | otp_sent => bool
  | conditional_requirements => list string
  end.

Definition key_eq_dec (a b : key) : {a = b} + {a <> b}.
Proof. decide equality. Defined.

(** The application record: a value for every key. *)
Definition LoanApplicationState : Type := forall k : key, ty k.

Definition get (s : LoanApplicationState) (k : key) : ty k := s k.

Definition set (k : key) (v : ty k) (s : LoanApplicationState)
  : LoanApplicationState :=
  fun k' =>
    match key_eq_dec k k' with
    | left e => match e in (_ = x) return ty x with eq_refl => v end
    | right _ => s k'
    end.

(** A [key: value] entry of a dictionary of updates. *)
Definition entry : Type := { k : key & ty k }.

Definition item (k : key) (v : ty k) : entry := existT ty k v.

(** Modelled from the spec: [src/workflow/state.py] is not among the
    sources.  [update_state(state, updates)] is the record in which every
    key of [updates] holds its new value and every other key holds the
    value it had: the spec's data model has fields that are overwritten,
    and a record that is passed and returned as a value. *)
Definition update_state (s : LoanApplicationState) (updates : list entry)
  : LoanApplicationState :=
  fold_left (fun acc e => set (projT1 e) (projT2 e) acc) updates s.

(** Modelled from the spec: [src/workflow/state.py] is not among the
    sources.  [add_message(state, role, content, agent)] appends one entry
    to [conversation_history], which the spec describes as an ordered,
    append-only sequence of role, author and content; the time stamp of an
    entry is left out. *)
Definition add_message (s : LoanApplicationState) (r : string) (c : body)
  (a : option string) : LoanApplicationState :=
  set conversation_history
      (get s conversation_history
       ++ [ {| role := r; content := c; agent := a |} ])%list
      s.

End state.

Notation "k ::= v" := (state.item k v) (at level 60, no associativity).

(* ================================================================== *)
(** * src/agents/underwriting_agent.py *)
(* ================================================================== *)

Module underwriting_agent.

Local Open Scope string_scope.

(** The successful answer of [process_underwriting]. *)
Record assessment : Type := {
  decision : string;
  credit_score : Z;
  risk_score : Q;
  eligibility_details : credit_tools.eligibility;
  message : state.body;
  approved_amount : option Q;
  conditions : list string;
  recommendations : list string
}.

(** [{"success": False, "error": ...}] or [{"success": True, ...}]. *)
Inductive underwriting_result : Type :=
| UnderwritingError (error : string)
| UnderwritingSuccess (a : assessment).

Definition _generate_decision_message (decision : string)
  (eligibility : credit_tools.eligibility)
  (credit_result : credit_tools.credit_report) (risk_score : Q)
  (customer : crm_tools.customer) (requested_amount : Q) : state.body :=
  if decision =? "approved" then
    state.ApprovalMessage eligibility credit_result risk_score customer
      requested_amount
  else if decision =? "rejected" then
    state.RejectionMessage eligibility credit_result customer requested_amount
  else if decision =? "needs_documents" then
    state.DocumentRequestMessage eligibility credit_result customer requested_amount
  else state.Text "Underwriting assessment in progress...".

Definition process_underwriting (db : list crm_tools.customer)
  (s : state.LoanApplicationState) : result underwriting_result :=
  match py.as_str (state.get s state.customer_id),
        py.as_num (state.get s state.requested_amount) with
  | Some cid, Some requested_amount =>
      match credit_tools.fetch_credit_score db cid with
      | credit_tools.CreditError _ =>
          Ok (UnderwritingError "Unable to fetch credit score")
      | credit_tools.CreditSuccess credit_result =>
          let credit_score := credit_tools.cr_credit_score credit_result in
          match crm_tools.get_customer_by_id db cid with
          | None => Raise AttributeError
          | Some customer =>
              let monthly_salary :=
                py.or_num (state.get s state.monthly_salary)
                          (Some (crm_tools.monthly_salary customer)) in
              eligibility <-
                credit_tools.check_eligibility db cid requested_amount
                  (if state.get s state.salary_slip_uploaded then monthly_salary
                   else None) ;;
              let decision := credit_tools.decision eligibility in
              risk_score <-
                credit_tools.calculate_risk_score db cid requested_amount ;;
              let message :=
                _generate_decision_message decision eligibility credit_result
                  risk_score customer requested_amount in
              Ok (UnderwritingSuccess
                    {| decision := decision;
                       credit_score := credit_score;
                       risk_score := risk_score;
                       eligibility_details := eligibility;
                       message := message;
                       approved_amount :=
                         credit_tools.approved_amount eligibility;
                       conditions := credit_tools.conditions eligibility;
                       recommendations :=
                         credit_tools.recommendations eligibility |})
          end
      end
  | _, _ => Ok (UnderwritingError "Missing customer ID or requested amount")
  end.


(** The successful answer of [process_salary_slip]; its message is the
    fixed text around the extracted figures, the status and the
    confidence. *)
Record verified_slip : Type := {
  slip_verified : bool;
  monthly_salary : Q;
  extracted_data : credit_tools.salary_data;
  slip_status : string;
  slip_confidence : Q
}.

(** [{"success": False, "error": ...}] or [{"success": True, ...}]. *)
Inductive slip_result : Type :=
| SlipError (error : string)
| SlipSuccess (r : verified_slip).

Definition process_salary_slip (cid file_path : string) (entropy : Z)
  : slip_result :=
  let analysis := credit_tools.analyze_salary_slip file_path entropy in
  if negb (credit_tools.analysis_success analysis) then
    SlipError "Unable to process salary slip"
  else
    let extracted_data := credit_tools.extracted_data analysis in
    let net_salary := credit_tools.net_salary extracted_data in
    SlipSuccess
      {| slip_verified := true;
         monthly_salary := net_salary;
         extracted_data := extracted_data;
         slip_status := credit_tools.verification_status analysis;
         slip_confidence := credit_tools.confidence_score analysis |}.

End underwriting_agent.

(* ================================================================== *)
(** * src/agents/sanction_agent.py *)
(* ================================================================== *)

Module sanction_agent.

Local Open Scope string_scope.

(** The successful answer of [generate_sanction]. *)
Record sanction : Type := {
  sanction_letter_url : string;
  file_path : string;
  reference_number : string;
  validity_date : os.date_text;
  message : state.body
}.

(** [{"success": False, "error": ...}] or [{"success": True, ...}]. *)
Inductive sanction_result : Type :=
| SanctionError (error : string)
| SanctionSuccess (r : sanction).

Definition _create_sanction_message (customer : crm_tools.customer)
  (approved_amount : Q) (tenure_months : Z) (monthly_emi : Q)
  (reference_number download_url : string) (validity_date : os.date_text)
  : result state.body :=
  first_name <- py.split_first (crm_tools.name customer) ;;
  Ok (state.SanctionMessage customer first_name approved_amount tenure_months
        monthly_emi reference_number download_url validity_date).

Definition generate_sanction (db : list crm_tools.customer)
  (s : state.LoanApplicationState) : os.M sanction_result :=
  match py.as_str (state.get s state.customer_id), py.as_num (state.get s state.approved_amount),
        py.as_int (state.get s state.tenure_months), py.as_num (state.get s state.interest_rate),
        py.as_num (state.get s state.monthly_emi) with
  | Some cid, Some approved_amount, Some tenure_months, Some interest_rate,
    Some monthly_emi =>
      result <~ document_tools.generate_sanction_letter db cid
                  approved_amount tenure_months interest_rate monthly_emi ;;
      match result with
      | document_tools.LetterError _ =>
          os.ret (SanctionError "Failed to generate sanction letter")
      | document_tools.LetterSuccess letter =>
          match crm_tools.get_customer_by_id db cid with
          | None => os.raise AttributeError
          | Some customer =>
              let download_url :=
                document_tools.get_document_download_url
                  (document_tools.file_path letter) in
              message <~ os.lift
                (_create_sanction_message customer approved_amount
                   tenure_months monthly_emi
                   (document_tools.reference_number letter) download_url
                   (document_tools.validity_date letter)) ;;
              os.ret (SanctionSuccess
                        {| sanction_letter_url := download_url;
                           file_path := document_tools.file_path letter;
                           reference_number :=
                             document_tools.reference_number letter;
                           validity_date :=
                             document_tools.validity_date letter;
                           message := message |})
          end
      end
  | _, _, _, _, _ =>
      os.ret (SanctionError "Missing required information for sanction letter")
  end.

End sanction_agent.

(* ================================================================== *)
(** * src/agents/sales_agent.py *)
(* ================================================================== *)

Module sales_agent.

Local Open Scope string_scope.

(** The successful answer of [process_sales]. *)
Record sale : Type := {
  offers : list calculation_tools.offer;
  presentation : state.body;
  recommended_offer : calculation_tools.offer;
  customer_segment : string
}.

(** [{"success": False, "error": ...}] or [{"success": True, ...}]. *)
Inductive sales_result : Type :=
| SalesError (error : string)
| SalesSuccess (r : sale).

(** [offers[1] if len(offers) > 1 else offers[0]] *)
Definition middle_tenure (offers : list calculation_tools.offer)
  : result calculation_tools.offer :=
  match offers with
  | _ :: o :: _ => Ok o
  | [ o ] => Ok o
  | [] => Raise IndexError
  end.

Definition _create_sales_presentation (customer : crm_tools.customer)
  (requested_amount : Q) (offers : list calculation_tools.offer)
  (customer_needs : option string) : result state.body :=
  recommended <- middle_tenure offers ;;
  share <- py.div (calculation_tools.monthly_emi recommended)
                  (crm_tools.monthly_salary customer) ;;
  Ok (state.SalesPresentation customer requested_amount offers recommended
        (share * 100) customer_needs).

Definition process_sales (db : list crm_tools.customer)
  (s : state.LoanApplicationState) (requested_amount : Q)
  (customer_needs : option string) : result sales_result :=
  match py.as_str (state.get s state.customer_id) with
  | None => Ok (SalesError "Customer ID not available")
  | Some cid =>
      match crm_tools.get_customer_by_id db cid with
      | None => Ok (SalesError "Customer not found")
      | Some customer =>
          offers <-
            calculation_tools.generate_loan_offers db cid requested_amount ;;
          presentation <-
            _create_sales_presentation customer requested_amount offers
              customer_needs ;;
          recommended <- middle_tenure offers ;;
          Ok (SalesSuccess
                {| offers := offers;
                   presentation := presentation;
                   recommended_offer := recommended;
                   customer_segment := crm_tools.customer_segment customer |})
      end
  end.

End sales_agent.

(* ================================================================== *)
(** * src/workflow/graph.py *)
(* ================================================================== *)

(** The worker nodes and the router.  The agents are built by their
    factory functions before each call; building them has no part in what
    the nodes compute. *)

Module graph.

Local Open Scope string_scope.

Definition sales_agent_node (db : list crm_tools.customer)
  (s : state.LoanApplicationState) : result state.LoanApplicationState :=
  (* state.get("customer_needs", "Personal loan requirement") *)
  let customer_needs :=
    match state.get s state.customer_needs with
    | state.Present needs => needs
    | state.Missing => Some "Personal loan requirement"
    end in
  match py.as_num (state.get s state.requested_amount) with
  | None =>
      Ok (state.update_state s
            [ state.active_agent ::= Some "master";
              state.next_action ::= None ])
  | Some requested_amount =>
      result <- sales_agent.process_sales db s requested_amount
                  customer_needs ;;
      match result with
      | sales_agent.SalesSuccess r =>
          let recommended_offer := sales_agent.recommended_offer r in
          let new_state :=
            state.add_message s "assistant" (sales_agent.presentation r)
              (Some "sales") in
          Ok (state.update_state new_state
                [ state.recommended_offers ::= sales_agent.offers r;
                  state.tenure_months ::=
                    Some (calculation_tools.tenure_months recommended_offer);
                  state.interest_rate ::=
                    Some (calculation_tools.interest_rate recommended_offer);
                  state.monthly_emi ::=
                    Some (calculation_tools.monthly_emi recommended_offer);
                  state.active_agent ::= Some "master";
                  state.next_action ::= None ])
      | sales_agent.SalesError error =>
          Ok (state.update_state s
                [ state.active_agent ::= Some "master";
                  state.next_action ::= None;
                  state.last_error ::= Some error ])
      end
  end.

Definition underwriting_agent_node (db : list crm_tools.customer)
  (s : state.LoanApplicationState) : result state.LoanApplicationState :=
  result <- underwriting_agent.process_underwriting db s ;;
  match result with
  | underwriting_agent.UnderwritingSuccess r =>
      let new_state :=
        state.add_message s "assistant" (underwriting_agent.message r)
          (Some "underwriting") in
      let new_state :=
        state.update_state new_state
          [ state.credit_score ::= Some (underwriting_agent.credit_score r);
            state.underwriting_decision ::=
              Some (underwriting_agent.decision r);
            state.approved_amount ::= underwriting_agent.approved_amount r;
            state.conditional_requirements ::=
              underwriting_agent.conditions r;
            state.rejection_reason ::=
              Some (credit_tools.reason
                      (underwriting_agent.eligibility_details r));
            state.active_agent ::= Some "master";
            state.next_action ::= None ] in
      (* the application status follows the decision *)
      if underwriting_agent.decision r =? "approved" then
        Ok (state.update_state new_state
              [ state.application_status ::= Some "approved" ])
      else if underwriting_agent.decision r =? "rejected" then
        Ok (state.update_state new_state
              [ state.application_status ::= Some "rejected" ])
      else Ok new_state
  | underwriting_agent.UnderwritingError error =>
      Ok (state.update_state s
            [ state.active_agent ::= Some "master";
              state.last_error ::= Some error ])
  end.

Definition sanction_agent_node (db : list crm_tools.customer)
  (s : state.LoanApplicationState) : os.M state.LoanApplicationState :=
  result <~ sanction_agent.generate_sanction db s ;;
  match result with
  | sanction_agent.SanctionSuccess r =>
      let new_state :=
        state.add_message s "assistant" (sanction_agent.message r)
          (Some "sanction") in
      os.ret (state.update_state new_state
                [ state.sanction_letter_url ::=
                    Some (sanction_agent.sanction_letter_url r);
                  state.sanction_letter_ref_no ::=
                    Some (sanction_agent.reference_number r);
                  state.current_stage ::= Some "closure";
                  state.active_agent ::= Some "master";
                  state.next_action ::= None ])
  | sanction_agent.SanctionError error =>
      os.ret (state.update_state s
                [ state.active_agent ::= Some "master";
                  state.last_error ::= Some error ])
  end.

(** [x in ["approved", "rejected", "abandoned"]] *)
Definition is_closed_status (x : option string) : bool :=
  match x with
  | Some v => (v =? "approved") || (v =? "rejected") || (v =? "abandoned")
  | None => false
  end.

(** [x == literal] for a value that may be [None]. *)
Definition equals (x : option string) (literal : string) : bool :=
  match x with
  | Some v => v =? literal
  | None => false
  end.

Definition route_master_agent (s : state.LoanApplicationState) : string :=
  let next_action := state.get s state.next_action in
  let current_stage := state.get s state.current_stage in
  if equals next_action "delegate_to_sales" then "sales"
  else if equals next_action "delegate_to_verification" then "verification"
  else if equals next_action "delegate_to_underwriting" then "underwriting"
  else if equals next_action "delegate_to_sanction" then "sanction"
  else if equals current_stage "closure"
          && is_closed_status (state.get s state.application_status)
       then "end"
  else "master".


(** ** The nodes of the agents that are not among the sources *)

(** The answer of [MasterAgent.process_message]. *)
Record master_reply : Type := {
  response : string;
  new_stage : option string;
  reply_next_action : option string
}.

(** The master agent, by the two methods the node calls; what they answer
    is not in the sources and is left open. *)
Record master_agent : Type := {
  generate_greeting : option string -> string;
  process_message : state.LoanApplicationState -> state.body -> master_reply
}.

Definition master_agent_node (agent : master_agent)
  (s : state.LoanApplicationState) : state.LoanApplicationState :=
  match rev (state.get s state.conversation_history) with
  | last_message :: _ =>
      if state.role last_message =? "user" then
        let user_message := state.content last_message in
        let result := process_message agent s user_message in
        let new_state :=
          state.add_message s "assistant" (state.Text (response result))
            (Some "master") in
        state.update_state new_state
          [ state.current_stage ::= new_stage result;
            state.next_action ::= reply_next_action result;
            state.active_agent ::= Some "master" ]
      else
        (* the last message was from the assistant *)
        s
  | [] =>
      (* first interaction *)
      let greeting :=
        generate_greeting agent (state.get s state.customer_name) in
      state.add_message s "assistant" (state.Text greeting) (Some "master")
  end.

(** The answer of [VerificationAgent.start_verification]: an error, or a
    message and the phone of the customer data ([""] when there is none). *)
Inductive verification_start : Type :=
| VerificationError (error : option string)
| VerificationStarted (message : string) (customer_phone : string).

(** The verification agent, by the two methods the node calls; [send_otp]
    answers with its message. *)
Record verification_agent : Type := {
  start_verification : state.LoanApplicationState -> verification_start;
  send_otp : string -> string -> string
}.

Definition verification_agent_node (agent : verification_agent)
  (s : state.LoanApplicationState) : state.LoanApplicationState :=
  match start_verification agent s with
  | VerificationStarted message customer_phone =>
      let new_state :=
        state.add_message s "assistant" (state.Text message)
          (Some "verification") in
      let new_state :=
        state.update_state new_state
          [ state.active_agent ::= Some "master";
            state.next_action ::= None ] in
      (* the code is sent at once *)
      match py.as_str (state.get s state.customer_id) with
      | Some cid =>
          let otp_message := send_otp agent cid customer_phone in
          let new_state :=
            state.add_message new_state "assistant" (state.Text otp_message)
              (Some "verification") in
          state.update_state new_state [ state.otp_sent ::= true ]
      | None => new_state
      end
  | VerificationError error =>
      state.update_state s
        [ state.active_agent ::= Some "master";
          state.last_error ::= error ]
  end.

(** ** The session store of [LoanApplicationWorkflow] *)









End graph.

(* ================================================================== *)
(** * The words of the specification *)
(* ================================================================== *)

Module spec.

Local Open Scope Q_scope.

(** The annuity formula [P.r.(1+r)^n / ((1+r)^n - 1)] for a monthly rate
    [r]. *)
Definition annuity (P r : Q) (n : Z) : Q :=
  P * r * (1 + r) ^ n / ((1 + r) ^ n - 1).


(** The router's mapping, in the words of the specification: an explicit
    delegation signal names the unit to run, whatever the stage; without
    one, a closed application in the closure stage ends the run; anything
    else stays with the master agent. *)
Inductive delegation : option string -> string -> Prop :=
| to_sales : delegation (Some "delegate_to_sales"%string) "sales"
| to_verification :
    delegation (Some "delegate_to_verification"%string) "verification"
| to_underwriting :
    delegation (Some "delegate_to_underwriting"%string) "underwriting"
| to_sanction : delegation (Some "delegate_to_sanction"%string) "sanction".

Definition closed (status : option string) : Prop :=
  status = Some "approved"%string \/ status = Some "rejected"%string
  \/ status = Some "abandoned"%string.

Inductive dispatch (signal stage status : option string) : string -> Prop :=
| dispatch_delegate unit :
    delegation signal unit -> dispatch signal stage status unit
| dispatch_end :
    (forall unit, ~ delegation signal unit) ->
    stage = Some "closure"%string -> closed status ->
    dispatch signal stage status "end"
| dispatch_master :
    (forall unit, ~ delegation signal unit) ->
    ~ (stage = Some "closure"%string /\ closed status) ->
    dispatch signal stage status "master".

(** "[application_status] in {approved, rejected} implies
    [current_stage == closure]". *)
Definition closed_in_closure (s : state.LoanApplicationState) : Prop :=
  state.get s state.application_status = Some "approved"%string
  \/ state.get s state.application_status = Some "rejected"%string ->
  state.get s state.current_stage = Some "closure"%string.

(** The reference number and the location of a sanction letter written
    for customer [cid]: the first from the date, the second from the date
    and time, of a reading of the clock. *)
Definition letter_reference (cid : string) (t : os.datetime) : string :=
  ("SL/" ++ os.strftime_Ymd t ++ "/" ++ cid)%string.

Definition letter_path (w : os.world) (cid : string) (t : os.datetime)
  : string :=
  py.path_join (py.path_join (os.module_dir w) "../../data/output")
    ("sanction_letter_" ++ cid ++ "_" ++ os.strftime_Ymd_HMS t ++ ".pdf")%string.

(** The world after the five readings, the directory and the file of one
    letter. *)
Definition after_letter (w : os.world) (path : string) : os.world := {|
  os.clock := os.clock w;
  os.ticks := 5 + os.ticks w;
  os.module_dir := os.module_dir w;
  os.dirs := py.path_join (os.module_dir w) "../../data/output"%string :: os.dirs w;
  os.files := path :: os.files w;
  os.stdout := os.stdout w
|}.

(** The rate and the tenure that [check_eligibility] assumes. *)
Definition assumed_rate : Q := ((12 # 100) / 12 * 12)%Q.
Definition assumed_tenure : Z := 36.

(** [all([customer_id, approved_amount, tenure_months, interest_rate,
    monthly_emi])] *)
Definition complete (s : state.LoanApplicationState) : bool :=
  py.truthy_str (state.get s state.customer_id)
  && py.truthy_num (state.get s state.approved_amount)
  && py.truthy_int (state.get s state.tenure_months)
  && py.truthy_num (state.get s state.interest_rate)
  && py.truthy_num (state.get s state.monthly_emi).

(** Whether [given] (when there is one, and it is not empty) passes the
    check of [verify_customer_details] against the stored value. *)
Definition phone_passes (c : crm_tools.customer) (given : option string)
  : Prop :=
  forall p, py.as_str given = Some p -> crm_tools.phone c = p.

Definition address_passes (lower : string -> string)
  (c : crm_tools.customer) (given : option string) : Prop :=
  forall a, py.as_str given = Some a ->
            pyx.contains (lower a) (lower (crm_tools.address c)) = true.

End spec.

(* ================================================================== *)
(** * Sample data *)
(* ================================================================== *)

(** The customers of the scenarios in [tests/test_scenarios.py], with the
    credit scores and pre-approved limits the scenarios state; the other
    fields are sample values.  A record in the underwriting stage, and a
    clock that advances by one second at every reading. *)
Module sample.

Local Open Scope string_scope.
Local Open Scope Q_scope.

Definition CUST001 : crm_tools.customer := {|
  crm_tools.customer_id := "CUST001";
  crm_tools.name := "Rajesh Kumar";
  crm_tools.phone := "+91-9876543210";
  crm_tools.email := "rajesh.kumar@email.com";
  crm_tools.address := "12 MG Road, Bengaluru";
  crm_tools.credit_score := 800;
  crm_tools.pre_approved_limit := 500000;
  crm_tools.monthly_salary := 120000;
  crm_tools.existing_loans :=
    [ {| crm_tools.loan_type := "car_loan";
         crm_tools.outstanding := 200000;
         crm_tools.loan_emi := 8000 |} ];
  crm_tools.customer_segment := "premium";
  crm_tools.employment_type := "salaried";
  crm_tools.employer := "Infosys"
|}.

Definition CUST002 : crm_tools.customer := {|
  crm_tools.customer_id := "CUST002";
  crm_tools.name := "Priya Sharma";
  crm_tools.phone := "+91-9876543211";
  crm_tools.email := "priya.sharma@email.com";
  crm_tools.address := "4 Park Street, Kolkata";
  crm_tools.credit_score := 750;
  crm_tools.pre_approved_limit := 400000;
  crm_tools.monthly_salary := 90000;
  crm_tools.existing_loans := [];
  crm_tools.customer_segment := "prime";
  crm_tools.employment_type := "salaried";
  crm_tools.employer := "Wipro"
|}.

Definition CUST003 : crm_tools.customer := {|
  crm_tools.customer_id := "CUST003";
  crm_tools.name := "Amit Patel";
  crm_tools.phone := "+91-9876543212";
  crm_tools.email := "amit.patel@email.com";
  crm_tools.address := "8 CG Road, Ahmedabad";
  crm_tools.credit_score := 680;
  crm_tools.pre_approved_limit := 200000;
  crm_tools.monthly_salary := 50000;
  crm_tools.existing_loans := [];
  crm_tools.customer_segment := "standard";
  crm_tools.employment_type := "self_employed";
  crm_tools.employer := "Patel Traders"
|}.

Definition customers : list crm_tools.customer := [ CUST001; CUST002; CUST003 ].

(** A record for [cid] asking for [amount], in the underwriting stage. *)
Definition application (cid : string) (amount : Q)
  : state.LoanApplicationState :=
  fun k =>
    match k return state.ty k with
    | state.session_id => "session-1"
    | state.customer_id => Some cid
    | state.current_stage => Some "underwriting"
    | state.application_status => Some "in_progress"
    | state.requested_amount => Some amount
    | state.customer_needs => state.Present None
    | state.conversation_history => []
    | state.recommended_offers => []
    | state.conditional_requirements => []
    | state.salary_slip_uploaded | state.otp_sent => false
    | _ => None
    end.

(** The record of a session just opened for [cid]: nothing requested yet. *)
Definition opened (cid : string) : state.LoanApplicationState :=
  fun k =>
    match k return state.ty k with
    | state.session_id => "session-1"
    | state.customer_id => Some cid
    | state.current_stage => Some "greeting"
    | state.application_status => Some "in_progress"
    | state.next_action => Some "delegate_to_sales"
    | state.customer_needs => state.Present None
    | state.conversation_history => []
    | state.recommended_offers => []
    | state.conditional_requirements => []
    | state.salary_slip_uploaded | state.otp_sent => false
    | _ => None
    end.

(** The record of an approved application of [cid], ready for sanction. *)
Definition approved (cid : string) (amount : Q)
  : state.LoanApplicationState :=
  fun k =>
    match k return state.ty k with
    | state.session_id => "session-1"
    | state.customer_id => Some cid
    | state.current_stage => Some "sanction_generation"
    | state.application_status => Some "approved"
    | state.requested_amount => Some amount
    | state.approved_amount => Some amount
    | state.tenure_months => Some 24%Z
    | state.interest_rate => Some (9 # 100)
    | state.monthly_emi => Some (1827390 # 100)
    | state.underwriting_decision => Some "approved"
    | state.customer_needs => state.Present None
    | state.conversation_history => []
    | state.recommended_offers => []
    | state.conditional_requirements => []
    | state.salary_slip_uploaded | state.otp_sent => false
    | _ => None
    end.

(** The [n]-th reading of a clock started on the given day of October 2025
    at 09:05:00, one second passing between two readings. *)
Definition second_of (d : Z) (n : nat) : os.datetime := {|
  os.year := 2025; os.month := 10; os.day := d;
  os.hour := 9; os.minute := 5; os.second := Z.of_nat n
|}.

Definition world (d : Z) : os.world := {|
  os.clock := second_of d;
  os.ticks := 0;
  os.module_dir := "/srv/app/src/tools";
  os.dirs := [];
  os.files := [];
  os.stdout := []
|}.

(** Lower case on the letters A to Z, for [str.lower] on ASCII text. *)
Definition lower_char (c : ascii) : ascii :=
  let n := nat_of_ascii c in
  if ((65 <=? n) && (n <=? 90))%nat then ascii_of_nat (n + 32) else c.

Fixpoint lower (s : string) : string :=
  match s with
  | EmptyString => EmptyString
  | String c rest => String (lower_char c) (lower rest)
  end.

(** A customer without a salary on file, and one whose name is blank. *)
Definition unsalaried : crm_tools.customer := {|
  crm_tools.customer_id := "CUST900";
  crm_tools.name := "Meera Nair";
  crm_tools.phone := "+91-9000000000";
  crm_tools.email := "meera.nair@email.com";
  crm_tools.address := "3 Beach Road, Kochi";
  crm_tools.credit_score := 760;
  crm_tools.pre_approved_limit := 300000;
  crm_tools.monthly_salary := 0;
  crm_tools.existing_loans := [];
  crm_tools.customer_segment := "preferred";
  crm_tools.employment_type := "self_employed";
  crm_tools.employer := "Nair Studio"
|}.

Definition nameless : crm_tools.customer := {|
  crm_tools.customer_id := "CUST901";
  crm_tools.name := "  ";
  crm_tools.phone := "+91-9000000001";
  crm_tools.email := "unknown@email.com";
  crm_tools.address := "1 Lake View, Pune";
  crm_tools.credit_score := 760;
  crm_tools.pre_approved_limit := 300000;
  crm_tools.monthly_salary := 80000;
  crm_tools.existing_loans := [];
  crm_tools.customer_segment := "preferred";
  crm_tools.employment_type := "salaried";
  crm_tools.employer := "Acme"
|}.

Definition more_customers : list crm_tools.customer :=
  customers ++ [ unsalaried; nameless ].

End sample.

(* ================================================================== *)
(** * Properties *)
(* ================================================================== *)

Local Open Scope Q_scope.

(** ** Rounding *)

Lemma round_half_even_error (q : Q) :
  Qabs (inject_Z (py.round_half_even q) - q) <= 1 # 2.
Proof.
  unfold py.round_half_even.
  pose proof (Qfloor_le q) as Hlo.
  pose proof (Qlt_floor q) as Hhi.
  rewrite inject_Z_plus in Hhi. change (inject_Z 1) with 1 in Hhi.
  apply Qabs_Qle_condition.
  destruct (Qcompare_spec (q - inject_Z (Qfloor q)) (1 # 2)) as [He | Hl | Hg].
  - destruct (Z.even (Qfloor q));
      [| rewrite inject_Z_plus; change (inject_Z 1) with 1]; split; lra.
  - split; lra.
  - rewrite inject_Z_plus. change (inject_Z 1) with 1. split; lra.
Qed.

Lemma round_2_error (q : Q) : Qabs (py.round q 2 - q) <= 1 # 200.
Proof.
  unfold py.round.
  change (inject_Z (10 ^ Z.of_nat 2)) with 100.
  pose proof (round_half_even_error (q * 100)) as H.
  apply Qabs_Qle_condition in H. apply Qabs_Qle_condition.
  set (z := inject_Z (py.round_half_even (q * 100))) in *.
  change (z / 100) with (z * (1 # 100)).
  split; lra.
Qed.

(** ** The monthly payment *)

Section Emi.

Variables (P rate : Q) (n : Z).

Lemma monthly_rate_zero : Qeq_bool (rate / 12) 0 = true <-> rate == 0.
Proof.
  rewrite Qeq_bool_iff. change (rate / 12) with (rate * (1 # 12)).
  split; intros H; lra.
Qed.

Lemma growth_above_one : 0 < rate -> (0 < n)%Z -> 1 < (1 + rate / 12) ^ n.
Proof.
  intros Hr Hn. apply Qpower_1_lt; [| exact Hn].
  change (rate / 12) with (rate * (1 # 12)). lra.
Qed.

Lemma calculate_emi_zero_rate :
  rate == 0 -> (0 < n)%Z ->
  calculation_tools.calculate_emi P rate n = Ok (P / inject_Z n).
Proof.
  intros Hr Hn. unfold calculation_tools.calculate_emi.
  apply monthly_rate_zero in Hr. rewrite Hr.
  unfold py.div.
  destruct (Qeq_bool (inject_Z n) 0) eqn:E; [| reflexivity].
  apply Qeq_bool_eq in E. unfold Qeq in E. simpl in E. lia.
Qed.

Lemma calculate_emi_positive_rate :
  0 < rate -> (0 < n)%Z ->
  calculation_tools.calculate_emi P rate n
  = Ok (py.round (spec.annuity P (rate / 12) n) 2).
Proof.
  intros Hr Hn. unfold calculation_tools.calculate_emi.
  destruct (Qeq_bool (rate / 12) 0) eqn:E.
  { apply monthly_rate_zero in E. lra. }
  unfold py.pow.
  replace (n <? 0)%Z with false by (symmetry; apply Z.ltb_ge; lia).
  cbn [andb py.bind]. unfold py.div.
  destruct (Qeq_bool ((1 + rate / 12) ^ n - 1) 0) eqn:D.
  { apply Qeq_bool_eq in D. pose proof (growth_above_one Hr Hn). lra. }
  reflexivity.
Qed.

End Emi.

Lemma credit_calculate_emi_same (P rate : Q) (n : Z) :
  credit_tools.calculate_emi P rate n = calculation_tools.calculate_emi P rate n.
Proof. reflexivity. Qed.





(** ** The router *)

Lemma equals_spec (x : option string) (literal : string) :
  graph.equals x literal = true <-> x = Some literal.
Proof.
  destruct x as [v |]; simpl.
  - rewrite String.eqb_eq. split; intros H; congruence.
  - split; discriminate.
Qed.

Lemma is_closed_status_spec (x : option string) :
  graph.is_closed_status x = true <-> spec.closed x.
Proof.
  unfold spec.closed. destruct x as [v |]; simpl.
  - rewrite !orb_true_iff, !String.eqb_eq.
    split; [intros [[H | H] | H] | intros [H | [H | H]]]; first
      [ left; congruence | right; left; congruence | right; right; congruence
      | left; left; congruence | left; right; congruence | right; congruence ].
  - split; [discriminate | intros [H | [H | H]]; discriminate].
Qed.

Lemma route_of_triple (s : state.LoanApplicationState) (r : string) :
  graph.route_master_agent s = r <->
  spec.dispatch (state.get s state.next_action)
    (state.get s state.current_stage)
    (state.get s state.application_status) r.
Proof.
  unfold graph.route_master_agent.
  generalize (state.get s state.next_action) (state.get s state.current_stage)
    (state.get s state.application_status).
  cbn [state.ty]. intros signal stage status.
  destruct (graph.equals signal "delegate_to_sales") eqn:E1.
  { apply equals_spec in E1; subst signal. split.
    - intros <-. apply spec.dispatch_delegate. constructor.
    - intros D. inversion D as [u Hd | Hn _ _ | Hn _]; subst.
      + inversion Hd. reflexivity.
      + destruct (Hn _ spec.to_sales).
      + destruct (Hn _ spec.to_sales). }
  destruct (graph.equals signal "delegate_to_verification") eqn:E2.
  { apply equals_spec in E2; subst signal. split.
    - intros <-. apply spec.dispatch_delegate. constructor.
    - intros D. inversion D as [u Hd | Hn _ _ | Hn _]; subst.
      + inversion Hd. reflexivity.
      + destruct (Hn _ spec.to_verification).
      + destruct (Hn _ spec.to_verification). }
  destruct (graph.equals signal "delegate_to_underwriting") eqn:E3.
  { apply equals_spec in E3; subst signal. split.
    - intros <-. apply spec.dispatch_delegate. constructor.
    - intros D. inversion D as [u Hd | Hn _ _ | Hn _]; subst.
      + inversion Hd. reflexivity.
      + destruct (Hn _ spec.to_underwriting).
      + destruct (Hn _ spec.to_underwriting). }
  destruct (graph.equals signal "delegate_to_sanction") eqn:E4.
  { apply equals_spec in E4; subst signal. split.
    - intros <-. apply spec.dispatch_delegate. constructor.
    - intros D. inversion D as [u Hd | Hn _ _ | Hn _]; subst.
      + inversion Hd. reflexivity.
      + destruct (Hn _ spec.to_sanction).
      + destruct (Hn _ spec.to_sanction). }
  assert (Hnone : forall unit, ~ spec.delegation signal unit).
  { intros u Hd. inversion Hd; subst; simpl in *; discriminate. }
  destruct (graph.equals stage "closure" && graph.is_closed_status status)
    eqn:E5.
  - apply andb_true_iff in E5 as [Hs Hc].
    apply equals_spec in Hs. apply is_closed_status_spec in Hc. split.
    + intros <-. now apply spec.dispatch_end.
    + intros D. inversion D as [u Hd | _ _ _ | _ Hno].
      * destruct (Hnone _ Hd).
      * reflexivity.
      * destruct Hno. now split.
  - split.
    + intros <-. apply spec.dispatch_master; [exact Hnone |].
      intros [Hs Hc]. apply equals_spec in Hs.
      apply is_closed_status_spec in Hc. rewrite Hs, Hc in E5. discriminate.
    + intros D. inversion D as [u Hd | _ Hs Hc | _ _].
      * destruct (Hnone _ Hd).
      * apply equals_spec in Hs. apply is_closed_status_spec in Hc.
        rewrite Hs, Hc in E5. discriminate.
      * reflexivity.
Qed.

(** C2.  The router's answer is determined by [next_action],
    [current_stage] and [application_status] alone, and is the unit named
    by an explicit delegation signal whatever the stage, else ["end"] when
    the stage is closure and the status is approved, rejected or abandoned,
    else ["master"]. *)
Theorem route_master_agent_dispatch (s : state.LoanApplicationState) :
  (forall r,
     graph.route_master_agent s = r <->
     spec.dispatch (state.get s state.next_action)
       (state.get s state.current_stage)
       (state.get s state.application_status) r)
  /\ (forall s',
        state.get s' state.next_action = state.get s state.next_action ->
        state.get s' state.current_stage = state.get s state.current_stage ->
        state.get s' state.application_status
        = state.get s state.application_status ->
        graph.route_master_agent s' = graph.route_master_agent s).
Proof.
  split.
  - intros r. apply route_of_triple.
  - intros s' Ha Hs Hst.
    apply route_of_triple. rewrite Ha, Hs, Hst. now apply route_of_triple.
Qed.

Lemma route_master_agent_dispatch_witness :
  graph.route_master_agent (sample.application "CUST002" 600000)
  = graph.route_master_agent (sample.application "CUST001" 400000).
Proof.
  apply (proj2 (route_master_agent_dispatch
                  (sample.application "CUST001" 400000)));
    reflexivity.
Defined.

(** ** Eligibility *)

Local Open Scope string_scope.

Lemma Qle_bool_false (a b : Q) : b < a -> Qle_bool a b = false.
Proof.
  intros H. destruct (Qle_bool a b) eqn:E; [| reflexivity].
  apply Qle_bool_iff in E. lra.
Qed.

Lemma Qle_bool_true (a b : Q) : a <= b -> Qle_bool a b = true.
Proof. apply Qle_bool_iff. Qed.

Lemma assumed_emi (amount : Q) :
  credit_tools.calculate_emi amount spec.assumed_rate spec.assumed_tenure
  = Ok (py.round (spec.annuity amount (spec.assumed_rate / 12) spec.assumed_tenure) 2).
Proof.
  rewrite credit_calculate_emi_same.
  apply calculate_emi_positive_rate; reflexivity.
Qed.

Lemma assumed_loan_amount (emi : Q) :
  exists amount,
    credit_tools.calculate_loan_amount_from_emi emi spec.assumed_rate spec.assumed_tenure
    = Ok amount.
Proof.
  unfold credit_tools.calculate_loan_amount_from_emi.
  destruct (Qeq_bool (spec.assumed_rate / 12) 0) eqn:E;
    [vm_compute in E; discriminate |].
  unfold py.pow. change (spec.assumed_tenure <? 0)%Z with false.
  cbn [andb py.bind]. unfold py.div.
  destruct (Qeq_bool (spec.assumed_rate / 12
                      * (1 + spec.assumed_rate / 12) ^ spec.assumed_tenure) 0)
    eqn:D; [vm_compute in D; discriminate |].
  eexists. reflexivity.
Qed.


(** C5.  For a customer with a credit score below 700, [check_eligibility]
    answers ["rejected"] with a reason that is not empty and a list of
    recommendations that is not empty, and the answer is the same for every
    requested amount, salary and pre-approved limit: it is the answer for any
    customer with that credit score. *)
Theorem check_eligibility_low_score (db : list crm_tools.customer)
  (cid : string) (c : crm_tools.customer) (amount : Q) (salary : option Q) :
  crm_tools.get_customer_by_id db cid = Some c ->
  (crm_tools.credit_score c < 700)%Z ->
  exists e,
    credit_tools.check_eligibility db cid amount salary = Ok e
    /\ credit_tools.decision e = "rejected"
    /\ credit_tools.reason e <> ""
    /\ credit_tools.recommendations e <> []
    /\ forall db' cid' c' amount' salary',
         crm_tools.get_customer_by_id db' cid' = Some c' ->
         crm_tools.credit_score c' = crm_tools.credit_score c ->
         credit_tools.check_eligibility db' cid' amount' salary' = Ok e.
Proof.
  intros Hc Hlow. unfold credit_tools.check_eligibility. rewrite Hc.
  apply Z.ltb_lt in Hlow. rewrite Hlow.
  eexists. split; [reflexivity |]. repeat split.
  - simpl. discriminate.
  - simpl. discriminate.
  - intros db' cid' c' amount' salary' Hc' Hscore.
    rewrite Hc', Hscore, Hlow. reflexivity.
Qed.

Lemma check_eligibility_low_score_witness :
  exists e,
    credit_tools.check_eligibility sample.customers "CUST003" 600000 None
    = Ok e
    /\ credit_tools.decision e = "rejected"
    /\ credit_tools.reason e <> ""
    /\ credit_tools.recommendations e <> [].
Proof.
  destruct (check_eligibility_low_score sample.customers "CUST003"
              sample.CUST003 600000 None)
    as [e [He [Hd [Hr [Hrec _]]]]]; [reflexivity | reflexivity |].
  exists e. repeat split; assumption.
Defined.




(** ** The underwriting step *)

Lemma as_str_nonempty (x : string) : x <> "" -> py.as_str (Some x) = Some x.
Proof.
  intros H. unfold py.as_str, py.truthy_str.
  destruct (String.eqb_spec x ""); [contradiction | reflexivity].
Qed.

Lemma Qeq_bool_false (a b : Q) : ~ a == b -> Qeq_bool a b = false.
Proof.
  intros H. destruct (Qeq_bool a b) eqn:E; [| reflexivity].
  apply Qeq_bool_eq in E. contradiction.
Qed.

Lemma as_num_nonzero (x : Q) : ~ x == 0 -> py.as_num (Some x) = Some x.
Proof.
  intros H. unfold py.as_num, py.truthy_num.
  rewrite (Qeq_bool_false x 0 H). reflexivity.
Qed.

Lemma div_nonzero (a b : Q) : ~ b == 0 -> py.div a b = Ok (a / b).
Proof. intros H. unfold py.div. now rewrite Qeq_bool_false. Qed.

Lemma fetch_credit_score_found (db : list crm_tools.customer) (cid : string)
  (c : crm_tools.customer) :
  crm_tools.get_customer_by_id db cid = Some c ->
  exists report,
    credit_tools.fetch_credit_score db cid = credit_tools.CreditSuccess report
    /\ credit_tools.cr_credit_score report = crm_tools.credit_score c.
Proof.
  intros H. unfold credit_tools.fetch_credit_score. rewrite H.
  eexists. split; reflexivity.
Qed.

(** The underwriting agent decides by [check_eligibility]: it passes the
    salary of the record, or else the customer's, once a salary slip has
    been uploaded, and no salary before that. *)
Lemma process_underwriting_decides_by_eligibility
  (db : list crm_tools.customer) (s : state.LoanApplicationState)
  (r : underwriting_agent.assessment) :
  underwriting_agent.process_underwriting db s
  = Ok (underwriting_agent.UnderwritingSuccess r) ->
  exists cid amount c,
    state.get s state.customer_id = Some cid
    /\ state.get s state.requested_amount = Some amount
    /\ crm_tools.get_customer_by_id db cid = Some c
    /\ credit_tools.check_eligibility db cid amount
         (if state.get s state.salary_slip_uploaded
          then py.or_num (state.get s state.monthly_salary)
                 (Some (crm_tools.monthly_salary c))
          else None)
       = Ok (underwriting_agent.eligibility_details r)
    /\ underwriting_agent.decision r
       = credit_tools.decision (underwriting_agent.eligibility_details r)
    /\ underwriting_agent.approved_amount r
       = credit_tools.approved_amount
           (underwriting_agent.eligibility_details r).
Proof.
  unfold underwriting_agent.process_underwriting, py.as_str, py.as_num.
  destruct (state.get s state.customer_id) as [cid |] eqn:Hcid;
    cbn [py.truthy_str]; [| discriminate].
  destruct (negb (cid =? "")); [| discriminate].
  destruct (state.get s state.requested_amount) as [amount |] eqn:Hamt;
    cbn [py.truthy_num]; [| discriminate].
  destruct (negb (Qeq_bool amount 0)); [| discriminate].
  destruct (credit_tools.fetch_credit_score db cid) as [err | report];
    [discriminate |].
  destruct (crm_tools.get_customer_by_id db cid) as [c |] eqn:Hc;
    [| discriminate].
  destruct (credit_tools.check_eligibility db cid amount _) as [e | x] eqn:He;
    cbn [py.bind]; [| discriminate].
  destruct (credit_tools.calculate_risk_score db cid amount) as [risk | x];
    cbn [py.bind]; [| discriminate].
  intros [= <-]. exists cid, amount, c. cbn.
  repeat split; first [reflexivity | assumption].
Qed.

(** C4, as amended.  For a customer with a credit score of at least 700
    whose pre-approved limit and monthly salary are not zero, and a
    requested amount within the pre-approved limit, one underwriting step
    on a record that carries the customer's id and the requested amount
    (neither empty nor zero) records the decision ["approved"], sets
    [application_status] to ["approved"] and sets [approved_amount] to the
    requested amount. *)
Theorem underwriting_instant_approval (db : list crm_tools.customer)
  (s : state.LoanApplicationState) (cid : string) (c : crm_tools.customer)
  (amount : Q) :
  state.get s state.customer_id = Some cid -> cid <> "" ->
  state.get s state.requested_amount = Some amount -> ~ amount == 0 ->
  crm_tools.get_customer_by_id db cid = Some c ->
  (700 <= crm_tools.credit_score c)%Z ->
  amount <= crm_tools.pre_approved_limit c ->
  ~ crm_tools.pre_approved_limit c == 0 ->
  ~ crm_tools.monthly_salary c == 0 ->
  exists s',
    graph.underwriting_agent_node db s = Ok s'
    /\ state.get s' state.underwriting_decision = Some "approved"
    /\ state.get s' state.application_status = Some "approved"
    /\ state.get s' state.approved_amount = Some amount
    /\ state.get s' state.approved_amount
       = state.get s state.requested_amount.
Proof.
  intros Hcid Hne Hamt Hnz Hc Hscore Hle Hlim Hsal.
  destruct (fetch_credit_score_found db cid c Hc) as [report [Hfetch _]].
  unfold graph.underwriting_agent_node, underwriting_agent.process_underwriting.
  rewrite Hcid, Hamt, (as_str_nonempty cid Hne), (as_num_nonzero amount Hnz).
  rewrite Hfetch, Hc.
  unfold credit_tools.check_eligibility. rewrite Hc.
  replace (crm_tools.credit_score c <? 700)%Z with false
    by (symmetry; apply Z.ltb_ge; lia).
  rewrite (Qle_bool_true _ _ Hle). cbn [py.bind].
  unfold credit_tools.calculate_risk_score. rewrite Hc.
  rewrite (div_nonzero _ _ Hlim), (div_nonzero _ _ Hsal). cbn [py.bind].
  eexists. split; [reflexivity |]. repeat split.
Qed.

Lemma underwriting_instant_approval_witness :
  exists s',
    graph.underwriting_agent_node sample.customers
      (sample.application "CUST001" 400000) = Ok s'
    /\ state.get s' state.underwriting_decision = Some "approved"
    /\ state.get s' state.application_status = Some "approved"
    /\ state.get s' state.approved_amount = Some 400000
    /\ state.get s' state.approved_amount
       = state.get (sample.application "CUST001" 400000)
           state.requested_amount.
Proof.
  apply (underwriting_instant_approval sample.customers
           (sample.application "CUST001" 400000) "CUST001" sample.CUST001
           400000);
    first [ reflexivity | discriminate | cbn; lia
          | intros H; vm_compute in H; discriminate H ].
Defined.

(** C4, as stated, fails for a customer without a salary on file: the
    request is within the limit and the score is 760, and the underwriting
    step raises [ZeroDivisionError], the risk score dividing the existing
    EMIs by the salary. *)
Lemma underwriting_without_salary_raises :
  ~ (forall db s cid c amount,
       state.get s state.customer_id = Some cid ->
       state.get s state.requested_amount = Some amount ->
       crm_tools.get_customer_by_id db cid = Some c ->
       (700 <= crm_tools.credit_score c)%Z ->
       amount <= crm_tools.pre_approved_limit c ->
       exists s',
         graph.underwriting_agent_node db s = Ok s'
         /\ state.get s' state.underwriting_decision = Some "approved"
         /\ state.get s' state.application_status = Some "approved"
         /\ state.get s' state.approved_amount = Some amount).
Proof.
  intros H.
  destruct (H sample.more_customers (sample.application "CUST900" 200000)
              "CUST900" sample.unsalaried 200000) as [s' [E _]];
    [reflexivity | reflexivity | reflexivity | cbn; lia
    | intros L; discriminate L |].
  vm_compute in E. discriminate E.
Qed.

(** C1, as stated, fails: on a record in the underwriting stage whose
    status is still open, the underwriting step approves the request and
    leaves the stage at ["underwriting"]. *)
Lemma underwriting_approves_outside_closure :
  ~ (forall db s s',
       spec.closed_in_closure s ->
       graph.underwriting_agent_node db s = Ok s' ->
       spec.closed_in_closure s').
Proof.
  intros H.
  destruct (graph.underwriting_agent_node sample.customers
              (sample.application "CUST001" 400000)) as [s' | e] eqn:E;
    [| vm_compute in E; discriminate].
  assert (Hs' : spec.closed_in_closure s').
  { apply (H sample.customers (sample.application "CUST001" 400000) s');
      [| exact E].
    intros [A | A]; vm_compute in A; discriminate. }
  vm_compute in E. injection E as <-.
  unfold spec.closed_in_closure in Hs'.
  assert (C : Some "underwriting" = Some "closure")
    by (apply Hs'; left; reflexivity).
  discriminate C.
Qed.

(** ** The sanction step *)

Lemma generate_sanction_incomplete (db : list crm_tools.customer)
  (s : state.LoanApplicationState) (w : os.world) :
  spec.complete s = false ->
  sanction_agent.generate_sanction db s w
  = (Ok (sanction_agent.SanctionError
           "Missing required information for sanction letter"), w).
Proof.
  unfold spec.complete, sanction_agent.generate_sanction,
    py.as_str, py.as_num, py.as_int.
  destruct (py.truthy_str (state.get s state.customer_id));
    destruct (py.truthy_num (state.get s state.approved_amount));
    destruct (py.truthy_int (state.get s state.tenure_months));
    destruct (py.truthy_num (state.get s state.interest_rate));
    destruct (py.truthy_num (state.get s state.monthly_emi));
    cbn [andb]; try discriminate; intros _;
    repeat match goal with
      | |- context [match ?x with Some _ => _ | None => _ end] => destruct x
      end; reflexivity.
Qed.

Lemma truthy_str_value (x : option string) :
  py.truthy_str x = true -> exists v, x = Some v /\ py.as_str x = Some v.
Proof.
  intros H. unfold py.as_str. rewrite H.
  destruct x as [v |]; [eauto | discriminate].
Qed.

Lemma truthy_num_value (x : option Q) :
  py.truthy_num x = true -> exists v, x = Some v /\ py.as_num x = Some v.
Proof.
  intros H. unfold py.as_num. rewrite H.
  destruct x as [v |]; [eauto | discriminate].
Qed.

Lemma truthy_int_value (x : option Z) :
  py.truthy_int x = true -> exists v, x = Some v /\ py.as_int x = Some v.
Proof.
  intros H. unfold py.as_int. rewrite H.
  destruct x as [v |]; [eauto | discriminate].
Qed.

Lemma generate_sanction_letter_found (db : list crm_tools.customer)
  (cid : string) (c : crm_tools.customer) (first : string)
  (amount : Q) (tenure : Z) (rate emi : Q) (w : os.world) :
  crm_tools.get_customer_by_id db cid = Some c ->
  py.split_first (crm_tools.name c) = Ok first ->
  let path := spec.letter_path w cid (os.clock w (S (os.ticks w))) in
  exists l,
    document_tools.generate_sanction_letter db cid amount tenure rate emi w
    = (Ok (document_tools.LetterSuccess l), spec.after_letter w path)
    /\ document_tools.reference_number l
       = spec.letter_reference cid (os.clock w (os.ticks w))
    /\ document_tools.file_path l = path.
Proof.
  intros Hc Hname path.
  unfold document_tools.generate_sanction_letter. rewrite Hc.
  unfold os.bind, os.now, os.dirname_of_module, os.makedirs, os.lift,
    os.write_file, os.ret.
  cbn [os.clock os.ticks os.module_dir os.dirs os.files os.stdout].
  rewrite Hname.
  eexists. split; [reflexivity |]. split; reflexivity.
Qed.

Lemma sanction_step_complete (db : list crm_tools.customer)
  (s : state.LoanApplicationState) (w : os.world) (cid : string)
  (c : crm_tools.customer) (first : string) :
  spec.complete s = true ->
  state.get s state.customer_id = Some cid ->
  crm_tools.get_customer_by_id db cid = Some c ->
  py.split_first (crm_tools.name c) = Ok first ->
  let path := spec.letter_path w cid (os.clock w (S (os.ticks w))) in
  exists r,
    sanction_agent.generate_sanction db s w
    = (Ok (sanction_agent.SanctionSuccess r), spec.after_letter w path)
    /\ sanction_agent.reference_number r
       = spec.letter_reference cid (os.clock w (os.ticks w))
    /\ sanction_agent.sanction_letter_url r
       = document_tools.get_document_download_url path.
Proof.
  intros Hall Hcid Hc Hname path.
  unfold spec.complete in Hall.
  repeat (apply andb_true_iff in Hall as [Hall ?]).
  destruct (truthy_str_value _ Hall) as [cid' [E1 A1]].
  destruct (truthy_num_value _ H2) as [amount [E2 A2]].
  destruct (truthy_int_value _ H1) as [tenure [E3 A3]].
  destruct (truthy_num_value _ H0) as [rate [E4 A4]].
  destruct (truthy_num_value _ H) as [emi [E5 A5]].
  assert (cid' = cid) by congruence. subst cid'.
  destruct (generate_sanction_letter_found db cid c first amount tenure rate emi
              w Hc Hname) as [l [Hl [Href Hpath]]].
  unfold sanction_agent.generate_sanction.
  rewrite A1, A2, A3, A4, A5.
  unfold os.bind at 1. rewrite Hl. rewrite Hc.
  unfold sanction_agent._create_sanction_message. rewrite Hname.
  cbn [py.bind os.lift os.bind os.ret].
  eexists. split; [reflexivity |]. cbn. rewrite Href, Hpath. split; reflexivity.
Qed.

Lemma missing_is_incomplete (s : state.LoanApplicationState) :
  state.get s state.customer_id = None
  \/ state.get s state.approved_amount = None
  \/ state.get s state.tenure_months = None
  \/ state.get s state.interest_rate = None
  \/ state.get s state.monthly_emi = None ->
  spec.complete s = false.
Proof.
  unfold spec.complete.
  intros [H | [H | [H | [H | H]]]]; rewrite H; cbn [py.truthy_str
    py.truthy_num py.truthy_int]; rewrite ?andb_false_r; reflexivity.
Qed.

(** C8.  When [customer_id], [approved_amount], [tenure_months],
    [interest_rate] or [monthly_emi] is missing from the record, the
    Sanction unit raises nothing and answers with an error, no clock is read
    and no file written, and the state update that follows changes
    [active_agent] and [last_error] and no other key: [application_status],
    [current_stage] and the two sanction-letter fields are as before. *)
Theorem sanction_missing_field (db : list crm_tools.customer)
  (s : state.LoanApplicationState) (w : os.world) :
  state.get s state.customer_id = None
  \/ state.get s state.approved_amount = None
  \/ state.get s state.tenure_months = None
  \/ state.get s state.interest_rate = None
  \/ state.get s state.monthly_emi = None ->
  exists error s',
    sanction_agent.generate_sanction db s w
    = (Ok (sanction_agent.SanctionError error), w)
    /\ graph.sanction_agent_node db s w = (Ok s', w)
    /\ state.get s' state.application_status
       = state.get s state.application_status
    /\ state.get s' state.current_stage = state.get s state.current_stage
    /\ state.get s' state.sanction_letter_ref_no
       = state.get s state.sanction_letter_ref_no
    /\ state.get s' state.sanction_letter_url
       = state.get s state.sanction_letter_url
    /\ state.get s' state.last_error = Some error
    /\ state.get s' state.active_agent = Some "master"
    /\ forall k, k <> state.active_agent -> k <> state.last_error ->
                 state.get s' k = state.get s k.
Proof.
  intros Hmiss. apply missing_is_incomplete in Hmiss.
  pose proof (generate_sanction_incomplete db s w Hmiss) as Hgen.
  do 2 eexists. split; [exact Hgen |].
  unfold graph.sanction_agent_node, os.bind. rewrite Hgen.
  split; [reflexivity |]. repeat split.
  intros k Ha Hl. destruct k; first [reflexivity | contradiction].
Qed.

Lemma sanction_missing_field_witness :
  exists error s',
    graph.sanction_agent_node sample.customers
      (sample.application "CUST001" 400000) (sample.world 15)
    = (Ok s', sample.world 15)
    /\ state.get s' state.last_error = Some error
    /\ state.get s' state.application_status = Some "in_progress"
    /\ state.get s' state.current_stage = Some "underwriting"
    /\ state.get s' state.sanction_letter_ref_no = None
    /\ state.get s' state.sanction_letter_url = None.
Proof.
  destruct (sanction_missing_field sample.customers
              (sample.application "CUST001" 400000) (sample.world 15))
    as [error [s' [_ [Hn [Hst [Hsg [Hr [Hu [He _]]]]]]]]];
    [right; left; reflexivity |].
  exists error, s'. repeat split; assumption.
Defined.

(** ** The sales step *)

(** C9.  When [requested_amount] is absent, the Sales unit returns to the
    router without acting: [next_action] is cleared, [active_agent] is
    ["master"], and no other key changes, so no message is appended,
    [last_error] is not set and the loan-negotiation fields are as before. *)
Theorem sales_without_amount (db : list crm_tools.customer)
  (s : state.LoanApplicationState) :
  state.get s state.requested_amount = None ->
  exists s',
    graph.sales_agent_node db s = Ok s'
    /\ state.get s' state.next_action = None
    /\ state.get s' state.active_agent = Some "master"
    /\ state.get s' state.conversation_history
       = state.get s state.conversation_history
    /\ state.get s' state.last_error = state.get s state.last_error
    /\ state.get s' state.requested_amount = None
    /\ state.get s' state.tenure_months = state.get s state.tenure_months
    /\ state.get s' state.interest_rate = state.get s state.interest_rate
    /\ state.get s' state.monthly_emi = state.get s state.monthly_emi
    /\ state.get s' state.recommended_offers
       = state.get s state.recommended_offers
    /\ forall k, k <> state.active_agent -> k <> state.next_action ->
                 state.get s' k = state.get s k.
Proof.
  intros Habsent. unfold graph.sales_agent_node. rewrite Habsent.
  cbn [py.as_num py.truthy_num].
  eexists. split; [reflexivity |]. repeat split.
  - exact Habsent.
  - intros k Ha Hn. destruct k; first [reflexivity | contradiction].
Qed.

Lemma sales_without_amount_witness :
  exists s',
    graph.sales_agent_node sample.customers (sample.opened "CUST001") = Ok s'
    /\ state.get s' state.next_action = None
    /\ state.get s' state.active_agent = Some "master"
    /\ state.get s' state.conversation_history = []
    /\ state.get s' state.last_error = None.
Proof.
  destruct (sales_without_amount sample.customers (sample.opened "CUST001"))
    as [s' [Hn [Hna [Ha [Hh [He _]]]]]]; [reflexivity |].
  exists s'. repeat split; assumption.
Defined.

Lemma sanction_node_complete (db : list crm_tools.customer)
  (s : state.LoanApplicationState) (w : os.world) (cid : string)
  (c : crm_tools.customer) (first : string) :
  spec.complete s = true ->
  state.get s state.customer_id = Some cid ->
  crm_tools.get_customer_by_id db cid = Some c ->
  py.split_first (crm_tools.name c) = Ok first ->
  let path := spec.letter_path w cid (os.clock w (S (os.ticks w))) in
  exists s',
    graph.sanction_agent_node db s w = (Ok s', spec.after_letter w path)
    /\ state.get s' state.sanction_letter_ref_no
       = Some (spec.letter_reference cid (os.clock w (os.ticks w)))
    /\ state.get s' state.sanction_letter_url
       = Some (document_tools.get_document_download_url path)
    /\ state.get s' state.current_stage = Some "closure"
    /\ spec.complete s' = true
    /\ state.get s' state.customer_id = Some cid.
Proof.
  intros Hall Hcid Hc Hname path.
  destruct (sanction_step_complete db s w cid c first Hall Hcid Hc Hname)
    as [r [Hgen [Href Hurl]]].
  unfold graph.sanction_agent_node, os.bind. rewrite Hgen.
  eexists. split; [reflexivity |].
  split; [cbn; now rewrite Href |].
  split; [cbn; now rewrite Hurl |].
  split; [reflexivity |]. split; [exact Hall | exact Hcid].
Qed.

(** C6, as amended.  The Sanction unit does not look at the reference a
    record carries.  Invoked a second time on the record it has just
    sanctioned, it writes a second letter and overwrites the stored
    reference number and location with those of the second invocation: the
    reference [SL/<date>/<customer_id>] from the date read at its start,
    the location from the file name stamped with the date and time read
    next. *)
Theorem sanction_reentry (db : list crm_tools.customer)
  (s : state.LoanApplicationState) (w : os.world) (cid : string)
  (c : crm_tools.customer) (first : string) :
  spec.complete s = true ->
  state.get s state.customer_id = Some cid ->
  crm_tools.get_customer_by_id db cid = Some c ->
  py.split_first (crm_tools.name c) = Ok first ->
  let t := os.clock w in
  let n := os.ticks w in
  let path1 := spec.letter_path w cid (t (1 + n)%nat) in
  let path2 := spec.letter_path w cid (t (6 + n)%nat) in
  exists s1 w1 s2 w2,
    graph.sanction_agent_node db s w = (Ok s1, w1)
    /\ graph.sanction_agent_node db s1 w1 = (Ok s2, w2)
    /\ state.get s1 state.sanction_letter_ref_no
       = Some (spec.letter_reference cid (t n))
    /\ state.get s1 state.sanction_letter_url
       = Some (document_tools.get_document_download_url path1)
    /\ state.get s2 state.sanction_letter_ref_no
       = Some (spec.letter_reference cid (t (5 + n)%nat))
    /\ state.get s2 state.sanction_letter_url
       = Some (document_tools.get_document_download_url path2)
    /\ os.files w2 = path2 :: path1 :: os.files w.
Proof.
  intros Hall Hcid Hc Hname t n path1 path2.
  destruct (sanction_node_complete db s w cid c first Hall Hcid Hc Hname)
    as [s1 [H1 [Href1 [Hurl1 [_ [Hall1 Hcid1]]]]]].
  destruct (sanction_node_complete db s1 (spec.after_letter w path1) cid c
              first Hall1 Hcid1 Hc Hname)
    as [s2 [H2 [Href2 [Hurl2 _]]]].
  exists s1, (spec.after_letter w path1), s2. eexists.
  split; [exact H1 |]. split; [exact H2 |].
  split; [exact Href1 |]. split; [exact Hurl1 |].
  split; [exact Href2 |]. split; [exact Hurl2 |]. reflexivity.
Qed.

Lemma sanction_reentry_witness :
  exists s1 w1 s2 w2,
    graph.sanction_agent_node sample.customers
      (sample.approved "CUST001" 400000) (sample.world 15) = (Ok s1, w1)
    /\ graph.sanction_agent_node sample.customers s1 w1 = (Ok s2, w2)
    /\ state.get s1 state.sanction_letter_url
       = Some "/api/documents/download/sanction_letter_CUST001_20251015_090501.pdf"
    /\ state.get s2 state.sanction_letter_url
       = Some "/api/documents/download/sanction_letter_CUST001_20251015_090506.pdf"
    /\ List.length (os.files w2) = 2%nat.
Proof.
  destruct (sanction_reentry sample.customers
              (sample.approved "CUST001" 400000) (sample.world 15) "CUST001"
              sample.CUST001 "Rajesh")
    as [s1 [w1 [s2 [w2 [H1 [H2 [_ [Hu1 [_ [Hu2 Hf]]]]]]]]]];
    [reflexivity | reflexivity | reflexivity | reflexivity |].
  exists s1, w1, s2, w2.
  split; [exact H1 |]. split; [exact H2 |].
  split; [rewrite Hu1; reflexivity |].
  split; [rewrite Hu2; reflexivity |].
  rewrite Hf. reflexivity.
Defined.

(** C6, as stated, fails: sanctioning the sanctioned record of CUST001
    again a day later changes the stored reference and location and writes
    a second file. *)
Lemma sanction_twice_regenerates :
  ~ (forall db s w s' w',
       state.get s state.sanction_letter_ref_no <> None ->
       graph.sanction_agent_node db s w = (Ok s', w') ->
       state.get s' state.sanction_letter_ref_no
       = state.get s state.sanction_letter_ref_no
       /\ state.get s' state.sanction_letter_url
          = state.get s state.sanction_letter_url
       /\ os.files w' = os.files w).
Proof.
  intros H.
  destruct (graph.sanction_agent_node sample.customers
              (sample.approved "CUST001" 400000) (sample.world 15))
    as [[s1 | e1] w1] eqn:E1; [| vm_compute in E1; discriminate].
  destruct (graph.sanction_agent_node sample.customers s1 (sample.world 16))
    as [[s2 | e2] w2] eqn:E2.
  - destruct (H sample.customers s1 (sample.world 16) s2 w2) as [Href _];
      [| exact E2 |].
    + vm_compute in E1. injection E1 as <- _. vm_compute. discriminate.
    + vm_compute in E1. injection E1 as <- _.
      vm_compute in E2. injection E2 as <- _.
      vm_compute in Href. discriminate Href.
  - vm_compute in E1. injection E1 as <- _.
    vm_compute in E2. discriminate E2.
Qed.

(** C1, as amended.  The underwriting step sets [application_status] by
    its decision, to ["approved"] for ["approved"] and to ["rejected"] for
    ["rejected"], keeps it for any other decision and when it answers with
    an error, and leaves [current_stage] as it was in every case; the
    Sanction step, when it succeeds, sets [current_stage] to ["closure"]
    and leaves [application_status] as it was, so that after it an approved
    or rejected record is in the closure stage. *)
Theorem stage_after_underwriting_and_sanction
  (db : list crm_tools.customer) (s : state.LoanApplicationState) :
  (forall s',
     graph.underwriting_agent_node db s = Ok s' ->
     state.get s' state.current_stage = state.get s state.current_stage
     /\ match underwriting_agent.process_underwriting db s with
        | Ok (underwriting_agent.UnderwritingSuccess r) =>
            let d := underwriting_agent.decision r in
            state.get s' state.underwriting_decision = Some d
            /\ state.get s' state.application_status
               = (if d =? "approved" then Some "approved"
                  else if d =? "rejected" then Some "rejected"
                  else state.get s state.application_status)
        | _ =>
            state.get s' state.application_status
            = state.get s state.application_status
        end)
  /\ (forall w r w',
        sanction_agent.generate_sanction db s w
        = (Ok (sanction_agent.SanctionSuccess r), w') ->
        exists s',
          graph.sanction_agent_node db s w = (Ok s', w')
          /\ state.get s' state.current_stage = Some "closure"
          /\ state.get s' state.application_status
             = state.get s state.application_status
          /\ spec.closed_in_closure s').
Proof.
  split.
  - intros s'. unfold graph.underwriting_agent_node.
    destruct (underwriting_agent.process_underwriting db s) as [[err | r] | e];
      cbn [py.bind]; [| | discriminate].
    + intros [= <-]. split; reflexivity.
    + cbv zeta.
      destruct (underwriting_agent.decision r =? "approved");
        [| destruct (underwriting_agent.decision r =? "rejected")];
        intros [= <-]; repeat split.
  - intros w r w' Hgen.
    unfold graph.sanction_agent_node, os.bind. rewrite Hgen.
    eexists. split; [reflexivity |]. repeat split.
Qed.

Lemma stage_after_underwriting_and_sanction_witness :
  (exists s',
     graph.underwriting_agent_node sample.customers
       (sample.application "CUST001" 400000) = Ok s'
     /\ state.get s' state.current_stage = Some "underwriting"
     /\ state.get s' state.application_status = Some "approved")
  /\ exists s' w',
       graph.sanction_agent_node sample.customers
         (sample.approved "CUST001" 400000) (sample.world 15) = (Ok s', w')
       /\ state.get s' state.current_stage = Some "closure"
       /\ state.get s' state.application_status = Some "approved"
       /\ spec.closed_in_closure s'.
Proof.
  split.
  - destruct (graph.underwriting_agent_node sample.customers
                (sample.application "CUST001" 400000)) as [s' | e] eqn:E;
      [| vm_compute in E; discriminate E].
    destruct (proj1 (stage_after_underwriting_and_sanction sample.customers
                       (sample.application "CUST001" 400000)) s' E)
      as [Hstage Hstatus].
    exists s'. split; [reflexivity |]. split; [exact Hstage |].
    vm_compute in Hstatus. exact (proj2 Hstatus).
  - destruct (sanction_agent.generate_sanction sample.customers
                (sample.approved "CUST001" 400000) (sample.world 15))
      as [[[err | r] | e] w'] eqn:E;
      [vm_compute in E; discriminate E | | vm_compute in E; discriminate E].
    destruct (proj2 (stage_after_underwriting_and_sanction sample.customers
                       (sample.approved "CUST001" 400000))
                (sample.world 15) r w' E) as [s' [Hn [Hs [Ha Hc]]]].
    exists s', w'. repeat split; assumption.
Defined.

(* ================================================================== *)
(** * Further properties of the tools *)
(* ================================================================== *)

(** ** The one-time code *)

Lemma substring_length (s : string) :
  forall n m,
    String.length (substring n m s) = Nat.min m (String.length s - n).
Proof.
  induction s as [| c s IH]; intros n m.
  - destruct n, m; reflexivity.
  - destruct n as [| n].
    + destruct m as [| m]; [reflexivity |].
      cbn [substring String.length]. rewrite IH. lia.
    + cbn [substring String.length]. rewrite IH. reflexivity.
Qed.

Lemma slice_last_length (n : nat) (s : string) :
  String.length (py.slice_last n s) = Nat.min n (String.length s).
Proof. unfold py.slice_last. rewrite substring_length. lia. Qed.

Lemma digits_fuel_grows (fuel : nat) :
  forall n acc,
    (String.length acc <= String.length (py.digits_fuel fuel n acc))%nat.
Proof.
  induction fuel as [| fuel IH]; intros n acc; cbn [py.digits_fuel].
  - lia.
  - destruct (n <? 10)%Z.
    + cbn [String.length]. lia.
    + etransitivity; [| apply IH]. cbn [String.length]. lia.
Qed.

(** A number of at least [10^k] has more than [k] digits. *)
Lemma digits_fuel_at_least (k : nat) :
  forall fuel n acc,
    (10 ^ Z.of_nat k <= n)%Z -> (k < fuel)%nat ->
    (String.length acc + k + 1
     <= String.length (py.digits_fuel fuel n acc))%nat.
Proof.
  induction k as [| k IH]; intros fuel n acc Hn Hf;
    (destruct fuel as [| fuel]; [lia |]); cbn [py.digits_fuel].
  - destruct (n <? 10)%Z.
    + cbn [String.length]. lia.
    + etransitivity; [| apply digits_fuel_grows]. cbn [String.length]. lia.
  - rewrite Nat2Z.inj_succ, Z.pow_succ_r in Hn by lia.
    assert (H10 : (1 <= 10 ^ Z.of_nat k)%Z) by (apply Z.lt_pred_le; cbn;
      apply Z.pow_pos_nonneg; lia).
    replace (n <? 10)%Z with false by (symmetry; apply Z.ltb_ge; lia).
    etransitivity; [| apply IH].
    + cbn [String.length]. lia.
    + apply Z.div_le_lower_bound; lia.
    + lia.
Qed.

(** A natural number below [10^k] has at most [k] digits. *)
Lemma digits_fuel_at_most (fuel : nat) :
  forall k n acc,
    (0 <= n < 10 ^ Z.of_nat (S k))%Z ->
    (String.length (py.digits_fuel fuel n acc)
     <= String.length acc + S k)%nat.
Proof.
  induction fuel as [| fuel IH]; intros k n acc Hn; cbn [py.digits_fuel].
  - lia.
  - destruct (n <? 10)%Z eqn:E.
    + cbn [String.length]. lia.
    + apply Z.ltb_ge in E. destruct k as [| k].
      * change (10 ^ Z.of_nat 1)%Z with 10%Z in Hn. lia.
      * etransitivity; [apply (IH k) |].
        -- rewrite (Nat2Z.inj_succ (S k)), Z.pow_succ_r in Hn by lia.
           split; [apply Z.div_pos; lia |].
           apply Z.div_lt_upper_bound; lia.
        -- cbn [String.length]. lia.
Qed.

Lemma str_six_digits (n : Z) :
  (0 <= n)%Z ->
  ((6 <= String.length (py.str n))%nat <-> (100000 <= n)%Z).
Proof.
  intros Hn. unfold py.str.
  replace (n <? 0)%Z with false by (symmetry; apply Z.ltb_ge; lia).
  unfold py.str_of_nonneg. split.
  - intros Hlen. apply Z.le_ngt. intros Hsmall.
    pose proof (digits_fuel_at_most (S (Z.to_nat (Z.log2 n))) 4 n "") as H.
    cbn [String.length] in H.
    change (10 ^ Z.of_nat 5)%Z with 100000%Z in H. lia.
  - intros Hbig.
    pose proof (digits_fuel_at_least 5 (S (Z.to_nat (Z.log2 n))) n "") as H.
    cbn [String.length] in H.
    change (10 ^ Z.of_nat 5)%Z with 100000%Z in H.
    assert (16 <= Z.log2 n)%Z.
    { change 16%Z with (Z.log2 65536). apply Z.log2_le_mono. lia. }
    lia.
Qed.

Lemma fold_bytes_nonneg (bytes : list Z) :
  Forall (fun b => 0 <= b)%Z bytes ->
  forall acc, (0 <= acc)%Z ->
    (0 <= fold_left (fun a b => a * 256 + b) bytes acc)%Z.
Proof.
  induction 1 as [| b bytes Hb _ IH]; intros acc Hacc; cbn [fold_left].
  - exact Hacc.
  - apply IH. lia.
Qed.

Lemma bytes_of_word_nonneg (x : Z) :
  Forall (fun b => 0 <= b)%Z (hashlib.bytes_of_word x).
Proof.
  unfold hashlib.bytes_of_word.
  repeat constructor; apply Z.land_nonneg; right; lia.
Qed.

Lemma md5_int_nonneg (message : list Z) : (0 <= hashlib.md5_int message)%Z.
Proof.
  unfold hashlib.md5_int. apply fold_bytes_nonneg; [| lia].
  unfold hashlib.md5.
  destruct (hashlib.chunks _ _ _) as [[[a0 b0] c0] d0].
  repeat (apply Forall_app; split); apply bytes_of_word_nonneg.
Qed.

Lemma digit_char_decimal (n : Z) :
  In (py.digit_char (n mod 10)) (list_ascii_of_string "0123456789").
Proof.
  pose proof (Z.mod_pos_bound n 10 eq_refl) as B.
  remember (n mod 10)%Z as d.
  assert (D : (d = 0 \/ d = 1 \/ d = 2 \/ d = 3 \/ d = 4 \/ d = 5 \/ d = 6
               \/ d = 7 \/ d = 8 \/ d = 9)%Z) by lia.
  clear Heqd B.
  repeat (destruct D as [-> | D]; [cbn; tauto |]). subst d. cbn. tauto.
Qed.

Lemma digits_fuel_decimal (fuel : nat) :
  forall n acc,
    Forall (fun ch => In ch (list_ascii_of_string "0123456789"))
      (list_ascii_of_string acc) ->
    Forall (fun ch => In ch (list_ascii_of_string "0123456789"))
      (list_ascii_of_string (py.digits_fuel fuel n acc)).
Proof.
  induction fuel as [| fuel IH]; intros n acc Hacc; cbn [py.digits_fuel];
    [exact Hacc |].
  assert (Hstep : Forall (fun ch => In ch (list_ascii_of_string "0123456789"))
                    (list_ascii_of_string
                       (String (py.digit_char (n mod 10)) acc)))
    by (constructor; [apply digit_char_decimal | exact Hacc]).
  destruct (n <? 10)%Z; [exact Hstep | now apply IH].
Qed.

Lemma substring_keeps (P : ascii -> Prop) (s : string) :
  forall n m,
    Forall P (list_ascii_of_string s) ->
    Forall P (list_ascii_of_string (substring n m s)).
Proof.
  induction s as [| ch s IH]; intros n m Hs.
  - destruct n, m; constructor.
  - inversion Hs as [| ? ? Hch Hrest]; subst.
    destruct n as [| n].
    + destruct m as [| m]; [constructor |].
      cbn [substring list_ascii_of_string]. constructor; [exact Hch |].
      now apply IH.
    + cbn [substring]. now apply IH.
Qed.

(** X31.  The code that [simulate_otp_generation] returns depends on the
    phone string alone: in any two worlds it is the last six characters of
    the decimal digits of the MD5 value of the phone's bytes (the digest is
    MD5: it takes the values of RFC 1321 on the empty string and on
    ["abc"]).  The code consists of decimal digits, at most six of them,
    and exactly six when the MD5 value is at least 100000; it is printed in
    clear on the standard output.  [verify_otp] answers [true] exactly when
    the provided code equals the generated one, whatever the phone. *)
Theorem otp_deterministic (phone : string) (w1 w2 : os.world) :
  let digest := hashlib.md5_int (hashlib.encode phone) in
  let otp := py.slice_last 6 (py.str digest) in
  fst (crm_tools.simulate_otp_generation phone w1) = Ok otp
  /\ fst (crm_tools.simulate_otp_generation phone w2) = Ok otp
  /\ os.stdout (snd (crm_tools.simulate_otp_generation phone w1))
     = ("[DEMO] OTP for " ++ phone ++ ": " ++ otp)%string :: os.stdout w1
  /\ Forall (fun ch => In ch (list_ascii_of_string "0123456789"))
       (list_ascii_of_string otp)
  /\ (String.length otp <= 6)%nat
  /\ (String.length otp = 6%nat <-> (100000 <= digest)%Z)
  /\ (forall phone' provided generated,
        (crm_tools.verify_otp phone' provided generated = true <->
         provided = generated)
        /\ crm_tools.verify_otp phone' provided generated
           = crm_tools.verify_otp phone provided generated)
  /\ hashlib.md5_int (hashlib.encode "")
     = 0xd41d8cd98f00b204e9800998ecf8427e%Z
  /\ hashlib.md5_int (hashlib.encode "abc")
     = 0x900150983cd24fb0d6963f7d28e17f72%Z.
Proof.
  intros digest otp. split; [reflexivity |]. split; [reflexivity |].
  split; [reflexivity |].
  assert (Hnonneg : (0 <= digest)%Z) by apply md5_int_nonneg.
  assert (Hlen : String.length otp
                 = Nat.min 6 (String.length (py.str digest)))
    by apply slice_last_length.
  split.
  { unfold otp, py.slice_last. apply substring_keeps.
    unfold py.str. replace (digest <? 0)%Z with false
      by (symmetry; apply Z.ltb_ge; exact Hnonneg).
    apply digits_fuel_decimal. constructor. }
  split; [lia |]. split.
  { rewrite <- (str_six_digits _ Hnonneg). lia. }
  split.
  { intros phone' provided generated. split; [| reflexivity].
    unfold crm_tools.verify_otp. apply String.eqb_eq. }
  split; vm_compute; reflexivity.
Qed.

Lemma sample_otp :
  fst (crm_tools.simulate_otp_generation "+91-9876543210" (sample.world 15))
  = Ok "467085".
Proof. vm_compute. reflexivity. Qed.

(** ** Payments and interest *)

Lemma power_succ (q : Q) (k : nat) :
  ~ q == 0 -> q ^ Z.of_nat (S k) == q * q ^ Z.of_nat k.
Proof.
  intros Hq. rewrite Nat2Z.inj_succ. unfold Z.succ.
  rewrite Qpower_plus by exact Hq. rewrite Qpower_1_r. ring.
Qed.

(** [(1 + r)^k - 1 <= k.r.(1 + r)^k]: the growth over [k] months is at
    most [k] times the last month's interest. *)
Lemma growth_bound (r : Q) (k : nat) :
  0 <= r ->
  (1 + r) ^ Z.of_nat k - 1 <= inject_Z (Z.of_nat k) * r * (1 + r) ^ Z.of_nat k.
Proof.
  intros Hr. induction k as [| k IH].
  - change ((1 + r) ^ Z.of_nat 0) with 1.
    change (inject_Z (Z.of_nat 0)) with 0. lra.
  - assert (Hne : ~ 1 + r == 0) by lra.
    rewrite (power_succ (1 + r) k Hne).
    assert (Hg : 1 <= (1 + r) ^ Z.of_nat k)
      by (apply Qpower_1_le; [lra | lia]).
    rewrite Nat2Z.inj_succ. unfold Z.succ. rewrite inject_Z_plus.
    change (inject_Z 1) with 1.
    set (g := (1 + r) ^ Z.of_nat k) in *.
    assert (HK : 0 <= inject_Z (Z.of_nat k))
      by (change 0 with (inject_Z 0); rewrite <- Zle_Qle; lia).
    set (K := inject_Z (Z.of_nat k)) in *.
    assert (H1 : 0 <= r * g) by nra.
    assert (H2 : 0 <= K * (r * g)) by nra.
    assert (H3 : 0 <= r * (r * g)) by nra.
    assert (H4 : 0 <= K * (r * (r * g))) by nra.
    nra.
Qed.

Lemma growth_bound_Z (r : Q) (n : Z) :
  0 <= r -> (0 <= n)%Z ->
  (1 + r) ^ n - 1 <= inject_Z n * r * (1 + r) ^ n.
Proof.
  intros Hr Hn. rewrite <- (Z2Nat.id n Hn). now apply growth_bound.
Qed.

(** The annuity is more than the interest of one month and at least the
    principal spread over the tenure. *)
Lemma annuity_bounds (P r : Q) (n : Z) :
  0 < P -> 0 < r -> (0 < n)%Z ->
  P * r < spec.annuity P r n /\ P / inject_Z n <= spec.annuity P r n.
Proof.
  intros HP Hr Hn. unfold spec.annuity.
  assert (Hg : 1 < (1 + r) ^ n) by (apply Qpower_1_lt; [lra | exact Hn]).
  pose proof (growth_bound_Z r n (Qlt_le_weak _ _ Hr) (Z.lt_le_incl _ _ Hn))
    as Hb.
  assert (HN : 0 < inject_Z n)
    by (change 0 with (inject_Z 0); rewrite <- Zlt_Qlt; exact Hn).
  set (g := (1 + r) ^ n) in *. set (N := inject_Z n) in *.
  split.
  - apply Qlt_shift_div_l; [lra |].
    assert (0 < P * r) by nra. nra.
  - apply Qle_shift_div_l; [lra |].
    assert (E : P / N * (g - 1) == P * (g - 1) / N) by (field; lra).
    rewrite E. apply Qle_shift_div_r; [exact HN |].
    assert (0 <= P * (N * r * g - (g - 1))) by nra. nra.
Qed.

Lemma round_half_even_zero (x : Q) : x == 0 -> py.round_half_even x = 0%Z.
Proof.
  intros Hx. unfold py.round_half_even.
  rewrite (Qfloor_comp x 0 Hx). change (Qfloor 0) with 0%Z.
  replace (Qcompare (x - inject_Z 0) (1 # 2)) with Lt; [reflexivity |].
  symmetry. apply (proj1 (Qlt_alt _ _)). change (inject_Z 0) with 0. lra.
Qed.

Lemma round_zero (x : Q) (digits : nat) : x == 0 -> py.round x digits == 0.
Proof.
  intros Hx. unfold py.round.
  rewrite round_half_even_zero; [reflexivity |]. rewrite Hx. ring.
Qed.

(** X1.  A tenure of zero months makes [calculate_emi], and with it
    [calculate_total_interest], raise [ZeroDivisionError], whatever the
    principal and the rate: at a zero rate the principal is divided by the
    tenure, at any other rate the growth factor is one and the formula
    divides by zero. *)
Theorem calculate_emi_zero_tenure (P rate : Q) :
  calculation_tools.calculate_emi P rate 0 = Raise ZeroDivisionError
  /\ calculation_tools.calculate_total_interest P rate 0
     = Raise ZeroDivisionError.
Proof.
  assert (H : calculation_tools.calculate_emi P rate 0
              = Raise ZeroDivisionError).
  { unfold calculation_tools.calculate_emi.
    destruct (Qeq_bool (rate / 12) 0); [reflexivity |].
    unfold py.pow. cbn [Z.ltb Z.compare andb py.bind].
    unfold py.div.
    replace (Qeq_bool ((1 + rate / 12) ^ 0 - 1) 0) with true; [reflexivity |].
    symmetry. apply Qeq_bool_iff. change ((1 + rate / 12) ^ 0) with 1. lra. }
  split; [exact H |].
  unfold calculation_tools.calculate_total_interest. now rewrite H.
Qed.

Lemma loan_amount_positive_rate (emi rate : Q) (n : Z) :
  0 < rate -> (0 < n)%Z ->
  credit_tools.calculate_loan_amount_from_emi emi rate n
  = Ok (py.round (emi * ((1 + rate / 12) ^ n - 1)
                  / (rate / 12 * (1 + rate / 12) ^ n)) 2).
Proof.
  intros Hr Hn. unfold credit_tools.calculate_loan_amount_from_emi.
  destruct (Qeq_bool (rate / 12) 0) eqn:E.
  { apply monthly_rate_zero in E. lra. }
  unfold py.pow.
  replace (n <? 0)%Z with false by (symmetry; apply Z.ltb_ge; lia).
  cbn [andb py.bind]. unfold py.div.
  pose proof (growth_above_one rate n Hr Hn) as Hg.
  assert (Hm : 0 < rate / 12)
    by (change (rate / 12) with (rate * (1 # 12)); lra).
  destruct (Qeq_bool (rate / 12 * (1 + rate / 12) ^ n) 0) eqn:D;
    [| reflexivity].
  apply Qeq_bool_eq in D. set (g := (1 + rate / 12) ^ n) in *.
  set (r := rate / 12) in *. nra.
Qed.

Lemma loan_amount_zero_rate (emi rate : Q) (n : Z) :
  rate == 0 ->
  credit_tools.calculate_loan_amount_from_emi emi rate n
  = Ok (emi * inject_Z n).
Proof.
  intros Hr. unfold credit_tools.calculate_loan_amount_from_emi.
  apply monthly_rate_zero in Hr. now rewrite Hr.
Qed.

Lemma loan_amount_back (P rate : Q) (n : Z) :
  0 <= rate -> (0 < n)%Z ->
  exists emi amount,
    credit_tools.calculate_emi P rate n = Ok emi
    /\ credit_tools.calculate_loan_amount_from_emi emi rate n = Ok amount
    /\ Qabs (amount - P) <= (inject_Z n + 1) * (1 # 200)
    /\ (rate == 0 -> amount == P).
Proof.
  intros Hrate Hn.
  assert (HN : 0 < inject_Z n)
    by (change 0 with (inject_Z 0); rewrite <- Zlt_Qlt; exact Hn).
  destruct (Qle_lt_or_eq _ _ Hrate) as [Hpos | Hzero].
  - do 2 eexists. rewrite credit_calculate_emi_same.
    split; [now apply calculate_emi_positive_rate |].
    split; [now apply loan_amount_positive_rate |].
    split; [| intros Hz; lra].
    pose proof (growth_above_one rate n Hpos Hn) as Hg.
    assert (Hr : 0 < rate / 12)
      by (change (rate / 12) with (rate * (1 # 12)); lra).
    pose proof (growth_bound_Z (rate / 12) n (Qlt_le_weak _ _ Hr)
                  (Z.lt_le_incl _ _ Hn)) as Hb.
    unfold spec.annuity.
    set (r := rate / 12) in *. set (g := (1 + r) ^ n) in *.
    set (N := inject_Z n) in *.
    assert (Hrg : 0 < r * g) by nra.
    set (A := P * r * g / (g - 1)).
    set (c := (g - 1) / (r * g)).
    assert (Hc0 : 0 <= c) by (apply Qle_shift_div_l; [exact Hrg | lra]).
    assert (HcN : c <= N) by (apply Qle_shift_div_r; [exact Hrg | lra]).
    assert (HAc : A * c == P) by (unfold A, c; field; split; lra).
    pose proof (round_2_error A) as EA. apply Qabs_Qle_condition in EA.
    set (e := py.round A 2) in *.
    assert (Eq : e * (g - 1) / (r * g) == e * c) by (unfold c; field; lra).
    pose proof (round_2_error (e * (g - 1) / (r * g))) as ER.
    apply Qabs_Qle_condition in ER. rewrite Eq in ER at 2 4.
    apply Qabs_Qle_condition.
    assert (D1 : (e - A) * c <= (1 # 200) * N) by nra.
    assert (D2 : - ((1 # 200) * N) <= (e - A) * c) by nra.
    split; nra.
  - assert (Hz : rate == 0) by (symmetry; exact Hzero).
    do 2 eexists. rewrite credit_calculate_emi_same.
    split; [now apply calculate_emi_zero_rate |].
    split; [now apply loan_amount_zero_rate |].
    assert (Ediv : P / inject_Z n * inject_Z n == P) by (field; lra).
    split; [| intros _; exact Ediv].
    apply Qabs_Qle_condition. rewrite Ediv. split; lra.
Qed.

(** X3.  The loan amount computed back from the monthly payment of a loan
    is the principal again, up to rounding: for a principal
    [0 <= P <= 10^8], a tenure of [0 < n <= 480] months and an annual rate
    of zero or from 1% to 100%,
    [calculate_loan_amount_from_emi(calculate_emi(P, rate, n), rate, n)]
    raises nothing and is within [(n + 1)/100] of [P]. *)
Theorem loan_amount_round_trip (P rate : Q) (n : Z) :
  0 <= P -> P <= 100000000 -> (0 < n)%Z -> (n <= 480)%Z ->
  rate == 0 \/ ((1 # 100) <= rate /\ rate <= 1) ->
  exists emi amount,
    credit_tools.calculate_emi P rate n = Ok emi
    /\ credit_tools.calculate_loan_amount_from_emi emi rate n = Ok amount
    /\ Qabs (amount - P) <= (inject_Z n + 1) * (1 # 100).
Proof.
  intros _ _ Hn _ Hrate.
  assert (Hr : 0 <= rate) by (destruct Hrate as [Hz | [Hlo _]]; lra).
  destruct (loan_amount_back P rate n Hr Hn)
    as [emi [amount [H1 [H2 [H3 _]]]]].
  exists emi, amount. split; [exact H1 |]. split; [exact H2 |].
  assert (HN : 0 < inject_Z n)
    by (change 0 with (inject_Z 0); rewrite <- Zlt_Qlt; exact Hn).
  eapply Qle_trans; [exact H3 |]. nra.
Qed.

Lemma loan_amount_round_trip_witness :
  exists emi amount,
    credit_tools.calculate_emi 600000 (12 # 100) 36 = Ok emi
    /\ credit_tools.calculate_loan_amount_from_emi emi (12 # 100) 36
       = Ok amount
    /\ Qabs (amount - 600000) <= (36 + 1) * (1 # 100).
Proof.
  assert (A1 : 0 <= 600000) by (intros E; discriminate E).
  assert (A2 : 600000 <= 100000000) by (intros E; discriminate E).
  assert (A4 : (36 <= 480)%Z) by (intros E; discriminate E).
  assert (A5 : (12 # 100) == 0 \/ ((1 # 100) <= (12 # 100) /\ (12 # 100) <= 1))
    by (right; split; intros E; discriminate E).
  exact (loan_amount_round_trip 600000 (12 # 100) 36 A1 A2 eq_refl A4 A5).
Defined.

(** ** Eligibility: the rules as a whole *)

Ltac split_all :=
  repeat match goal with
    | |- _ /\ _ => split
    | |- _ <-> _ => split
    end.

(** X4.  For a customer with a credit score of at least 700 and no salary
    on file, the requested amount alone decides, with both bounds
    inclusive: ["approved"] exactly up to the pre-approved limit,
    ["needs_documents"] exactly above it and up to twice the limit,
    ["rejected"] exactly above both. *)
Theorem check_eligibility_partition (db : list crm_tools.customer)
  (cid : string) (c : crm_tools.customer) (amount : Q) :
  crm_tools.get_customer_by_id db cid = Some c ->
  (700 <= crm_tools.credit_score c)%Z ->
  exists e,
    credit_tools.check_eligibility db cid amount None = Ok e
    /\ (credit_tools.decision e = "approved" <->
        amount <= crm_tools.pre_approved_limit c)
    /\ (credit_tools.decision e = "needs_documents" <->
        crm_tools.pre_approved_limit c < amount
        /\ amount <= 2 * crm_tools.pre_approved_limit c)
    /\ (credit_tools.decision e = "rejected" <->
        crm_tools.pre_approved_limit c < amount
        /\ 2 * crm_tools.pre_approved_limit c < amount).
Proof.
  intros Hc Hs. unfold credit_tools.check_eligibility. rewrite Hc.
  replace (crm_tools.credit_score c <? 700)%Z with false
    by (symmetry; apply Z.ltb_ge; lia).
  destruct (Qle_bool amount (crm_tools.pre_approved_limit c)) eqn:A.
  - apply Qle_bool_iff in A. eexists. split; [reflexivity |]. cbn.
    split_all; intros H; first [exact A | reflexivity | discriminate | lra].
  - assert (A' : crm_tools.pre_approved_limit c < amount).
    { apply Qnot_le_lt. intros H. apply Qle_bool_iff in H. congruence. }
    destruct (Qle_bool amount (2 * crm_tools.pre_approved_limit c)) eqn:B.
    + apply Qle_bool_iff in B. eexists. split; [reflexivity |]. cbn.
      split_all; intros H; first [reflexivity | discriminate | lra | tauto].
    + assert (B' : 2 * crm_tools.pre_approved_limit c < amount).
      { apply Qnot_le_lt. intros H. apply Qle_bool_iff in H. congruence. }
      eexists. split; [reflexivity |]. cbn.
      split_all; intros H; first [reflexivity | discriminate | lra | tauto].
Qed.

Lemma check_eligibility_partition_witness :
  exists e,
    credit_tools.check_eligibility sample.customers "CUST002" 800000 None
    = Ok e
    /\ (credit_tools.decision e = "needs_documents" <->
        400000 < 800000 /\ 800000 <= 2 * 400000).
Proof.
  destruct (check_eligibility_partition sample.customers "CUST002"
              sample.CUST002 800000) as [e [H1 [_ [H2 _]]]];
    [reflexivity | cbn; lia |].
  exists e. split; [exact H1 | exact H2].
Defined.

(** X5.  A request above twice the pre-approved limit (and above the limit)
    of a customer with a credit score of at least 700 is rejected whatever
    salary is passed, a zero salary included: no documents are asked for,
    nothing is divided by the salary, and the two recommendations name the
    pre-approved amount and the maximum. *)
Theorem check_eligibility_over_ceiling (db : list crm_tools.customer)
  (cid : string) (c : crm_tools.customer) (amount : Q) (salary : option Q) :
  crm_tools.get_customer_by_id db cid = Some c ->
  (700 <= crm_tools.credit_score c)%Z ->
  crm_tools.pre_approved_limit c < amount ->
  2 * crm_tools.pre_approved_limit c < amount ->
  exists e,
    credit_tools.check_eligibility db cid amount salary = Ok e
    /\ credit_tools.decision e = "rejected"
    /\ credit_tools.approved_amount e = None
    /\ credit_tools.conditions e = []
    /\ List.length (credit_tools.recommendations e) = 2%nat.
Proof.
  intros Hc Hs H1 H2. unfold credit_tools.check_eligibility. rewrite Hc.
  replace (crm_tools.credit_score c <? 700)%Z with false
    by (symmetry; apply Z.ltb_ge; lia).
  rewrite (Qle_bool_false _ _ H1), (Qle_bool_false _ _ H2). cbn [negb].
  eexists. repeat split.
Qed.

Lemma check_eligibility_over_ceiling_witness :
  exists e,
    credit_tools.check_eligibility sample.customers "CUST001" 1000001
      (Some 0) = Ok e
    /\ credit_tools.decision e = "rejected".
Proof.
  destruct (check_eligibility_over_ceiling sample.customers "CUST001"
              sample.CUST001 1000001 (Some 0))
    as [e [H1 [H2 _]]]; [reflexivity | cbn; lia | reflexivity | reflexivity |].
  exists e. split; assumption.
Defined.

Lemma eligibility_answer_shape (db : list crm_tools.customer)
  (cid : string) (amount : Q) (salary : option Q)
  (e : credit_tools.eligibility) :
  credit_tools.check_eligibility db cid amount salary = Ok e ->
  (credit_tools.decision e = "approved"
   \/ credit_tools.decision e = "rejected"
   \/ credit_tools.decision e = "needs_documents")
  /\ (credit_tools.decision e = "approved" ->
      credit_tools.approved_amount e = Some amount)
  /\ (credit_tools.decision e <> "approved" ->
      credit_tools.approved_amount e = None)
  /\ (credit_tools.decision e = "needs_documents" ->
      credit_tools.conditions e = [ "salary_slip_upload" ])
  /\ (credit_tools.decision e <> "needs_documents" ->
      credit_tools.conditions e = []).
Proof.
  unfold credit_tools.check_eligibility.
  destruct (crm_tools.get_customer_by_id db cid) as [c |].
  2: { intros [= <-]. cbn. split_all; intros; first
         [ reflexivity | discriminate | tauto ]. }
  destruct (crm_tools.credit_score c <? 700)%Z.
  { intros [= <-]. cbn. split_all; intros; first
      [ reflexivity | discriminate | tauto ]. }
  destruct (Qle_bool amount (crm_tools.pre_approved_limit c)).
  { intros [= <-]. cbn. split_all; intros; first
      [ reflexivity | discriminate | tauto | congruence ]. }
  destruct (Qle_bool amount (2 * crm_tools.pre_approved_limit c)); cbn [negb].
  2: { intros [= <-]. cbn. split_all; intros; first
         [ reflexivity | discriminate | tauto ]. }
  destruct salary as [salary |].
  2: { intros [= <-]. cbn. split_all; intros; first
         [ reflexivity | discriminate | tauto | congruence ]. }
  fold spec.assumed_rate. fold spec.assumed_tenure.
  rewrite assumed_emi. cbn [py.bind]. unfold py.div.
  destruct (Qeq_bool salary 0); [discriminate |]. cbn [py.bind].
  destruct (Qle_bool _ (50 # 100)).
  { intros [= <-]. cbn. split_all; intros; first
      [ reflexivity | discriminate | tauto | congruence ]. }
  destruct (assumed_loan_amount
              (salary * (50 # 100)
               - crm_tools.calculate_total_existing_emi db cid))
    as [affordable Haff].
  rewrite Haff. cbn [py.bind].
  intros [= <-]. cbn. split_all; intros; first
    [ reflexivity | discriminate | tauto ].
Qed.


(** X6.  Whatever [check_eligibility] answers, the decision is one of
    ["approved"], ["rejected"] and ["needs_documents"]; an approved amount
    is set exactly for ["approved"], and is then the requested amount; and
    the only condition ever set is ["salary_slip_upload"], exactly for
    ["needs_documents"]. *)
Theorem check_eligibility_outcome (db : list crm_tools.customer)
  (cid : string) (amount : Q) (salary : option Q)
  (e : credit_tools.eligibility) :
  credit_tools.check_eligibility db cid amount salary = Ok e ->
  (credit_tools.decision e = "approved"
   \/ credit_tools.decision e = "rejected"
   \/ credit_tools.decision e = "needs_documents")
  /\ (credit_tools.decision e = "approved" ->
      credit_tools.approved_amount e = Some amount)
  /\ (credit_tools.decision e <> "approved" ->
      credit_tools.approved_amount e = None)
  /\ (credit_tools.decision e = "needs_documents" ->
      credit_tools.conditions e = [ "salary_slip_upload" ])
  /\ (credit_tools.decision e <> "needs_documents" ->
      credit_tools.conditions e = []).
Proof. apply eligibility_answer_shape. Qed.

Lemma check_eligibility_outcome_witness :
  exists e,
    credit_tools.check_eligibility sample.customers "CUST002" 600000
      (Some 90000) = Ok e
    /\ (credit_tools.decision e = "approved" ->
        credit_tools.approved_amount e = Some 600000).
Proof.
  eexists. split.
  - vm_compute. reflexivity.
  - apply (check_eligibility_outcome sample.customers "CUST002" 600000
             (Some 90000)).
    vm_compute. reflexivity.
Defined.

(** X7.  In the range that needs documents, a salary of zero makes
    [check_eligibility] raise [ZeroDivisionError]: the EMI-to-income ratio
    divides by the salary, and only [None] is taken for a salary not
    given. *)
Theorem check_eligibility_zero_salary (db : list crm_tools.customer)
  (cid : string) (c : crm_tools.customer) (amount salary : Q) :
  crm_tools.get_customer_by_id db cid = Some c ->
  (700 <= crm_tools.credit_score c)%Z ->
  crm_tools.pre_approved_limit c < amount ->
  amount <= 2 * crm_tools.pre_approved_limit c ->
  salary == 0 ->
  credit_tools.check_eligibility db cid amount (Some salary)
  = Raise ZeroDivisionError.
Proof.
  intros Hc Hs H1 H2 Hz. unfold credit_tools.check_eligibility. rewrite Hc.
  replace (crm_tools.credit_score c <? 700)%Z with false
    by (symmetry; apply Z.ltb_ge; lia).
  rewrite (Qle_bool_false _ _ H1), (Qle_bool_true _ _ H2). cbn [negb].
  fold spec.assumed_rate. fold spec.assumed_tenure.
  rewrite assumed_emi. cbn [py.bind]. unfold py.div.
  apply Qeq_bool_iff in Hz. now rewrite Hz.
Qed.

Lemma check_eligibility_zero_salary_witness :
  credit_tools.check_eligibility sample.customers "CUST002" 600000 (Some 0)
  = Raise ZeroDivisionError.
Proof.
  apply (check_eligibility_zero_salary sample.customers "CUST002"
           sample.CUST002 600000 0);
    first [reflexivity | cbn; lia | (cbn; discriminate)].
Defined.

(** ** The risk score *)

Lemma min_max_bounds (x : Q) : 0 <= py.min 100 (py.max 0 x) <= 100.
Proof.
  unfold py.min, py.max.
  destruct (Qle_bool 0 x) eqn:A.
  - apply Qle_bool_iff in A.
    destruct (Qle_bool 100 x) eqn:B; [lra |].
    assert (x < 100).
    { apply Qnot_le_lt. intros H. apply Qle_bool_iff in H. congruence. }
    lra.
  - destruct (Qle_bool 100 0) eqn:B; [apply Qle_bool_iff in B |]; lra.
Qed.

(** X8.  For a known customer, [calculate_risk_score] raises
    [ZeroDivisionError] exactly when the pre-approved limit or the monthly
    salary is zero, and otherwise returns a score between 0 and 100,
    whatever amount is requested. *)
Theorem calculate_risk_score_range (db : list crm_tools.customer)
  (cid : string) (c : crm_tools.customer) (amount : Q) :
  crm_tools.get_customer_by_id db cid = Some c ->
  (crm_tools.pre_approved_limit c == 0 \/ crm_tools.monthly_salary c == 0 ->
   credit_tools.calculate_risk_score db cid amount = Raise ZeroDivisionError)
  /\ (~ crm_tools.pre_approved_limit c == 0 ->
      ~ crm_tools.monthly_salary c == 0 ->
      exists score,
        credit_tools.calculate_risk_score db cid amount = Ok score
        /\ 0 <= score <= 100).
Proof.
  intros Hc. unfold credit_tools.calculate_risk_score. rewrite Hc. split.
  - unfold py.div.
    destruct (Qeq_bool (crm_tools.pre_approved_limit c) 0) eqn:L;
      [reflexivity |].
    intros [H | H].
    + apply Qeq_bool_iff in H. congruence.
    + apply Qeq_bool_iff in H. cbn [py.bind]. now rewrite H.
  - intros Hl Hs. rewrite (div_nonzero _ _ Hl), (div_nonzero _ _ Hs).
    cbn [py.bind]. eexists. split; [reflexivity |]. apply min_max_bounds.
Qed.

Lemma calculate_risk_score_range_witness :
  exists score,
    credit_tools.calculate_risk_score sample.customers "CUST001" 400000
    = Ok score
    /\ 0 <= score <= 100.
Proof.
  apply (calculate_risk_score_range sample.customers "CUST001" sample.CUST001
           400000);
    first [reflexivity | intros E; vm_compute in E; discriminate E].
Defined.

(** ** Offers and the sales step *)

Lemma make_offer_ok (amount rate : Q) (tenure : Z) :
  0 < rate -> (0 < tenure)%Z ->
  exists o,
    calculation_tools.make_offer amount rate tenure = Ok o
    /\ calculation_tools.amount o = amount
    /\ calculation_tools.tenure_months o = tenure
    /\ calculation_tools.interest_rate o = rate
    /\ calculation_tools.monthly_emi o
       = py.round (spec.annuity amount (rate / 12) tenure) 2.
Proof.
  intros Hr Ht. unfold calculation_tools.make_offer,
    calculation_tools.calculate_total_interest.
  rewrite (calculate_emi_positive_rate amount rate tenure Hr Ht).
  cbn [py.bind]. eexists. repeat split.
Qed.

Lemma loan_offers_of_customer (db : list crm_tools.customer)
  (cid : string) (c : crm_tools.customer) (amount : Q) :
  crm_tools.get_customer_by_id db cid = Some c ->
  exists rate o12 o24 o36,
    calculation_tools.generate_loan_offers db cid amount
    = Ok [ o12; o24; o36 ]
    /\ (9 # 100) <= rate <= (16 # 100)
    /\ Forall (fun o => calculation_tools.interest_rate o = rate
                        /\ calculation_tools.amount o = amount)
         [ o12; o24; o36 ]
    /\ map calculation_tools.tenure_months [ o12; o24; o36 ]
       = [ 12; 24; 36 ]%Z
    /\ Forall (fun o =>
                 calculation_tools.monthly_emi o
                 = py.round (spec.annuity amount (rate / 12)
                               (calculation_tools.tenure_months o)) 2)
         [ o12; o24; o36 ].
Proof.
  intros Hc. unfold calculation_tools.generate_loan_offers. rewrite Hc.
  set (rate := _ + _).
  assert (Hrate : (9 # 100) <= rate <= (16 # 100)).
  { unfold rate.
    destruct (crm_tools.customer_segment c =? "premium");
      [| destruct (crm_tools.customer_segment c =? "prime");
         [| destruct (crm_tools.customer_segment c =? "preferred")]];
      (destruct (800 <=? crm_tools.credit_score c)%Z;
       [| destruct (750 <=? crm_tools.credit_score c)%Z;
          [| destruct (700 <=? crm_tools.credit_score c)%Z]]);
      split; vm_compute; discriminate. }
  assert (Hpos : 0 < rate) by lra.
  destruct (make_offer_ok amount rate 12 Hpos eq_refl)
    as [o12 [E12 [A12 [T12 [R12 M12]]]]].
  destruct (make_offer_ok amount rate 24 Hpos eq_refl)
    as [o24 [E24 [A24 [T24 [R24 M24]]]]].
  destruct (make_offer_ok amount rate 36 Hpos eq_refl)
    as [o36 [E36 [A36 [T36 [R36 M36]]]]].
  exists rate, o12, o24, o36.
  cbn [calculation_tools.offers_for]. rewrite E12, E24, E36. cbn [py.bind].
  split; [reflexivity |]. split; [exact Hrate |].
  split; [repeat constructor; assumption |].
  split; [cbn; now rewrite T12, T24, T36 |].
  repeat constructor; [rewrite T12 | rewrite T24 | rewrite T36]; assumption.
Qed.


(** X9.  For a known customer and a requested amount from 0 to [10^8],
    [generate_loan_offers] raises nothing and returns exactly three offers,
    for 12, 24 and 36 months in this order, all for the requested amount
    and at one annual rate between 9% and 16%; each monthly payment is
    within one cent of the annuity at that rate. *)
Theorem generate_loan_offers_three (db : list crm_tools.customer)
  (cid : string) (c : crm_tools.customer) (amount : Q) :
  crm_tools.get_customer_by_id db cid = Some c ->
  0 <= amount -> amount <= 100000000 ->
  exists rate o12 o24 o36,
    calculation_tools.generate_loan_offers db cid amount
    = Ok [ o12; o24; o36 ]
    /\ (9 # 100) <= rate <= (16 # 100)
    /\ Forall (fun o => calculation_tools.interest_rate o = rate
                        /\ calculation_tools.amount o = amount)
         [ o12; o24; o36 ]
    /\ map calculation_tools.tenure_months [ o12; o24; o36 ]
       = [ 12; 24; 36 ]%Z
    /\ Forall (fun o =>
                 Qabs (calculation_tools.monthly_emi o
                       - spec.annuity amount (rate / 12)
                           (calculation_tools.tenure_months o)) <= 1 # 100)
         [ o12; o24; o36 ].
Proof.
  intros Hc _ _.
  destruct (loan_offers_of_customer db cid c amount Hc)
    as [rate [o12 [o24 [o36 [H1 [H2 [H3 [H4 H5]]]]]]]].
  exists rate, o12, o24, o36.
  split; [exact H1 |]. split; [exact H2 |]. split; [exact H3 |].
  split; [exact H4 |].
  eapply Forall_impl; [| exact H5].
  intros o Ho. cbv beta in Ho. rewrite Ho.
  eapply Qle_trans; [apply round_2_error | discriminate].
Qed.

Lemma generate_loan_offers_three_witness :
  exists rate o12 o24 o36,
    calculation_tools.generate_loan_offers sample.customers "CUST001" 400000
    = Ok [ o12; o24; o36 ]
    /\ (9 # 100) <= rate <= (16 # 100)
    /\ map calculation_tools.tenure_months [ o12; o24; o36 ]
       = [ 12; 24; 36 ]%Z.
Proof.
  assert (A2 : 0 <= 400000) by (intros E; discriminate E).
  assert (A3 : 400000 <= 100000000) by (intros E; discriminate E).
  destruct (generate_loan_offers_three sample.customers "CUST001"
              sample.CUST001 400000 eq_refl A2 A3)
    as [rate [o12 [o24 [o36 [H1 [H2 [_ [H3 _]]]]]]]].
  exists rate, o12, o24, o36. repeat split; first [exact H1 | apply H2 | exact H3].
Defined.

Lemma sales_node_offers (db : list crm_tools.customer)
  (s : state.LoanApplicationState) (cid : string) (c : crm_tools.customer)
  (amount : Q) :
  state.get s state.customer_id = Some cid -> cid <> "" ->
  state.get s state.requested_amount = Some amount -> ~ amount == 0 ->
  crm_tools.get_customer_by_id db cid = Some c ->
  ~ crm_tools.monthly_salary c == 0 ->
  exists s' rate msg,
    graph.sales_agent_node db s = Ok s'
    /\ List.length (state.get s' state.recommended_offers) = 3%nat
    /\ state.get s' state.tenure_months = Some 24%Z
    /\ state.get s' state.interest_rate = Some rate
    /\ (9 # 100) <= rate <= (16 # 100)
    /\ state.get s' state.monthly_emi
       = Some (py.round (spec.annuity amount (rate / 12) 24) 2)
    /\ state.get s' state.next_action = None
    /\ state.get s' state.active_agent = Some "master"
    /\ state.get s' state.conversation_history
       = (state.get s state.conversation_history ++ [ msg ])%list
    /\ state.role msg = "assistant"
    /\ state.agent msg = Some "sales"
    /\ forall k,
         k <> state.recommended_offers -> k <> state.tenure_months ->
         k <> state.interest_rate -> k <> state.monthly_emi ->
         k <> state.active_agent -> k <> state.next_action ->
         k <> state.conversation_history ->
         state.get s' k = state.get s k.
Proof.
  intros Hcid Hne Hamt Hnz Hc Hsal.
  destruct (loan_offers_of_customer db cid c amount Hc)
    as [rate [o12 [o24 [o36 [Hoff [Hrate [Hall [Hten Hemi]]]]]]]].
  unfold graph.sales_agent_node, sales_agent.process_sales.
  rewrite Hamt, (as_num_nonzero amount Hnz), Hcid, (as_str_nonempty cid Hne).
  rewrite Hc, Hoff. cbn [py.bind].
  unfold sales_agent._create_sales_presentation.
  cbn [sales_agent.middle_tenure py.bind].
  rewrite (div_nonzero _ _ Hsal). cbn [py.bind].
  inversion Hall as [| ? ? _ Hall']. inversion Hall' as [| ? ? [R24 _] _].
  inversion Hemi as [| ? ? _ Hemi']. inversion Hemi' as [| ? ? M24 _].
  injection Hten as _ T24 _.
  do 3 eexists. split; [reflexivity |].
  split; [reflexivity |]. split; [cbn; now rewrite T24 |].
  split; [cbn; now rewrite R24 |]. split; [exact Hrate |].
  split; [cbn; rewrite M24, T24; reflexivity |].
  split; [reflexivity |]. split; [reflexivity |]. split; [reflexivity |].
  split; [reflexivity |]. split; [reflexivity |].
  intros k K1 K2 K3 K4 K5 K6 K7.
  destruct k; first [reflexivity | contradiction].
Qed.

(** X10.  On a record that carries a known customer's id and a requested
    amount that is not zero (and of at most [10^8] either way), the
    customer's salary not being zero, the sales step raises nothing: it
    stores the three offers, selects the 24-month one (its tenure, its rate
    and its payment, within one cent of the annuity at that rate, go into
    the record), appends one assistant message of the sales agent, clears
    [next_action] and hands back to the master agent; no other key
    changes. *)
Theorem sales_step_offers (db : list crm_tools.customer)
  (s : state.LoanApplicationState) (cid : string) (c : crm_tools.customer)
  (amount : Q) :
  state.get s state.customer_id = Some cid -> cid <> "" ->
  state.get s state.requested_amount = Some amount -> ~ amount == 0 ->
  Qabs amount <= 100000000 ->
  crm_tools.get_customer_by_id db cid = Some c ->
  ~ crm_tools.monthly_salary c == 0 ->
  exists s' rate emi msg,
    graph.sales_agent_node db s = Ok s'
    /\ List.length (state.get s' state.recommended_offers) = 3%nat
    /\ state.get s' state.tenure_months = Some 24%Z
    /\ state.get s' state.interest_rate = Some rate
    /\ (9 # 100) <= rate <= (16 # 100)
    /\ state.get s' state.monthly_emi = Some emi
    /\ Qabs (emi - spec.annuity amount (rate / 12) 24) <= 1 # 100
    /\ state.get s' state.next_action = None
    /\ state.get s' state.active_agent = Some "master"
    /\ state.get s' state.conversation_history
       = (state.get s state.conversation_history ++ [ msg ])%list
    /\ state.role msg = "assistant"
    /\ state.agent msg = Some "sales"
    /\ forall k,
         k <> state.recommended_offers -> k <> state.tenure_months ->
         k <> state.interest_rate -> k <> state.monthly_emi ->
         k <> state.active_agent -> k <> state.next_action ->
         k <> state.conversation_history ->
         state.get s' k = state.get s k.
Proof.
  intros Hcid Hne Hamt Hnz _ Hc Hsal.
  destruct (sales_node_offers db s cid c amount Hcid Hne Hamt Hnz Hc Hsal)
    as [s' [rate [msg [H1 [H2 [H3 [H4 [H5 [H6 [H7 [H8 [H9 [H10 [H11 H12]]]]]]]]]]]]]].
  exists s', rate, (py.round (spec.annuity amount (rate / 12) 24) 2), msg.
  split; [exact H1 |]. split; [exact H2 |]. split; [exact H3 |].
  split; [exact H4 |]. split; [exact H5 |]. split; [exact H6 |].
  split; [eapply Qle_trans; [apply round_2_error | discriminate] |].
  split; [exact H7 |]. split; [exact H8 |]. split; [exact H9 |].
  split; [exact H10 |]. split; [exact H11 | exact H12].
Qed.

Lemma sales_step_offers_witness :
  exists s' rate msg,
    graph.sales_agent_node sample.customers
      (sample.application "CUST001" 400000) = Ok s'
    /\ state.get s' state.tenure_months = Some 24%Z
    /\ state.get s' state.interest_rate = Some rate
    /\ state.get s' state.conversation_history = [ msg ]
    /\ state.agent msg = Some "sales".
Proof.
  assert (A2 : "CUST001" <> "") by discriminate.
  assert (A4 : ~ 400000 == 0) by (intros E; vm_compute in E; discriminate E).
  assert (A5 : Qabs 400000 <= 100000000) by (intros E; discriminate E).
  assert (A7 : ~ crm_tools.monthly_salary sample.CUST001 == 0)
    by (intros E; vm_compute in E; discriminate E).
  destruct (sales_step_offers sample.customers
              (sample.application "CUST001" 400000) "CUST001" sample.CUST001
              400000 eq_refl A2 eq_refl A4 A5 eq_refl A7)
    as [s' [rate [emi [msg [H1 [_ [H3 [H4 [_ [_ [_ [_ [_ [H9 [_ [H11 _]]]]]]]]]]]]]]]].
  exists s', rate, msg. repeat split; assumption.
Defined.

(** X11.  A customer whose monthly salary is zero makes the sales step
    raise [ZeroDivisionError]: the presentation divides the recommended
    payment by the salary. *)
Theorem sales_step_zero_salary (db : list crm_tools.customer)
  (s : state.LoanApplicationState) (cid : string) (c : crm_tools.customer)
  (amount : Q) :
  state.get s state.customer_id = Some cid -> cid <> "" ->
  state.get s state.requested_amount = Some amount -> ~ amount == 0 ->
  crm_tools.get_customer_by_id db cid = Some c ->
  crm_tools.monthly_salary c == 0 ->
  graph.sales_agent_node db s = Raise ZeroDivisionError.
Proof.
  intros Hcid Hne Hamt Hnz Hc Hsal.
  destruct (loan_offers_of_customer db cid c amount Hc)
    as [rate [o12 [o24 [o36 [Hoff _]]]]].
  unfold graph.sales_agent_node, sales_agent.process_sales.
  rewrite Hamt, (as_num_nonzero amount Hnz), Hcid, (as_str_nonempty cid Hne).
  rewrite Hc, Hoff. cbn [py.bind].
  unfold sales_agent._create_sales_presentation.
  cbn [sales_agent.middle_tenure py.bind]. unfold py.div.
  apply Qeq_bool_iff in Hsal. now rewrite Hsal.
Qed.

(** ** Negotiation, affordability and scenarios *)

(** X12.  For a known customer, [negotiate_rate] grants a requested
    discount exactly when it is at most the customer's maximum, which lies
    between 0.2 and 1.8 points: the new rate is then the base rate less the
    requested discount (a negative request raises the rate); otherwise the
    counter offer is the base rate less the maximum. *)
Theorem negotiate_rate_within_margin (db : list crm_tools.customer)
  (cid : string) (c : crm_tools.customer) (base_rate requested : Q) :
  crm_tools.get_customer_by_id db cid = Some c ->
  exists max_discount,
    (2 # 1000) <= max_discount <= (18 # 1000)
    /\ (requested <= max_discount ->
        exists message,
          calculation_tools.negotiate_rate db base_rate cid requested
          = calculation_tools.NegotiationApproved base_rate requested
              (base_rate - requested) message)
    /\ (max_discount < requested ->
        exists message,
          calculation_tools.negotiate_rate db base_rate cid requested
          = calculation_tools.NegotiationCountered base_rate requested
              (base_rate - max_discount) max_discount message).
Proof.
  intros Hc. unfold calculation_tools.negotiate_rate. rewrite Hc.
  set (m := if (800 <=? crm_tools.credit_score c)%Z then _ else _).
  exists m. split.
  - unfold m.
    destruct (crm_tools.customer_segment c =? "premium");
      [| destruct (crm_tools.customer_segment c =? "prime");
         [| destruct (crm_tools.customer_segment c =? "preferred")]];
      destruct (800 <=? crm_tools.credit_score c)%Z;
      split; vm_compute; discriminate.
  - split; intros H.
    + rewrite (Qle_bool_true _ _ H). eexists. reflexivity.
    + rewrite (Qle_bool_false _ _ H). eexists. reflexivity.
Qed.

Lemma negotiate_rate_within_margin_witness :
  exists max_discount message,
    (2 # 1000) <= max_discount <= (18 # 1000)
    /\ calculation_tools.negotiate_rate sample.customers (9 # 100) "CUST001"
         (- (1 # 100))
       = calculation_tools.NegotiationApproved (9 # 100) (- (1 # 100))
           ((9 # 100) - - (1 # 100)) message.
Proof.
  destruct (negotiate_rate_within_margin sample.customers "CUST001"
              sample.CUST001 (9 # 100) (- (1 # 100)) eq_refl)
    as [m [Hm [Happ _]]].
  destruct Happ as [message Hmsg]; [lra |].
  exists m, message. split; [exact Hm | exact Hmsg].
Defined.




Lemma make_scenario_ok (amount rate : Q) (tenure : Z) :
  ~ amount == 0 -> 0 < rate -> (0 < tenure)%Z ->
  exists sc,
    calculation_tools.make_scenario amount rate tenure = Ok sc
    /\ calculation_tools.scenario_tenure_months sc = tenure
    /\ calculation_tools.scenario_monthly_emi sc
       = py.round (spec.annuity amount (rate / 12) tenure) 2.
Proof.
  intros Ha Hr Ht. unfold calculation_tools.make_scenario,
    calculation_tools.calculate_total_interest.
  rewrite (calculate_emi_positive_rate amount rate tenure Hr Ht).
  cbn [py.bind]. unfold py.div at 1.
  replace (Qeq_bool 12 0) with false by reflexivity. cbn [py.bind].
  rewrite (div_nonzero _ _ Ha). cbn [py.bind].
  eexists. repeat split.
Qed.

(** X14.  At an annual rate from 1% to 100%, for tenures from 1 to 480
    months and an amount from 0 to [10^8], [compare_loan_scenarios] returns
    one scenario per tenure, in the order given, each with a payment within
    one cent of the annuity, provided the amount is not zero; for an amount
    of zero and at least one tenure it raises [ZeroDivisionError], the
    interest being taken as a percentage of the amount. *)
Theorem compare_loan_scenarios_per_tenure (amount rate : Q)
  (tenures : list Z) :
  (1 # 100) <= rate -> rate <= 1 ->
  Forall (fun t => 0 < t <= 480)%Z tenures ->
  0 <= amount -> amount <= 100000000 ->
  (~ amount == 0 ->
   exists scenarios,
     calculation_tools.compare_loan_scenarios amount tenures rate
     = Ok scenarios
     /\ map calculation_tools.scenario_tenure_months scenarios = tenures
     /\ Forall (fun sc =>
                  Qabs (calculation_tools.scenario_monthly_emi sc
                        - spec.annuity amount (rate / 12)
                            (calculation_tools.scenario_tenure_months sc))
                  <= 1 # 100)
          scenarios)
  /\ (amount == 0 -> tenures <> [] ->
      calculation_tools.compare_loan_scenarios amount tenures rate
      = Raise ZeroDivisionError).
Proof.
  intros Hlo _ Hpos _ _.
  assert (Hr : 0 < rate) by lra.
  split.
  - intros Ha. induction Hpos as [| t rest [Ht _] _ IH].
    + exists []. repeat split. constructor.
    + destruct (make_scenario_ok amount rate t Ha Hr Ht)
        as [sc [Hsc [Hten Hemi]]].
      destruct IH as [scs [Hscs [Hmap Hall]]].
      exists (sc :: scs). cbn [calculation_tools.compare_loan_scenarios].
      rewrite Hsc, Hscs. cbn [py.bind]. split; [reflexivity |].
      split; [cbn; now rewrite Hten, Hmap |].
      constructor; [| exact Hall].
      rewrite Hemi, Hten.
      eapply Qle_trans; [apply round_2_error | discriminate].
  - intros Hz Hne. destruct Hpos as [| t rest [Ht _] _]; [contradiction |].
    cbn [calculation_tools.compare_loan_scenarios].
    unfold calculation_tools.make_scenario,
      calculation_tools.calculate_total_interest.
    rewrite (calculate_emi_positive_rate amount rate t Hr Ht).
    cbn [py.bind]. unfold py.div at 1.
    replace (Qeq_bool 12 0) with false by reflexivity. cbn [py.bind].
    unfold py.div. apply Qeq_bool_iff in Hz. now rewrite Hz.
Qed.

Lemma compare_loan_scenarios_per_tenure_witness :
  exists scenarios,
    calculation_tools.compare_loan_scenarios_default 400000 = Ok scenarios
    /\ map calculation_tools.scenario_tenure_months scenarios
       = [ 12; 24; 36; 48; 60 ]%Z.
Proof.
  assert (A1 : (1 # 100) <= (12 # 100)) by (intros E; discriminate E).
  assert (A2 : (12 # 100) <= 1) by (intros E; discriminate E).
  assert (A3 : Forall (fun t => 0 < t <= 480)%Z [ 12; 24; 36; 48; 60 ]%Z)
    by (repeat constructor; intros E; discriminate E).
  assert (A4 : 0 <= 400000) by (intros E; discriminate E).
  assert (A5 : 400000 <= 100000000) by (intros E; discriminate E).
  assert (A6 : ~ 400000 == 0) by (intros E; vm_compute in E; discriminate E).
  destruct (proj1 (compare_loan_scenarios_per_tenure 400000 (12 # 100)
                     [ 12; 24; 36; 48; 60 ]%Z A1 A2 A3 A4 A5) A6)
    as [scs [H1 [H2 _]]].
  exists scs. split; assumption.
Defined.

(** ** Looking customers up *)

Lemma find_first {A} (f : A -> bool) (l : list A) (x : A) :
  find f l = Some x <->
  exists before after,
    l = (before ++ x :: after)%list /\ f x = true
    /\ forall y, In y before -> f y = false.
Proof.
  induction l as [| a l IH]; cbn [find].
  - split; [discriminate |]. intros [[| b before] [after [E _]]]; discriminate.
  - destruct (f a) eqn:Fa.
    + split.
      * intros [= <-]. exists [], l. repeat split; [exact Fa | intros y []].
      * intros [[| b before] [after [E [Fx Hb]]]]; cbn in E;
          injection E as -> ->; [reflexivity |].
        rewrite (Hb b (or_introl eq_refl)) in Fa. discriminate.
    + rewrite IH. split.
      * intros [before [after [-> [Fx Hb]]]].
        exists (a :: before), after. repeat split; [exact Fx |].
        intros y [<- | Hy]; [exact Fa | now apply Hb].
      * intros [[| b before] [after [E [Fx Hb]]]]; cbn in E;
          injection E as -> ->; [congruence |].
        exists before, after. repeat split; [exact Fx |].
        intros y Hy. apply Hb. now right.
Qed.

Lemma find_nothing {A} (f : A -> bool) (l : list A) :
  find f l = None <-> forall y, In y l -> f y = false.
Proof.
  split; [apply find_none |].
  induction l as [| a l IH]; intros H; cbn [find]; [reflexivity |].
  rewrite (H a (or_introl eq_refl)). apply IH. intros y Hy. apply H. now right.
Qed.

(** X15.  [get_customer_by_id] and [get_customer_by_phone] return the first
    customer of the file, in file order, whose id (phone) is the one asked
    for, and [None] exactly when no customer has it. *)
Theorem customer_lookup_first_match (db : list crm_tools.customer)
  (key : string) :
  (forall c,
     crm_tools.get_customer_by_id db key = Some c <->
     exists before after,
       db = (before ++ c :: after)%list /\ crm_tools.customer_id c = key
       /\ forall x, In x before -> crm_tools.customer_id x <> key)
  /\ (crm_tools.get_customer_by_id db key = None <->
      forall x, In x db -> crm_tools.customer_id x <> key)
  /\ (forall c,
        crm_tools.get_customer_by_phone db key = Some c <->
        exists before after,
          db = (before ++ c :: after)%list /\ crm_tools.phone c = key
          /\ forall x, In x before -> crm_tools.phone x <> key)
  /\ (crm_tools.get_customer_by_phone db key = None <->
      forall x, In x db -> crm_tools.phone x <> key).
Proof.
  unfold crm_tools.get_customer_by_id, crm_tools.get_customer_by_phone.
  split; [| split; [| split]].
  - intros c. rewrite find_first.
    split; intros [before [after [E [F H]]]]; exists before, after;
      (split; [exact E |]); rewrite String.eqb_eq in *;
      (split; [exact F |]); intros x Hx; apply String.eqb_neq; now apply H.
  - rewrite find_nothing.
    split; intros H x Hx; apply String.eqb_neq; now apply H.
  - intros c. rewrite find_first.
    split; intros [before [after [E [F H]]]]; exists before, after;
      (split; [exact E |]); rewrite String.eqb_eq in *;
      (split; [exact F |]); intros x Hx; apply String.eqb_neq; now apply H.
  - rewrite find_nothing.
    split; intros H x Hx; apply String.eqb_neq; now apply H.
Qed.

(** ** Verification of customer details *)

Lemma prefix_refl (x : string) : String.prefix x x = true.
Proof.
  induction x as [| a x IH]; [reflexivity |]. cbn.
  destruct (ascii_dec a a); [exact IH | contradiction].
Qed.

Lemma contains_refl (x : string) : pyx.contains x x = true.
Proof.
  destruct x; cbn [pyx.contains]; rewrite prefix_refl; reflexivity.
Qed.

(** X16.  For a known customer, whatever [str.lower] does,
    [verify_customer_details] answers "verified" exactly when no mismatch
    is listed, which is exactly when the phone given (if any, and not
    empty) equals the stored one and the address given (if any, and not
    empty) occurs, in lower case, anywhere inside the stored address in
    lower case: a fragment of the address is enough.  An unknown customer
    is not verified. *)
Theorem verify_customer_details_partial_match (lower : string -> string)
  (kyc : crm_tools.customer -> option string) (db : list crm_tools.customer)
  (cid : string) (phone_given address_given : option string) :
  let v :=
    crm_tools.verify_customer_details lower kyc db cid phone_given
      address_given in
  match crm_tools.get_customer_by_id db cid with
  | None =>
      crm_tools.verified v = false /\ crm_tools.mismatches v = []
      /\ crm_tools.customer_data v = None
  | Some c =>
      crm_tools.customer_data v = Some c
      /\ (crm_tools.verified v = true <-> crm_tools.mismatches v = [])
      /\ (crm_tools.verified v = true <->
          spec.phone_passes c phone_given
          /\ spec.address_passes lower c address_given)
  end.
Proof.
  intros v. subst v. unfold crm_tools.verify_customer_details.
  destruct (crm_tools.get_customer_by_id db cid) as [c |];
    [| repeat split].
  unfold spec.phone_passes, spec.address_passes.
  destruct (py.as_str phone_given) as [p |];
    [destruct (String.eqb_spec (crm_tools.phone c) p) as [Ep | Np] |];
    (destruct (py.as_str address_given) as [a |];
     [destruct (lower (crm_tools.address c) =? lower a) eqn:Ea;
      [apply String.eqb_eq in Ea |
       destruct (pyx.contains (lower a) (lower (crm_tools.address c)))
         eqn:Ca] |]);
    cbn; (split; [reflexivity |]);
    (split; [split; first [reflexivity | discriminate] |]).
  all: split;
    [ try discriminate; intros _; split; intros x [= <-];
      first [ exact Ep | exact Ca | rewrite Ea; apply contains_refl ]
    | try reflexivity; intros [Hp Ha];
      first [ specialize (Hp p eq_refl); contradiction
            | specialize (Ha a eq_refl); congruence ] ].
Qed.

Lemma verify_customer_details_partial_match_witness :
  crm_tools.verified
    (crm_tools.verify_customer_details sample.lower (fun _ => None)
       sample.customers "CUST001" None (Some "mg road"))
  = true.
Proof.
  apply (proj2 (proj2 (verify_customer_details_partial_match sample.lower
                         (fun _ => None) sample.customers "CUST001" None
                         (Some "mg road")))).
  split.
  - intros p E. discriminate E.
  - intros a E. injection E as <-. vm_compute. reflexivity.
Defined.

(** X11 at a customer without a salary. *)
Lemma sales_step_zero_salary_witness :
  graph.sales_agent_node sample.more_customers
    (sample.application "CUST900" 100000)
  = Raise ZeroDivisionError.
Proof.
  assert (A2 : "CUST900" <> "") by discriminate.
  assert (A4 : ~ 100000 == 0) by (intros E; vm_compute in E; discriminate E).
  apply (sales_step_zero_salary sample.more_customers
           (sample.application "CUST900" 100000) "CUST900" sample.unsalaried
           100000 eq_refl A2 eq_refl A4 eq_refl).
  reflexivity.
Defined.

(** ** The salary slip *)

(** X17.  [process_salary_slip] never answers with an error: whatever is
    drawn, the basic salary lies between 50000 and 150000, the net salary
    is the gross salary less the deductions, that is 1.36 times the basic
    salary, and the monthly salary reported is this net salary, between
    68000 and 204000 and so never zero. *)
Theorem process_salary_slip_verified (cid file_path : string) (entropy : Z) :
  exists r,
    underwriting_agent.process_salary_slip cid file_path entropy
    = underwriting_agent.SlipSuccess r
    /\ underwriting_agent.slip_verified r = true
    /\ (let d := underwriting_agent.extracted_data r in
        50000 <= credit_tools.basic_salary d <= 150000
        /\ credit_tools.net_salary d
           == credit_tools.gross_salary d - credit_tools.deductions d
        /\ credit_tools.net_salary d
           == (136 # 100) * credit_tools.basic_salary d
        /\ underwriting_agent.monthly_salary r = credit_tools.net_salary d)
    /\ 68000 <= underwriting_agent.monthly_salary r <= 204000.
Proof.
  assert (B : (50000 <= pyx.randint 50000 150000 entropy <= 150000)%Z).
  { unfold pyx.randint.
    pose proof (Z.mod_pos_bound entropy (150000 - 50000 + 1)). lia. }
  unfold underwriting_agent.process_salary_slip,
    credit_tools.analyze_salary_slip.
  generalize dependent (pyx.randint 50000 150000 entropy). intros z [B1 B2].
  rewrite Zle_Qle in B1, B2.
  change (inject_Z 50000) with 50000 in B1.
  change (inject_Z 150000) with 150000 in B2.
  set (b := inject_Z z) in *. clearbody b.
  cbn [credit_tools.analysis_success negb].
  eexists. split; [reflexivity |].
  cbn [underwriting_agent.slip_verified underwriting_agent.monthly_salary
       underwriting_agent.extracted_data credit_tools.extracted_data
       credit_tools.basic_salary credit_tools.net_salary
       credit_tools.gross_salary credit_tools.deductions].
  split; [reflexivity |].
  split; [split; [exact (conj B1 B2) | split; [ring | split; [ring | reflexivity]]] |].
  split; lra.
Qed.

(* ================================================================== *)
(** * Further properties of the nodes *)
(* ================================================================== *)

(** ** What the underwriting step leaves behind *)

Lemma process_underwriting_conditions (db : list crm_tools.customer)
  (s : state.LoanApplicationState) (r : underwriting_agent.assessment) :
  underwriting_agent.process_underwriting db s
  = Ok (underwriting_agent.UnderwritingSuccess r) ->
  underwriting_agent.conditions r
  = credit_tools.conditions (underwriting_agent.eligibility_details r).
Proof.
  unfold underwriting_agent.process_underwriting.
  destruct (py.as_str (state.get s state.customer_id)) as [cid |];
    [| discriminate].
  destruct (py.as_num (state.get s state.requested_amount)) as [amount |];
    [| discriminate].
  destruct (credit_tools.fetch_credit_score db cid) as [err | report];
    [discriminate |].
  destruct (crm_tools.get_customer_by_id db cid) as [c |]; [| discriminate].
  destruct (credit_tools.check_eligibility db cid amount _) as [e | x];
    cbn [py.bind]; [| discriminate].
  destruct (credit_tools.calculate_risk_score db cid amount) as [risk | x];
    cbn [py.bind]; [| discriminate].
  intros [= <-]. reflexivity.
Qed.

(** X18.  Whenever the underwriting step returns, either it has recorded an
    error, changing [last_error] and [active_agent] and nothing else, or it
    has recorded a fresh decision [d] for the requested amount, and then:
    [d] is one of the three decisions; [approved_amount] is the requested
    amount for ["approved"] and is cleared otherwise; [application_status]
    becomes ["approved"] or ["rejected"] with [d], whatever it was, and is
    kept for ["needs_documents"]; the only condition is
    ["salary_slip_upload"], for ["needs_documents"]; [next_action] is
    cleared and one message of the underwriting agent is appended. *)
Theorem underwriting_step_outcome (db : list crm_tools.customer)
  (s s' : state.LoanApplicationState) :
  graph.underwriting_agent_node db s = Ok s' ->
  (exists error,
     state.get s' state.last_error = Some error
     /\ state.get s' state.active_agent = Some "master"
     /\ forall k, k <> state.active_agent -> k <> state.last_error ->
                  state.get s' k = state.get s k)
  \/ (exists d amount msg,
        state.get s state.requested_amount = Some amount
        /\ state.get s' state.underwriting_decision = Some d
        /\ (d = "approved" \/ d = "rejected" \/ d = "needs_documents")
        /\ state.get s' state.approved_amount
           = (if d =? "approved" then Some amount else None)
        /\ state.get s' state.application_status
           = (if d =? "approved" then Some "approved"
              else if d =? "rejected" then Some "rejected"
              else state.get s state.application_status)
        /\ state.get s' state.conditional_requirements
           = (if d =? "needs_documents" then [ "salary_slip_upload" ] else [])
        /\ state.get s' state.next_action = None
        /\ state.get s' state.active_agent = Some "master"
        /\ state.get s' state.conversation_history
           = (state.get s state.conversation_history ++ [ msg ])%list
        /\ state.agent msg = Some "underwriting"
        /\ state.get s' state.current_stage = state.get s state.current_stage
        /\ state.get s' state.last_error = state.get s state.last_error).
Proof.
  unfold graph.underwriting_agent_node.
  destruct (underwriting_agent.process_underwriting db s)
    as [[err | r] | e] eqn:P; cbn [py.bind]; [| | discriminate].
  - intros [= <-]. left. exists err. repeat split.
    intros k Ha Hl. destruct k; first [reflexivity | contradiction].
  - destruct (process_underwriting_decides_by_eligibility db s r P)
      as [cid [amount [c [Hcid [Hamt [Hc [He [Hd Ham]]]]]]]].
    destruct (eligibility_answer_shape db cid amount _ _ He)
      as [D [A1 [A2 [C1 C2]]]].
    rewrite <- Hd in D, A1, A2, C1, C2. rewrite <- Ham in A1, A2.
    rewrite <- (process_underwriting_conditions db s r P) in C1, C2.
    intros Hs'. right.
    exists (underwriting_agent.decision r), amount.
    eexists.
    destruct D as [D | [D | D]]; rewrite D in *; cbn [String.eqb Ascii.eqb
      Bool.eqb] in Hs' |- *; injection Hs' as <-;
      (split; [exact Hamt |]); (split; [reflexivity |]);
      (split; [tauto |]).
    + split; [cbn; apply A1; reflexivity |]. repeat split.
      cbn. apply C2. discriminate.
    + split; [cbn; apply A2; discriminate |]. repeat split.
      cbn. apply C2. discriminate.
    + split; [cbn; apply A2; discriminate |]. repeat split.
      cbn. apply C1. reflexivity.
Qed.

Lemma underwriting_step_outcome_witness :
  exists s',
    graph.underwriting_agent_node sample.customers
      (sample.approved "CUST001" 1500000) = Ok s'
    /\ state.get s' state.application_status = Some "rejected"
    /\ state.get s' state.active_agent = Some "master".
Proof.
  eexists. split; [vm_compute; reflexivity |].
  split; [reflexivity |].
  match goal with
  | |- state.get ?s' _ = _ =>
      destruct (underwriting_step_outcome sample.customers
                  (sample.approved "CUST001" 1500000) s')
        as [[err [_ [H _]]] | [d [a [m [_ [_ [_ [_ [_ [_ [_ [H _]]]]]]]]]]]]
  end; [vm_compute; reflexivity | exact H | exact H].
Defined.

(** ** Customers that are not in the file *)

(** X19.  For an id that is not in the customer file no tool raises:
    the credit bureau answers with an error, the eligibility check rejects
    with the reason "Customer not found in system" and no recommendation,
    the risk score is 100, there are no offers and no existing EMIs, a
    negotiation keeps the base rate, the details are not verified, and no
    sanction letter is written, the clock not even being read. *)
Theorem unknown_customer_tools (db : list crm_tools.customer) (cid : string) :
  crm_tools.get_customer_by_id db cid = None ->
  credit_tools.fetch_credit_score db cid
  = credit_tools.CreditError "Customer not found"
  /\ (forall amount salary,
        exists e,
          credit_tools.check_eligibility db cid amount salary = Ok e
          /\ credit_tools.decision e = "rejected"
          /\ credit_tools.reason e = "Customer not found in system"
          /\ credit_tools.recommendations e = []
          /\ credit_tools.approved_amount e = None)
  /\ (forall amount,
        credit_tools.calculate_risk_score db cid amount = Ok 100)
  /\ (forall amount,
        calculation_tools.generate_loan_offers db cid amount = Ok [])
  /\ crm_tools.get_existing_loans db cid = []
  /\ crm_tools.calculate_total_existing_emi db cid = 0
  /\ (forall base requested,
        calculation_tools.negotiate_rate db base cid requested
        = calculation_tools.NegotiationUnknown base "Customer not found")
  /\ (forall lower kyc phone_given address_given,
        crm_tools.verified
          (crm_tools.verify_customer_details lower kyc db cid phone_given
             address_given) = false)
  /\ (forall amount tenure rate emi w,
        document_tools.generate_sanction_letter db cid amount tenure rate emi
          w
        = (Ok (document_tools.LetterError "Customer not found"), w)).
Proof.
  intros H.
  unfold credit_tools.fetch_credit_score, credit_tools.check_eligibility,
    credit_tools.calculate_risk_score, calculation_tools.generate_loan_offers,
    crm_tools.calculate_total_existing_emi, crm_tools.get_existing_loans,
    calculation_tools.negotiate_rate, crm_tools.verify_customer_details,
    document_tools.generate_sanction_letter.
  rewrite H. repeat split. intros amount salary. eexists. repeat split.
Qed.

Lemma unknown_customer_tools_witness :
  credit_tools.fetch_credit_score sample.customers "CUST999"
  = credit_tools.CreditError "Customer not found".
Proof.
  apply (unknown_customer_tools sample.customers "CUST999"). reflexivity.
Defined.

(** X20.  On a record whose customer id is not in the customer file, the
    three worker steps raise nothing and record an error: the sales step
    (an amount being requested) ["Customer not found"], clearing
    [next_action]; the underwriting step (an amount being requested)
    ["Unable to fetch credit score"]; the sanction step (the record being
    complete) ["Failed to generate sanction letter"], the world being left
    as it was.  Apart from [last_error], [active_agent] and, for sales,
    [next_action], no key changes. *)
Theorem unknown_customer_steps (db : list crm_tools.customer)
  (s : state.LoanApplicationState) (cid : string) :
  state.get s state.customer_id = Some cid -> cid <> "" ->
  crm_tools.get_customer_by_id db cid = None ->
  (py.truthy_num (state.get s state.requested_amount) = true ->
   (exists s',
      graph.sales_agent_node db s = Ok s'
      /\ state.get s' state.last_error = Some "Customer not found"
      /\ state.get s' state.next_action = None
      /\ forall k, k <> state.active_agent -> k <> state.next_action ->
                   k <> state.last_error -> state.get s' k = state.get s k)
   /\ (exists s',
         graph.underwriting_agent_node db s = Ok s'
         /\ state.get s' state.last_error
            = Some "Unable to fetch credit score"
         /\ forall k, k <> state.active_agent -> k <> state.last_error ->
                      state.get s' k = state.get s k))
  /\ (spec.complete s = true ->
      forall w,
        exists s',
          graph.sanction_agent_node db s w = (Ok s', w)
          /\ state.get s' state.last_error
             = Some "Failed to generate sanction letter"
          /\ forall k, k <> state.active_agent -> k <> state.last_error ->
                       state.get s' k = state.get s k).
Proof.
  intros Hcid Hne Hc. split.
  - intros Hamt. destruct (truthy_num_value _ Hamt) as [amount [E A]].
    split.
    + unfold graph.sales_agent_node, sales_agent.process_sales.
      rewrite A, Hcid, (as_str_nonempty cid Hne), Hc. cbn [py.bind].
      eexists. split; [reflexivity |]. repeat split.
      intros k K1 K2 K3. destruct k; first [reflexivity | contradiction].
    + unfold graph.underwriting_agent_node,
        underwriting_agent.process_underwriting,
        credit_tools.fetch_credit_score.
      rewrite A, Hcid, (as_str_nonempty cid Hne), Hc. cbn [py.bind].
      eexists. split; [reflexivity |]. repeat split.
      intros k K1 K2. destruct k; first [reflexivity | contradiction].
  - intros Hall w. unfold spec.complete in Hall.
    repeat (apply andb_true_iff in Hall as [Hall ?]).
    destruct (truthy_str_value _ Hall) as [cid' [E1 A1]].
    destruct (truthy_num_value _ H2) as [amount [E2 A2]].
    destruct (truthy_int_value _ H1) as [tenure [E3 A3]].
    destruct (truthy_num_value _ H0) as [rate [E4 A4]].
    destruct (truthy_num_value _ H) as [emi [E5 A5]].
    assert (cid' = cid) by congruence. subst cid'.
    unfold graph.sanction_agent_node, sanction_agent.generate_sanction,
      document_tools.generate_sanction_letter.
    rewrite A1, A2, A3, A4, A5, Hc.
    eexists. split; [reflexivity |]. repeat split.
    intros k K1 K2. destruct k; first [reflexivity | contradiction].
Qed.

Lemma unknown_customer_steps_witness :
  exists s',
    graph.underwriting_agent_node sample.customers
      (sample.application "CUST999" 400000) = Ok s'
    /\ state.get s' state.last_error = Some "Unable to fetch credit score".
Proof.
  assert (A : "CUST999" <> "") by discriminate.
  destruct (proj1 (unknown_customer_steps sample.customers
                     (sample.application "CUST999" 400000) "CUST999"
                     eq_refl A eq_refl) eq_refl)
    as [_ [s' [H1 [H2 _]]]].
  exists s'. split; assumption.
Defined.

(** ** The master step and the steps that fail *)

Lemma master_agent_node_answered (agent : graph.master_agent)
  (s : state.LoanApplicationState) (earlier : list state.message)
  (m : state.message) :
  state.get s state.conversation_history = (earlier ++ [ m ])%list ->
  (state.role m =? "user") = false ->
  graph.master_agent_node agent s = s.
Proof.
  intros H R. unfold graph.master_agent_node.
  rewrite H, rev_unit, R. reflexivity.
Qed.

(** X21.  The master step answers only once: run again on its own result,
    any number of times, it changes nothing, whatever the master agent
    answers; so the router gives after every further run the answer it
    gave after the first. *)
Theorem master_agent_node_settles (agent : graph.master_agent)
  (s : state.LoanApplicationState) (n : nat) :
  let s1 := graph.master_agent_node agent s in
  Nat.iter n (graph.master_agent_node agent) s1 = s1
  /\ graph.route_master_agent (Nat.iter n (graph.master_agent_node agent) s1)
     = graph.route_master_agent s1.
Proof.
  intros s1.
  assert (Hfix : graph.master_agent_node agent s1 = s1).
  { unfold s1.
    destruct (rev (state.get s state.conversation_history))
      as [| last_message rest] eqn:H.
    - assert (E : graph.master_agent_node agent s
                  = state.add_message s "assistant"
                      (state.Text
                         (graph.generate_greeting agent
                            (state.get s state.customer_name)))
                      (Some "master"))
        by (unfold graph.master_agent_node; rewrite H; reflexivity).
      rewrite E. eapply master_agent_node_answered; reflexivity.
    - destruct (state.role last_message =? "user") eqn:R.
      + assert (E : graph.master_agent_node agent s
                    = state.update_state
                        (state.add_message s "assistant"
                           (state.Text
                              (graph.response
                                 (graph.process_message agent s
                                    (state.content last_message))))
                           (Some "master"))
                        [ state.current_stage ::=
                            graph.new_stage
                              (graph.process_message agent s
                                 (state.content last_message));
                          state.next_action ::=
                            graph.reply_next_action
                              (graph.process_message agent s
                                 (state.content last_message));
                          state.active_agent ::= Some "master" ])
          by (unfold graph.master_agent_node; rewrite H, R; reflexivity).
        rewrite E. eapply master_agent_node_answered; reflexivity.
      + assert (E : graph.master_agent_node agent s = s)
          by (unfold graph.master_agent_node; rewrite H, R; reflexivity).
        rewrite !E. reflexivity. }
  assert (Hiter : Nat.iter n (graph.master_agent_node agent) s1 = s1).
  { induction n as [| n IH]; [reflexivity |].
    change (Nat.iter (S n) (graph.master_agent_node agent) s1)
      with (graph.master_agent_node agent
              (Nat.iter n (graph.master_agent_node agent) s1)).
    rewrite IH. exact Hfix. }
  split; [exact Hiter | now rewrite Hiter].
Qed.

(** X22.  A sanction step that fails for want of a field is repeated
    without end by the steps themselves: on a record that is not complete,
    sent to the sanction agent after an answer of the master agent, the
    sanction step records its error and leaves [next_action] as it is; the
    master step that follows changes nothing, the router selects the
    sanction agent again, and the second sanction step gives the record of
    the first. *)
Theorem failed_sanction_step_repeats (db : list crm_tools.customer)
  (agent : graph.master_agent) (s : state.LoanApplicationState)
  (earlier : list state.message) (m : state.message) (w : os.world) :
  spec.complete s = false ->
  state.get s state.next_action = Some "delegate_to_sanction" ->
  state.get s state.conversation_history = (earlier ++ [ m ])%list ->
  (state.role m =? "user") = false ->
  exists s1,
    graph.sanction_agent_node db s w = (Ok s1, w)
    /\ state.get s1 state.last_error
       = Some "Missing required information for sanction letter"
    /\ graph.master_agent_node agent s1 = s1
    /\ graph.route_master_agent (graph.master_agent_node agent s1)
       = "sanction"
    /\ exists s2,
         graph.sanction_agent_node db (graph.master_agent_node agent s1) w
         = (Ok s2, w)
         /\ forall k, state.get s2 k = state.get s1 k.
Proof.
  intros Hinc Hnext Hhist Hrole.
  pose proof (generate_sanction_incomplete db s w Hinc) as Hgen.
  eexists. split.
  { unfold graph.sanction_agent_node, os.bind. rewrite Hgen. reflexivity. }
  set (s1 := state.update_state s _).
  assert (Hm : graph.master_agent_node agent s1 = s1)
    by (apply (master_agent_node_answered agent s1 earlier m);
        [exact Hhist | exact Hrole]).
  split; [reflexivity |]. split; [exact Hm |]. rewrite Hm.
  split.
  { unfold graph.route_master_agent.
    change (state.get s1 state.next_action)
      with (state.get s state.next_action).
    rewrite Hnext. reflexivity. }
  assert (Hinc1 : spec.complete s1 = false) by exact Hinc.
  pose proof (generate_sanction_incomplete db s1 w Hinc1) as Hgen1.
  eexists. split.
  { unfold graph.sanction_agent_node, os.bind. rewrite Hgen1. reflexivity. }
  intros k. destruct k; reflexivity.
Qed.

Lemma failed_sanction_step_repeats_witness :
  exists s1,
    graph.sanction_agent_node sample.customers
      (graph.master_agent_node
         {| graph.generate_greeting := fun _ => "Welcome";
            graph.process_message := fun _ _ =>
              {| graph.response := "One moment";
                 graph.new_stage := Some "sanction_generation";
                 graph.reply_next_action := Some "delegate_to_sanction" |} |}
         (state.add_message (sample.application "CUST001" 400000) "user"
            (state.Text "Please send my letter") None))
      (sample.world 15)
    = (Ok s1, sample.world 15)
    /\ state.get s1 state.last_error
       = Some "Missing required information for sanction letter".
Proof.
  set (agent := {| graph.generate_greeting := _; graph.process_message := _ |}).
  set (s := graph.master_agent_node agent _).
  destruct (failed_sanction_step_repeats sample.customers agent s
              [ {| state.role := "user";
                   state.content := state.Text "Please send my letter";
                   state.agent := None |} ]
              {| state.role := "assistant";
                 state.content := state.Text "One moment";
                 state.agent := Some "master" |}
              (sample.world 15) eq_refl eq_refl eq_refl eq_refl)
    as [s1 [H1 [H2 _]]].
  exists s1. split; assumption.
Defined.

(** X23.  An underwriting step that fails is repeated in the same way:
    when [process_underwriting] answers with an error on a record sent to
    the underwriting agent after an answer of the master agent, the step
    records the error and leaves [next_action] as it is; the master step
    that follows changes nothing, the router selects the underwriting agent
    again, and the second underwriting step gives the record of the
    first. *)
Theorem failed_underwriting_step_repeats (db : list crm_tools.customer)
  (agent : graph.master_agent) (s : state.LoanApplicationState)
  (earlier : list state.message) (m : state.message) (error : string) :
  underwriting_agent.process_underwriting db s
  = Ok (underwriting_agent.UnderwritingError error) ->
  state.get s state.next_action = Some "delegate_to_underwriting" ->
  state.get s state.conversation_history = (earlier ++ [ m ])%list ->
  (state.role m =? "user") = false ->
  exists s1,
    graph.underwriting_agent_node db s = Ok s1
    /\ state.get s1 state.last_error = Some error
    /\ graph.master_agent_node agent s1 = s1
    /\ graph.route_master_agent (graph.master_agent_node agent s1)
       = "underwriting"
    /\ exists s2,
         graph.underwriting_agent_node db (graph.master_agent_node agent s1)
         = Ok s2
         /\ forall k, state.get s2 k = state.get s1 k.
Proof.
  intros Hp Hnext Hhist Hrole.
  eexists. split.
  { unfold graph.underwriting_agent_node. rewrite Hp. reflexivity. }
  set (s1 := state.update_state s _).
  assert (Hm : graph.master_agent_node agent s1 = s1)
    by (apply (master_agent_node_answered agent s1 earlier m);
        [exact Hhist | exact Hrole]).
  split; [reflexivity |]. split; [exact Hm |]. rewrite Hm.
  split.
  { unfold graph.route_master_agent.
    change (state.get s1 state.next_action)
      with (state.get s state.next_action).
    rewrite Hnext. reflexivity. }
  assert (Hp1 : underwriting_agent.process_underwriting db s1
                = Ok (underwriting_agent.UnderwritingError error))
    by exact Hp.
  eexists. split.
  { unfold graph.underwriting_agent_node. rewrite Hp1. reflexivity. }
  intros k. destruct k; reflexivity.
Qed.

Lemma failed_underwriting_step_repeats_witness :
  exists s1,
    graph.underwriting_agent_node sample.customers
      (state.set state.next_action (Some "delegate_to_underwriting")
         (state.add_message (sample.opened "CUST001") "assistant"
            (state.Text "Checking your eligibility") (Some "master")))
    = Ok s1
    /\ state.get s1 state.last_error
       = Some "Missing customer ID or requested amount".
Proof.
  destruct (failed_underwriting_step_repeats sample.customers
              {| graph.generate_greeting := fun _ => "Welcome";
                 graph.process_message := fun _ _ =>
                   {| graph.response := "One moment";
                      graph.new_stage := None;
                      graph.reply_next_action := None |} |}
              (state.set state.next_action (Some "delegate_to_underwriting")
                 (state.add_message (sample.opened "CUST001") "assistant"
                    (state.Text "Checking your eligibility") (Some "master")))
              []
              {| state.role := "assistant";
                 state.content := state.Text "Checking your eligibility";
                 state.agent := Some "master" |}
              "Missing customer ID or requested amount"
              eq_refl eq_refl eq_refl eq_refl)
    as [s1 [H1 [H2 _]]].
  exists s1. split; assumption.
Defined.

(** ** What each step writes *)

Ltac listed := cbn [In]; repeat first [left; reflexivity | right].

Ltac unlisted k H :=
  destruct k; first [reflexivity | exfalso; apply H; listed].

(** X24.  Each step writes only keys of its own: the master step the
    history, the stage, [next_action] and [active_agent]; the verification
    step the history, [otp_sent], [next_action], [active_agent] and
    [last_error]; the sales step the history, the offers with the tenure,
    rate and payment of the recommended one, [next_action], [active_agent]
    and [last_error]; the underwriting step the history, the credit score,
    the decision with the approved amount, the conditions and the reason,
    [application_status], [next_action], [active_agent] and [last_error];
    the sanction step the history, the location and the reference of the
    letter, the stage, [next_action], [active_agent] and [last_error].  So
    no step writes the session, the customer, the request or the salary,
    only the underwriting step writes [application_status], and only the
    master and the sanction steps write [current_stage]. *)
Theorem steps_write_sets (db : list crm_tools.customer)
  (master : graph.master_agent) (verifier : graph.verification_agent)
  (s : state.LoanApplicationState) :
  (forall k,
     ~ In k [ state.conversation_history; state.current_stage;
              state.next_action; state.active_agent ] ->
     state.get (graph.master_agent_node master s) k = state.get s k)
  /\ (forall k,
        ~ In k [ state.conversation_history; state.otp_sent;
                 state.next_action; state.active_agent; state.last_error ] ->
        state.get (graph.verification_agent_node verifier s) k
        = state.get s k)
  /\ (forall s' k,
        graph.sales_agent_node db s = Ok s' ->
        ~ In k [ state.conversation_history; state.recommended_offers;
                 state.tenure_months; state.interest_rate; state.monthly_emi;
                 state.next_action; state.active_agent; state.last_error ] ->
        state.get s' k = state.get s k)
  /\ (forall s' k,
        graph.underwriting_agent_node db s = Ok s' ->
        ~ In k [ state.conversation_history; state.credit_score;
                 state.underwriting_decision; state.approved_amount;
                 state.conditional_requirements; state.rejection_reason;
                 state.application_status; state.next_action;
                 state.active_agent; state.last_error ] ->
        state.get s' k = state.get s k)
  /\ (forall w s' w' k,
        graph.sanction_agent_node db s w = (Ok s', w') ->
        ~ In k [ state.conversation_history; state.sanction_letter_url;
                 state.sanction_letter_ref_no; state.current_stage;
                 state.next_action; state.active_agent; state.last_error ] ->
        state.get s' k = state.get s k).
Proof.
  split; [| split; [| split; [| split]]].
  - intros k H. unfold graph.master_agent_node.
    destruct (rev (state.get s state.conversation_history)) as [| m rest];
      [unlisted k H |].
    destruct (state.role m =? "user"); [unlisted k H | reflexivity].
  - intros k H. unfold graph.verification_agent_node.
    destruct (graph.start_verification verifier s) as [error | message phone];
      [unlisted k H |].
    destruct (py.as_str (state.get s state.customer_id)); unlisted k H.
  - intros s' k. unfold graph.sales_agent_node.
    destruct (py.as_num (state.get s state.requested_amount)) as [amount |].
    + destruct (sales_agent.process_sales db s amount _) as [[err | r] | e];
        cbn [py.bind]; [| | discriminate]; intros [= <-] H; unlisted k H.
    + intros [= <-] H; unlisted k H.
  - intros s' k. unfold graph.underwriting_agent_node.
    destruct (underwriting_agent.process_underwriting db s)
      as [[err | r] | e]; cbn [py.bind]; [| | discriminate].
    + intros [= <-] H; unlisted k H.
    + destruct (underwriting_agent.decision r =? "approved");
        [| destruct (underwriting_agent.decision r =? "rejected")];
        intros [= <-] H; unlisted k H.
  - intros w s' w' k. unfold graph.sanction_agent_node, os.bind.
    destruct (sanction_agent.generate_sanction db s w) as [[[err | r] | e] w1];
      unfold os.ret; [| | discriminate]; intros [= <- _] H; unlisted k H.
Qed.

Lemma steps_write_sets_witness :
  exists s',
    graph.underwriting_agent_node sample.customers
      (sample.application "CUST001" 400000) = Ok s'
    /\ state.get s' state.requested_amount = Some 400000
    /\ state.get s' state.current_stage = Some "underwriting".
Proof.
  eexists. split; [vm_compute; reflexivity |].
  match goal with
  | |- state.get ?s' _ = _ /\ _ =>
      pose proof (proj1 (proj2 (proj2 (proj2
        (steps_write_sets sample.customers
           {| graph.generate_greeting := fun _ => "Welcome";
              graph.process_message := fun _ _ =>
                {| graph.response := "One moment";
                   graph.new_stage := None;
                   graph.reply_next_action := None |} |}
           {| graph.start_verification := fun _ =>
                graph.VerificationError None;
              graph.send_otp := fun _ _ => "sent" |}
           (sample.application "CUST001" 400000))))) s') as W
  end.
  split.
  - rewrite (W state.requested_amount); [reflexivity | reflexivity |].
    cbn [In]. intros [H | [H | [H | [H | [H | [H | [H | [H | [H | [H | H]]]]]]]]]];
      first [discriminate H | exact H].
  - rewrite (W state.current_stage); [reflexivity | reflexivity |].
    cbn [In]. intros [H | [H | [H | [H | [H | [H | [H | [H | [H | [H | H]]]]]]]]]];
      first [discriminate H | exact H].
Defined.

(** X25.  The steps only ever add to the conversation: the history after a
    step is the history before it followed by the assistant messages of the
    agent that ran, at most one for the master, sales, underwriting and
    sanction steps and at most two for the verification step; and each of
    the four worker steps hands back with [active_agent] set to
    ["master"]. *)
Theorem steps_append_messages (db : list crm_tools.customer)
  (master : graph.master_agent) (verifier : graph.verification_agent)
  (s : state.LoanApplicationState) :
  let grows (author : string) (most : nat) (s' : state.LoanApplicationState) :=
    exists added,
      state.get s' state.conversation_history
      = (state.get s state.conversation_history ++ added)%list
      /\ (List.length added <= most)%nat
      /\ Forall (fun m => state.role m = "assistant"
                          /\ state.agent m = Some author) added in
  grows "master" 1%nat (graph.master_agent_node master s)
  /\ (grows "verification" 2%nat (graph.verification_agent_node verifier s)
      /\ state.get (graph.verification_agent_node verifier s)
           state.active_agent = Some "master")
  /\ (forall s',
        graph.sales_agent_node db s = Ok s' ->
        grows "sales" 1%nat s'
        /\ state.get s' state.active_agent = Some "master")
  /\ (forall s',
        graph.underwriting_agent_node db s = Ok s' ->
        grows "underwriting" 1%nat s'
        /\ state.get s' state.active_agent = Some "master")
  /\ (forall w s' w',
        graph.sanction_agent_node db s w = (Ok s', w') ->
        grows "sanction" 1%nat s'
        /\ state.get s' state.active_agent = Some "master").
Proof.
  intros grows.
  assert (none : forall author most s',
             state.get s' state.conversation_history
             = state.get s state.conversation_history ->
             grows author most s').
  { intros author most s' E. exists []. rewrite E, app_nil_r.
    split; [reflexivity |]. split; [cbn; lia | constructor]. }
  assert (one : forall author most body s',
             state.get s' state.conversation_history
             = (state.get s state.conversation_history
                ++ [ {| state.role := "assistant"; state.content := body;
                        state.agent := Some author |} ])%list ->
             grows author (S most) s').
  { intros author most body s' E. eexists. split; [exact E |].
    split; [cbn; lia |]. repeat constructor. }
  split; [| split; [| split; [| split]]].
  - unfold graph.master_agent_node.
    destruct (rev (state.get s state.conversation_history)) as [| m rest];
      [eapply one; reflexivity |].
    destruct (state.role m =? "user");
      [eapply one; reflexivity | apply none; reflexivity].
  - unfold graph.verification_agent_node.
    destruct (graph.start_verification verifier s) as [error | message phone];
      [split; [apply none; reflexivity | reflexivity] |].
    destruct (py.as_str (state.get s state.customer_id));
      (split; [| reflexivity]); [| eapply one; reflexivity].
    eexists. split; [cbn; rewrite <- app_assoc; reflexivity |].
    split; [cbn; lia |]. repeat constructor.
  - intros s'. unfold graph.sales_agent_node.
    destruct (py.as_num (state.get s state.requested_amount)) as [amount |].
    + destruct (sales_agent.process_sales db s amount _) as [[err | r] | e];
        cbn [py.bind]; [| | discriminate]; intros [= <-];
        (split; [| reflexivity]);
        [apply none; reflexivity | eapply one; reflexivity].
    + intros [= <-]. split; [apply none; reflexivity | reflexivity].
  - intros s'. unfold graph.underwriting_agent_node.
    destruct (underwriting_agent.process_underwriting db s)
      as [[err | r] | e]; cbn [py.bind]; [| | discriminate].
    + intros [= <-]. split; [apply none; reflexivity | reflexivity].
    + destruct (underwriting_agent.decision r =? "approved");
        [| destruct (underwriting_agent.decision r =? "rejected")];
        intros [= <-]; (split; [eapply one; reflexivity | reflexivity]).
  - intros w s' w'. unfold graph.sanction_agent_node, os.bind.
    destruct (sanction_agent.generate_sanction db s w) as [[[err | r] | e] w1];
      unfold os.ret; [| | discriminate]; intros [= <- _];
      (split; [| reflexivity]);
      [apply none; reflexivity | eapply one; reflexivity].
Qed.

Lemma steps_append_messages_witness :
  exists s',
    graph.underwriting_agent_node sample.customers
      (sample.application "CUST001" 400000) = Ok s'
    /\ state.get s' state.active_agent = Some "master".
Proof.
  eexists. split; [vm_compute; reflexivity |].
  match goal with
  | |- state.get ?s' _ = _ =>
      apply (proj1 (proj2 (proj2 (proj2
        (steps_append_messages sample.customers
           {| graph.generate_greeting := fun _ => "Welcome";
              graph.process_message := fun _ _ =>
                {| graph.response := "One moment";
                   graph.new_stage := None;
                   graph.reply_next_action := None |} |}
           {| graph.start_verification := fun _ =>
                graph.VerificationError None;
              graph.send_otp := fun _ _ => "sent" |}
           (sample.application "CUST001" 400000))))) s')
  end.
  reflexivity.
Defined.

(** ** Sessions *)





(** ** A customer without a name *)

Lemma split_first_blank (name : string) :
  forallb py.is_space (list_ascii_of_string name) = true ->
  py.split_first name = Raise IndexError.
Proof.
  unfold py.split_first.
  induction name as [| ch rest IH]; cbn [list_ascii_of_string forallb];
    [reflexivity |].
  intros H. apply andb_true_iff in H as [H1 H2].
  cbn [py.split_from py.space_bytes]. rewrite H1. exact (IH H2).
Qed.

(** X27.  For a customer whose name is empty or all white space (of one
    byte), the sanction step on a complete record raises [IndexError]: the
    letter's greeting takes the first word of the name.  By then the clock
    has been read three times and the output directory made, and no file
    has been written. *)
Theorem sanction_blank_name_raises (db : list crm_tools.customer)
  (s : state.LoanApplicationState) (w : os.world) (cid : string)
  (c : crm_tools.customer) :
  spec.complete s = true ->
  state.get s state.customer_id = Some cid ->
  crm_tools.get_customer_by_id db cid = Some c ->
  forallb py.is_space (list_ascii_of_string (crm_tools.name c)) = true ->
  exists w',
    graph.sanction_agent_node db s w = (Raise IndexError, w')
    /\ os.ticks w' = (3 + os.ticks w)%nat
    /\ os.dirs w'
       = py.path_join (os.module_dir w) "../../data/output" :: os.dirs w
    /\ os.files w' = os.files w.
Proof.
  intros Hall Hcid Hc Hname. apply split_first_blank in Hname.
  unfold spec.complete in Hall.
  repeat (apply andb_true_iff in Hall as [Hall ?]).
  destruct (truthy_str_value _ Hall) as [cid' [E1 A1]].
  destruct (truthy_num_value _ H2) as [amount [E2 A2]].
  destruct (truthy_int_value _ H1) as [tenure [E3 A3]].
  destruct (truthy_num_value _ H0) as [rate [E4 A4]].
  destruct (truthy_num_value _ H) as [emi [E5 A5]].
  assert (cid' = cid) by congruence. subst cid'.
  unfold graph.sanction_agent_node, sanction_agent.generate_sanction.
  rewrite A1, A2, A3, A4, A5.
  unfold document_tools.generate_sanction_letter. rewrite Hc.
  unfold os.bind, os.now, os.dirname_of_module, os.makedirs, os.lift.
  cbn [os.clock os.ticks os.module_dir os.dirs os.files os.stdout].
  rewrite Hname.
  eexists. split; [reflexivity |]. repeat split.
Qed.

Lemma sanction_blank_name_raises_witness :
  exists w',
    graph.sanction_agent_node sample.more_customers
      (sample.approved "CUST901" 200000) (sample.world 15)
    = (Raise IndexError, w')
    /\ os.files w' = [].
Proof.
  destruct (sanction_blank_name_raises sample.more_customers
              (sample.approved "CUST901" 200000) (sample.world 15) "CUST901"
              sample.nameless eq_refl eq_refl eq_refl eq_refl)
    as [w' [H1 [_ [_ H2]]]].
  exists w'. split; assumption.
Defined.

(** ** Where the documents are found *)

Lemma string_app_assoc (a b c : string) : (a ++ b) ++ c = a ++ (b ++ c).
Proof.
  induction a as [| ch a IH]; [reflexivity |]. cbn [append]. now rewrite IH.
Qed.

Lemma has_slash_app (a b : string) :
  py.has_slash (a ++ b) = py.has_slash a || py.has_slash b.
Proof.
  induction a as [| ch a IH]; [reflexivity |].
  cbn [append py.has_slash]. rewrite IH. apply orb_assoc.
Qed.

Lemma basename_plain (b : string) : py.has_slash b = false -> py.basename b = b.
Proof.
  destruct b as [| ch b]; [reflexivity |]. cbn [py.has_slash py.basename].
  intros H. apply orb_false_iff in H as [H1 H2]. now rewrite H2, H1.
Qed.

Lemma basename_after_slash (a b : string) :
  py.has_slash b = false -> py.basename (a ++ String "/" b) = b.
Proof.
  intros Hb. induction a as [| ch a IH].
  - cbn. now rewrite Hb.
  - cbn [append py.basename].
    replace (py.has_slash (a ++ String "/" b)) with true; [exact IH |].
    symmetry. rewrite has_slash_app. cbn. apply orb_true_r.
Qed.

Lemma ends_with_slash_split (a : string) :
  py.ends_with_slash a = true -> exists a', a = a' ++ "/".
Proof.
  induction a as [| ch a IH]; [discriminate |].
  destruct a as [| ch' a].
  - cbn. intros H. apply Ascii.eqb_eq in H. subst ch. now exists "".
  - intros H. destruct (IH H) as [a' E]. exists (String ch a').
    cbn [append]. now rewrite <- E.
Qed.

(** [os.path.basename(os.path.join(a, b))] is [b] for a name [b] without a
    slash. *)
Lemma basename_path_join (a b : string) :
  py.has_slash b = false -> py.basename (py.path_join a b) = b.
Proof.
  intros Hb. unfold py.path_join.
  assert (Hjoin : py.basename
                    (if (a =? "") || py.ends_with_slash a then a ++ b
                     else a ++ "/" ++ b) = b).
  { destruct (String.eqb_spec a "") as [-> | _]; cbn [orb].
    - now apply basename_plain.
    - destruct (py.ends_with_slash a) eqn:E.
      + destruct (ends_with_slash_split a E) as [a' ->].
        rewrite string_app_assoc. apply (basename_after_slash a' b Hb).
      + apply (basename_after_slash a b Hb). }
  destruct b as [| ch b]; [exact Hjoin |].
  destruct ch as [[] [] [] [] [] [] [] []]; try exact Hjoin.
  cbn in Hb. discriminate Hb.
Qed.

Lemma digit_char_no_slash (n : Z) :
  (py.digit_char (n mod 10) =? "/")%char = false.
Proof.
  pose proof (Z.mod_pos_bound n 10 eq_refl) as B.
  remember (n mod 10)%Z as d.
  assert (D : (d = 0 \/ d = 1 \/ d = 2 \/ d = 3 \/ d = 4 \/ d = 5 \/ d = 6
               \/ d = 7 \/ d = 8 \/ d = 9)%Z) by lia.
  clear Heqd B.
  repeat (destruct D as [-> | D]; [reflexivity |]). subst d. reflexivity.
Qed.

Lemma digits_fuel_no_slash (fuel : nat) :
  forall n acc,
    py.has_slash (py.digits_fuel fuel n acc) = py.has_slash acc.
Proof.
  induction fuel as [| fuel IH]; intros n acc; cbn [py.digits_fuel];
    [reflexivity |].
  destruct (n <? 10)%Z; [| rewrite IH];
    cbn [py.has_slash]; now rewrite digit_char_no_slash.
Qed.

Lemma str_no_slash (z : Z) : py.has_slash (py.str z) = false.
Proof.
  unfold py.str, py.str_of_nonneg.
  destruct (z <? 0)%Z; [rewrite has_slash_app |];
    rewrite digits_fuel_no_slash; reflexivity.
Qed.

Lemma repeat_char_no_slash (n : nat) :
  py.has_slash (py.repeat_char "0" n) = false.
Proof. induction n as [| n IH]; [reflexivity | exact IH]. Qed.

Lemma zfill_no_slash (width : nat) (z : Z) :
  py.has_slash (py.zfill width (py.str z)) = false.
Proof.
  unfold py.zfill.
  now rewrite has_slash_app, repeat_char_no_slash, str_no_slash.
Qed.

Lemma strftime_no_slash (t : os.datetime) :
  py.has_slash (os.strftime_Ymd_HMS t) = false.
Proof.
  unfold os.strftime_Ymd_HMS, os.strftime_Ymd.
  rewrite !has_slash_app, !zfill_no_slash. reflexivity.
Qed.

(** X28.  When the customer id holds no ["/"], the location that a
    successful sanction step stores is ["/api/documents/download/"]
    followed by the name of the file it has written,
    [sanction_letter_<id>_<date>_<time>.pdf] with the date and time of the
    second reading of the clock: taking the base name of the path gives
    back the file name, for every installation directory. *)
Theorem sanction_letter_location (db : list crm_tools.customer)
  (s : state.LoanApplicationState) (w : os.world) (cid : string)
  (c : crm_tools.customer) (first : string) :
  spec.complete s = true ->
  state.get s state.customer_id = Some cid ->
  crm_tools.get_customer_by_id db cid = Some c ->
  py.split_first (crm_tools.name c) = Ok first ->
  py.has_slash cid = false ->
  let name :=
    "sanction_letter_" ++ cid ++ "_"
    ++ os.strftime_Ymd_HMS (os.clock w (S (os.ticks w))) ++ ".pdf" in
  exists s' w',
    graph.sanction_agent_node db s w = (Ok s', w')
    /\ state.get s' state.sanction_letter_url
       = Some ("/api/documents/download/" ++ name)
    /\ os.files w'
       = py.path_join (py.path_join (os.module_dir w) "../../data/output")
           name :: os.files w.
Proof.
  intros Hall Hcid Hc Hname Hslash name.
  destruct (sanction_node_complete db s w cid c first Hall Hcid Hc Hname)
    as [s' [E [_ [Url _]]]].
  exists s'. eexists. split; [exact E |].
  split; [| reflexivity].
  rewrite Url. unfold document_tools.get_document_download_url,
    spec.letter_path.
  rewrite basename_path_join; [reflexivity |].
  rewrite !has_slash_app, Hslash, strftime_no_slash. reflexivity.
Qed.

Lemma sanction_letter_location_witness :
  exists s' w',
    graph.sanction_agent_node sample.customers
      (sample.approved "CUST002" 300000) (sample.world 15) = (Ok s', w')
    /\ state.get s' state.sanction_letter_url
       = Some "/api/documents/download/sanction_letter_CUST002_20251015_090501.pdf".
Proof.
  destruct (sanction_letter_location sample.customers
              (sample.approved "CUST002" 300000) (sample.world 15) "CUST002"
              sample.CUST002 "Priya" eq_refl eq_refl eq_refl eq_refl eq_refl)
    as [s' [w' [H1 [H2 _]]]].
  exists s', w'. split; [exact H1 | exact H2].
Defined.

(** X29.  [save_uploaded_document] raises nothing; it reads the clock
    twice, the file name carrying the first reading and [uploaded_at] being
    the second.  When neither the document type nor the original file name
    holds a ["/"], the file is written in the customer's own upload
    directory under the name [<type>_<date>_<time>_<original name>], and
    the download URL of the returned path is
    ["/api/documents/download/"] followed by that name. *)
Theorem save_uploaded_document_location (cid document_type filename : string)
  (w : os.world) :
  py.has_slash document_type = false ->
  py.has_slash filename = false ->
  let name :=
    document_type ++ "_" ++ os.strftime_Ymd_HMS (os.clock w (os.ticks w))
    ++ "_" ++ filename in
  let upload_dir :=
    py.path_join (os.module_dir w) ("../../data/uploads/" ++ cid) in
  exists u w',
    document_tools.save_uploaded_document cid document_type filename w
    = (Ok u, w')
    /\ document_tools.upload_filename u = name
    /\ document_tools.upload_file_path u = py.path_join upload_dir name
    /\ py.basename (document_tools.upload_file_path u) = name
    /\ document_tools.get_document_download_url
         (document_tools.upload_file_path u)
       = "/api/documents/download/" ++ name
    /\ document_tools.uploaded_at u = os.clock w (S (os.ticks w))
    /\ os.ticks w' = (2 + os.ticks w)%nat
    /\ os.dirs w' = upload_dir :: os.dirs w
    /\ os.files w' = py.path_join upload_dir name :: os.files w.
Proof.
  intros Ht Hf name upload_dir.
  assert (Hn : py.has_slash name = false).
  { unfold name. rewrite !has_slash_app, Ht, Hf, strftime_no_slash.
    reflexivity. }
  unfold document_tools.save_uploaded_document, os.bind,
    os.dirname_of_module, os.makedirs, os.now, os.write_file, os.ret.
  cbn [os.clock os.ticks os.module_dir os.dirs os.files os.stdout].
  do 2 eexists. split; [reflexivity |].
  cbn [document_tools.upload_filename document_tools.upload_file_path
       document_tools.uploaded_at os.ticks os.dirs os.files os.clock
       os.module_dir].
  unfold document_tools.get_document_download_url.
  fold name. fold upload_dir.
  rewrite (basename_path_join upload_dir name Hn).
  repeat split.
Qed.

Lemma save_uploaded_document_location_witness :
  exists u w',
    document_tools.save_uploaded_document "CUST003" "salary_slip" "march.pdf"
      (sample.world 15) = (Ok u, w')
    /\ document_tools.get_document_download_url
         (document_tools.upload_file_path u)
       = "/api/documents/download/salary_slip_20251015_090500_march.pdf".
Proof.
  destruct (save_uploaded_document_location "CUST003" "salary_slip"
              "march.pdf" (sample.world 15) eq_refl eq_refl)
    as [u [w' [H1 [_ [_ [_ [H2 _]]]]]]].
  exists u, w'. split; [exact H1 | exact H2].
Defined.

(** ** From the request to the letter *)

Lemma underwriting_node_approves (db : list crm_tools.customer)
  (s : state.LoanApplicationState) (cid : string) (c : crm_tools.customer)
  (amount : Q) :
  state.get s state.customer_id = Some cid -> cid <> "" ->
  state.get s state.requested_amount = Some amount -> ~ amount == 0 ->
  crm_tools.get_customer_by_id db cid = Some c ->
  (700 <= crm_tools.credit_score c)%Z ->
  amount <= crm_tools.pre_approved_limit c ->
  ~ crm_tools.pre_approved_limit c == 0 ->
  ~ crm_tools.monthly_salary c == 0 ->
  exists s' msg,
    graph.underwriting_agent_node db s = Ok s'
    /\ state.get s' state.underwriting_decision = Some "approved"
    /\ state.get s' state.application_status = Some "approved"
    /\ state.get s' state.approved_amount = Some amount
    /\ state.get s' state.next_action = None
    /\ state.get s' state.conversation_history
       = (state.get s state.conversation_history ++ [ msg ])%list
    /\ forall k,
         k <> state.conversation_history -> k <> state.credit_score ->
         k <> state.underwriting_decision -> k <> state.approved_amount ->
         k <> state.conditional_requirements ->
         k <> state.rejection_reason -> k <> state.active_agent ->
         k <> state.next_action -> k <> state.application_status ->
         state.get s' k = state.get s k.
Proof.
  intros Hcid Hne Hamt Hnz Hc Hscore Hle Hlim Hsal.
  destruct (fetch_credit_score_found db cid c Hc) as [report [Hfetch _]].
  unfold graph.underwriting_agent_node, underwriting_agent.process_underwriting.
  rewrite Hcid, Hamt, (as_str_nonempty cid Hne), (as_num_nonzero amount Hnz).
  rewrite Hfetch, Hc.
  unfold credit_tools.check_eligibility. rewrite Hc.
  replace (crm_tools.credit_score c <? 700)%Z with false
    by (symmetry; apply Z.ltb_ge; lia).
  rewrite (Qle_bool_true _ _ Hle). cbn [py.bind].
  unfold credit_tools.calculate_risk_score. rewrite Hc.
  rewrite (div_nonzero _ _ Hlim), (div_nonzero _ _ Hsal). cbn [py.bind].
  do 2 eexists. split; [reflexivity |]. repeat split.
  intros k K1 K2 K3 K4 K5 K6 K7 K8 K9.
  destruct k; first [reflexivity | contradiction].
Qed.

Lemma sanction_node_letter (db : list crm_tools.customer)
  (s : state.LoanApplicationState) (w : os.world) (cid : string)
  (c : crm_tools.customer) (first : string) :
  spec.complete s = true ->
  state.get s state.customer_id = Some cid ->
  crm_tools.get_customer_by_id db cid = Some c ->
  py.split_first (crm_tools.name c) = Ok first ->
  let path := spec.letter_path w cid (os.clock w (S (os.ticks w))) in
  exists s' msg,
    graph.sanction_agent_node db s w = (Ok s', spec.after_letter w path)
    /\ state.get s' state.sanction_letter_ref_no
       = Some (spec.letter_reference cid (os.clock w (os.ticks w)))
    /\ state.get s' state.sanction_letter_url
       = Some (document_tools.get_document_download_url path)
    /\ state.get s' state.current_stage = Some "closure"
    /\ state.get s' state.next_action = None
    /\ state.get s' state.conversation_history
       = (state.get s state.conversation_history ++ [ msg ])%list
    /\ forall k,
         k <> state.conversation_history -> k <> state.sanction_letter_url ->
         k <> state.sanction_letter_ref_no -> k <> state.current_stage ->
         k <> state.active_agent -> k <> state.next_action ->
         state.get s' k = state.get s k.
Proof.
  intros Hall Hcid Hc Hname path.
  destruct (sanction_step_complete db s w cid c first Hall Hcid Hc Hname)
    as [r [Hgen [Href Hurl]]].
  unfold graph.sanction_agent_node, os.bind. rewrite Hgen.
  do 2 eexists. split; [reflexivity |].
  split; [cbn; now rewrite Href |].
  split; [cbn; now rewrite Hurl |].
  split; [reflexivity |]. split; [reflexivity |]. split; [reflexivity |].
  intros k K1 K2 K3 K4 K5 K6.
  destruct k; first [reflexivity | contradiction].
Qed.

(** A payment of an amount of at least one over 24 months at a positive
    rate does not round to zero. *)
Lemma recommended_payment_nonzero (amount rate : Q) :
  1 <= amount -> 0 < rate ->
  ~ py.round (spec.annuity amount (rate / 12) 24) 2 == 0.
Proof.
  intros Ha Hr.
  assert (Hm : 0 < rate / 12)
    by (change (rate / 12) with (rate * (1 # 12)); lra).
  destruct (annuity_bounds amount (rate / 12) 24) as [_ B]; [lra | exact Hm | reflexivity |].
  pose proof (round_2_error (spec.annuity amount (rate / 12) 24)) as E.
  apply Qabs_Qle_condition in E.
  change (amount / inject_Z 24) with (amount * (1 # 24)) in B.
  lra.
Qed.

(** X30.  The three worker steps compose: for a known customer with a
    credit score of at least 700, a salary on file and a name, who asks for
    an amount of at least 1 within the pre-approved limit, the sales step,
    the underwriting step and the sanction step, run in this order on the
    record, all succeed.  The record they leave is approved for the amount
    asked, in the closure stage, with the 24-month offer, the reference
    and the location of the letter written meanwhile, three messages
    longer, and the router ends the run on it. *)
Theorem request_reaches_closure (db : list crm_tools.customer)
  (s : state.LoanApplicationState) (w : os.world) (cid : string)
  (c : crm_tools.customer) (first : string) (amount : Q) :
  state.get s state.customer_id = Some cid -> cid <> "" ->
  state.get s state.requested_amount = Some amount -> 1 <= amount ->
  crm_tools.get_customer_by_id db cid = Some c ->
  (700 <= crm_tools.credit_score c)%Z ->
  amount <= crm_tools.pre_approved_limit c ->
  ~ crm_tools.monthly_salary c == 0 ->
  py.split_first (crm_tools.name c) = Ok first ->
  let path := spec.letter_path w cid (os.clock w (S (os.ticks w))) in
  exists s1 s2 s3,
    graph.sales_agent_node db s = Ok s1
    /\ graph.underwriting_agent_node db s1 = Ok s2
    /\ graph.sanction_agent_node db s2 w = (Ok s3, spec.after_letter w path)
    /\ state.get s3 state.application_status = Some "approved"
    /\ state.get s3 state.current_stage = Some "closure"
    /\ state.get s3 state.approved_amount = Some amount
    /\ state.get s3 state.tenure_months = Some 24%Z
    /\ state.get s3 state.sanction_letter_ref_no
       = Some (spec.letter_reference cid (os.clock w (os.ticks w)))
    /\ state.get s3 state.sanction_letter_url
       = Some (document_tools.get_document_download_url path)
    /\ List.length (state.get s3 state.conversation_history)
       = (3 + List.length (state.get s state.conversation_history))%nat
    /\ graph.route_master_agent s3 = "end".
Proof.
  intros Hcid Hne Hamt Hone Hc Hscore Hle Hsal Hname path.
  assert (Hnz : ~ amount == 0) by lra.
  assert (Hlim : ~ crm_tools.pre_approved_limit c == 0) by lra.
  destruct (sales_node_offers db s cid c amount Hcid Hne Hamt Hnz Hc Hsal)
    as [s1 [rate [m1 [E1 [_ [T1 [R1 [Hrate [M1 [_ [_ [H1 [_ [_ F1]]]]]]]]]]]]]].
  assert (Hcid1 : state.get s1 state.customer_id = Some cid)
    by (rewrite F1; [exact Hcid | discriminate ..]).
  assert (Hamt1 : state.get s1 state.requested_amount = Some amount)
    by (rewrite F1; [exact Hamt | discriminate ..]).
  destruct (underwriting_node_approves db s1 cid c amount Hcid1 Hne Hamt1 Hnz
              Hc Hscore Hle Hlim Hsal)
    as [s2 [m2 [E2 [_ [S2 [A2 [_ [H2 F2]]]]]]]].
  assert (Hcid2 : state.get s2 state.customer_id = Some cid)
    by (rewrite F2; [exact Hcid1 | discriminate ..]).
  assert (T2 : state.get s2 state.tenure_months = Some 24%Z)
    by (rewrite F2; [exact T1 | discriminate ..]).
  assert (R2 : state.get s2 state.interest_rate = Some rate)
    by (rewrite F2; [exact R1 | discriminate ..]).
  assert (M2 : state.get s2 state.monthly_emi
               = Some (py.round (spec.annuity amount (rate / 12) 24) 2))
    by (rewrite F2; [exact M1 | discriminate ..]).
  assert (Hall : spec.complete s2 = true).
  { unfold spec.complete. rewrite Hcid2, A2, T2, R2, M2.
    unfold py.truthy_str, py.truthy_num, py.truthy_int.
    destruct (String.eqb_spec cid ""); [contradiction |].
    rewrite (Qeq_bool_false amount 0 Hnz).
    rewrite (Qeq_bool_false rate 0) by lra.
    rewrite (Qeq_bool_false _ 0 (recommended_payment_nonzero amount rate Hone
                                   ltac:(lra))).
    reflexivity. }
  destruct (sanction_node_letter db s2 w cid c first Hall Hcid2 Hc Hname)
    as [s3 [m3 [E3 [Ref [Url [St [N3 [H3 F3]]]]]]]].
  exists s1, s2, s3.
  split; [exact E1 |]. split; [exact E2 |]. split; [exact E3 |].
  assert (S3 : state.get s3 state.application_status = Some "approved")
    by (rewrite F3; [exact S2 | discriminate ..]).
  split; [exact S3 |]. split; [exact St |].
  split; [rewrite F3; [exact A2 | discriminate ..] |].
  split; [rewrite F3; [exact T2 | discriminate ..] |].
  split; [exact Ref |]. split; [exact Url |].
  split; [rewrite H3, H2, H1, !length_app; cbn [List.length]; lia |].
  unfold graph.route_master_agent. rewrite N3, St, S3. reflexivity.
Qed.

Lemma request_reaches_closure_witness :
  exists s1 s2 s3 w',
    graph.sales_agent_node sample.customers
      (sample.application "CUST001" 400000) = Ok s1
    /\ graph.underwriting_agent_node sample.customers s1 = Ok s2
    /\ graph.sanction_agent_node sample.customers s2 (sample.world 15)
       = (Ok s3, w')
    /\ state.get s3 state.application_status = Some "approved"
    /\ state.get s3 state.current_stage = Some "closure"
    /\ graph.route_master_agent s3 = "end".
Proof.
  assert (A2 : "CUST001" <> "") by discriminate.
  assert (A4 : 1 <= 400000) by (intros E; discriminate E).
  assert (A6 : (700 <= crm_tools.credit_score sample.CUST001)%Z)
    by (intros E; discriminate E).
  assert (A7 : 400000 <= crm_tools.pre_approved_limit sample.CUST001)
    by (intros E; discriminate E).
  assert (A8 : ~ crm_tools.monthly_salary sample.CUST001 == 0)
    by (intros E; vm_compute in E; discriminate E).
  destruct (request_reaches_closure sample.customers
              (sample.application "CUST001" 400000) (sample.world 15)
              "CUST001" sample.CUST001 "Rajesh" 400000
              eq_refl A2 eq_refl A4 eq_refl A6 A7 A8 eq_refl)
    as [s1 [s2 [s3 [H1 [H2 [H3 [H4 [H5 [_ [_ [_ [_ [_ H6]]]]]]]]]]]]].
  exists s1, s2, s3. eexists.
  split; [exact H1 |]. split; [exact H2 |]. split; [exact H3 |].
  split; [exact H4 |]. split; [exact H5 | exact H6].
Defined.
